(** * Bantu-OS: the orchestration core, embedded and checked against its specification

    The development follows the source tree:
    - [Py]: the Python built-ins the code leans on (exceptions, the
      insertion-ordered [dict], [str.strip], [str.find], [str.lower]);
    - [VectorDB] and [Memory]: [bantu_os/memory/vector_db.py], [memory.py];
    - [Json]: [json.loads], as [agent_manager.py] uses it;
    - [Kernel]: [bantu_os/core/kernel/kernel.py] and [llm_manager.py];
    - [AgentManager]: [bantu_os/agents/agent_manager.py];
    - [Re], [Datetime]: the fragments of [re] and [datetime] the scheduler uses;
    - [SchedulingAgent]: [bantu_os/agents/scheduling_agent.py];
    - [LLMModels]: loading and selecting models in [llm_manager.py], with the
      constructor of [providers/openai_chat.py];
    - [TaskManager]: [bantu_os/agents/task_manager.py];
    - [History], [Turn], [Plan]: runs of calls and the vocabulary of the
      statements about them.

    Stateful methods return the outcome of the call together with the object
    afterwards; a call that raises is a [Py.Raise].  The statements about the
    code come after the definitions, one module per component. *)

From Stdlib Require Import ZArith List String Ascii Bool Lia.
From Stdlib Require Import Sorting.Sorted Sorting.Permutation.
From Stdlib Require Import SpecFloat DecimalString DecimalNat.
From stdpp Require Import gmap strings.
Import ListNotations.

Set Warnings "-register-all".
Local Open Scope string_scope.
Local Open Scope Z_scope.

(* ===================================================================== *)
(** * Python built-ins *)
(* ===================================================================== *)

Module Py.

(** Exception classes that occur in the modelled code.  Every one of them
    derives from [Exception], which is what [except Exception] catches. *)
Inductive exc_class : Type :=
| TypeError
| ValueError
| RuntimeError
| KeyError
| AttributeError
| OverflowError
| ReError
| OtherException (name : string).

Record exc : Type := Exc { exc_cls : exc_class; exc_msg : string }.

(** A call either returns a value or raises. *)
Inductive result (A : Type) : Type :=
| Return (a : A)
| Raise (e : exc).
Arguments Return {A} a.
Arguments Raise {A} e.

Definition bind {A B} (m : result A) (k : A -> result B) : result B :=
  match m with
  | Return a => k a
  | Raise e => Raise e
  end.

Definition is_TypeError (e : exc) : bool :=
  match exc_cls e with TypeError => true | _ => false end.

(** [f"{n}"] for an [int]. *)
Definition str_of_nat (n : nat) : string :=
  NilEmpty.string_of_uint (Nat.to_uint n).

Definition str_of_Z (z : Z) : string :=
  if z <? 0 then "-" ++ str_of_nat (Z.abs_nat z) else str_of_nat (Z.abs_nat z).

(** The limit CPython puts on the conversion between [int] and [str]:
    [sys.get_int_max_str_digits()], 4300 unless the interpreter is told
    otherwise.  A conversion of more decimal digits than that, the sign not
    counted, raises [ValueError], in [str(n)] as in [int(s)]. *)
Definition int_max_str_digits : Z := 4300.

Definition int_digits (z : Z) : Z :=
  match z with
  | Z0 => 1
  | Zpos p | Zneg p => Z.of_nat (Decimal.nb_digits (Pos.to_uint p))
  end.

Definition exceeds_limit (z : Z) : bool := int_max_str_digits <? int_digits z.

Definition digit_limit_error : exc :=
  Exc ValueError
      ("Exceeds the limit (4300 digits) for integer string conversion; "
       ++ "use sys.set_int_max_str_digits() to increase the limit").

(** [str(n)] for an [int]. *)
Definition str_of_int (z : Z) : result string :=
  if exceeds_limit z then Raise digit_limit_error else Return (str_of_Z z).

(** ** Insertion-ordered [dict] with [str] keys

    Assigning to a key that is present keeps the key's position and replaces
    its value; assigning to a new key appends it. *)
Section Dict.
Context {V : Type}.

Definition dict : Type := list (string * V).

Fixpoint dict_get (k : string) (d : dict) : option V :=
  match d with
  | [] => None
  | (k', v) :: d' => if String.eqb k' k then Some v else dict_get k d'
  end.

Definition dict_mem (k : string) (d : dict) : bool :=
  match dict_get k d with Some _ => true | None => false end.

Fixpoint dict_set (k : string) (v : V) (d : dict) : dict :=
  match d with
  | [] => [(k, v)]
  | (k', v') :: d' =>
      if String.eqb k' k then (k', v) :: d' else (k', v') :: dict_set k v d'
  end.

Fixpoint dict_del (k : string) (d : dict) : dict :=
  match d with
  | [] => []
  | (k', v') :: d' =>
      if String.eqb k' k then d' else (k', v') :: dict_del k d'
  end.

Definition dict_keys (d : dict) : list string := map fst d.
Definition dict_values (d : dict) : list V := map snd d.
End Dict.
Arguments dict V : clear implicits.

(** ** [str]

    Text is ASCII text held in a [string]; bytes above 127 only occur as the
    UTF-8 encoding of other characters and are neither spaces, letters nor
    digits here. *)

Definition code (c : ascii) : nat := nat_of_ascii c.

Definition in_range (lo hi : nat) (c : ascii) : bool :=
  (lo <=? code c)%nat && (code c <=? hi)%nat.

(** [str.isspace] on ASCII: TAB..CR, FS..US and the space. *)
Definition is_space (c : ascii) : bool :=
  in_range 9 13 c || in_range 28 32 c.

Definition is_digit (c : ascii) : bool := in_range 48 57 c.
Definition is_upper (c : ascii) : bool := in_range 65 90 c.
Definition is_alpha (c : ascii) : bool := in_range 65 90 c || in_range 97 122 c.

Definition lower_char (c : ascii) : ascii :=
  if is_upper c then ascii_of_nat (code c + 32) else c.

(** [str.lower] *)
Fixpoint lower (s : string) : string :=
  match s with
  | EmptyString => EmptyString
  | String c s' => String (lower_char c) (lower s')
  end.

Fixpoint lstrip (s : string) : string :=
  match s with
  | String c s' => if is_space c then lstrip s' else s
  | EmptyString => EmptyString
  end.

Fixpoint rstrip (s : string) : string :=
  match s with
  | EmptyString => EmptyString
  | String c s' =>
      match rstrip s' with
      | EmptyString => if is_space c then EmptyString else String c EmptyString
      | r => String c r
      end
  end.

(** [str.strip] *)
Definition strip (s : string) : string := rstrip (lstrip s).

(** [s.find(c)] and [s.rfind(c)] for a one-character [c]: an index, or -1. *)
Fixpoint find (c : ascii) (s : string) : Z :=
  match s with
  | EmptyString => -1
  | String c' s' =>
      if Ascii.eqb c' c then 0
      else let r := find c s' in if r <? 0 then -1 else r + 1
  end.

Fixpoint rfind (c : ascii) (s : string) : Z :=
  match s with
  | EmptyString => -1
  | String c' s' =>
      let r := rfind c s' in
      if 0 <=? r then r + 1 else if Ascii.eqb c' c then 0 else -1
  end.

(** [s[a:b]] for [0 <= a <= b]. *)
Definition slice (s : string) (a b : Z) : string :=
  String.substring (Z.to_nat a) (Z.to_nat (b - a)) s.

(** [s.startswith(p)] and [p in s]. *)
Definition startswith (p s : string) : bool := String.prefix p s.

Fixpoint contains (p s : string) : bool :=
  String.prefix p s
  || match s with
     | EmptyString => false
     | String _ s' => contains p s'
     end.

(** Truth value of a [str]. *)
Definition nonempty (s : string) : bool :=
  match s with EmptyString => false | _ => true end.

(** [sep.join(l)] *)
Fixpoint join (sep : string) (l : list string) : string :=
  match l with
  | [] => EmptyString
  | [x] => x
  | x :: l' => x ++ sep ++ join sep l'
  end.

(** The double quote, and [s] between double quotes. *)
Definition dquote : ascii := ascii_of_nat 34.
Definition quoted (s : string) : string :=
  String dquote (s ++ String dquote EmptyString).

End Py.

Declare Scope py_scope.
Delimit Scope py_scope with py.
Notation "x <- m ;; k" := (Py.bind m (fun x => k))
  (at level 100, m at next level, right associativity) : py_scope.

(* ===================================================================== *)
(** * [memory/vector_db.py] and [memory/memory.py] *)
(* ===================================================================== *)

Module VectorDB.

(** Array elements are IEEE-754 binary floats.  [Memory] casts every
    embedding with [astype(np.float32)], so the format is binary32:
    24 bits of precision, exponent bound 128. *)
Definition prec : Z := 24.
Definition emax : Z := 128.
Abbreviation float := spec_float.

Definition fzero : float := S754_zero false.
Definition fadd : float -> float -> float := SFadd prec emax.
Definition fmul : float -> float -> float := SFmul prec emax.
Definition fdiv : float -> float -> float := SFdiv prec emax.
Definition fsqrt : float -> float := SFsqrt prec emax.

Definition is_nan (x : float) : bool :=
  match x with S754_nan => true | _ => false end.

Definition not_nan (x : float) : Prop := is_nan x = false.



Definition ndarray : Type := list float.
Definition metadata : Type := Py.dict string.

(** [@dataclass class VectorRecord] *)
Record VectorRecord : Type := {
  id : string;
  vector : ndarray;
  meta : metadata;
  text : option string
}.

(** [class VectorDB]: [self.dim] and [self.records], a [dict] keyed by id. *)
Record t : Type := {
  dim : Z;
  records : Py.dict VectorRecord
}.

(** [VectorDB.__init__] *)
Definition init (d : Z) : t := {| dim := d; records := [] |}.

Definition len {A} (l : list A) : Z := Z.of_nat (length l).

Definition dim_error (d : Z) : Py.exc :=
  Py.Exc Py.ValueError ("Vector dimension must be " ++ Py.str_of_Z d).

(** [VectorDB.add]: the outcome of the call and the database afterwards. *)
Definition add (db : t) (v : ndarray) (m : metadata) (txt : option string)
  : Py.result string * t :=
  if negb (len v =? dim db) then (Py.Raise (dim_error (dim db)), db)
  else
    let record_id := "vec_" ++ Py.str_of_nat (length (records db) + 1) in
    let r := {| id := record_id; vector := v; meta := m; text := txt |} in
    (Py.Return record_id,
     {| dim := dim db; records := Py.dict_set record_id r (records db) |}).

(** [VectorDB.get] *)
Definition get (db : t) (record_id : string) : option VectorRecord :=
  Py.dict_get record_id (records db).

(** [VectorDB.delete] *)
Definition delete (db : t) (record_id : string) : bool * t :=
  if Py.dict_mem record_id (records db)
  then (true, {| dim := dim db; records := Py.dict_del record_id (records db) |})
  else (false, db).

(** ** [VectorDB.search] *)

(** [np.dot] of two one-dimensional arrays of the same length, and
    [np.linalg.norm], the square root of [dot x x].  The order in which
    NumPy adds the products is that of the kernel it was built with; they
    are added from the left here, so that the last bits of a similarity may
    differ from NumPy's.  The statements about [search] rest on what holds
    in every order of addition: which results are NaN, zero or infinite, and
    the order, the number and the records of the hits. *)
Definition dot (u v : ndarray) : float :=
  fold_left fadd (map (fun p => fmul (fst p) (snd p)) (combine u v)) fzero.

Definition norm (u : ndarray) : float := fsqrt (dot u u).

(** The expression of lines 46-48: no test on the denominator. *)
Definition cosine (q r : ndarray) : float :=
  fdiv (dot q r) (fmul (norm q) (norm r)).

(** [list.sort(key=..., reverse=True)].  CPython reverses the list, sorts
    it stably in ascending order comparing keys with [<] only, and reverses
    the result.  The ascending pass is modelled as an insertion sort: every
    element goes in front of the first element whose key is strictly
    greater. *)
Section Sort.
Context {A : Type} (key : A -> float).

Fixpoint insort (x : A) (l : list A) : list A :=
  match l with
  | [] => [x]
  | y :: l' => if SFltb (key x) (key y) then x :: l else y :: insort x l'
  end.

Definition sort_asc (l : list A) : list A :=
  fold_left (fun acc x => insort x acc) l [].

Definition sort_reverse (l : list A) : list A := rev (sort_asc (rev l)).

(** Vocabulary for the order of a sorted list: [a] may stand before [b]
    in ascending order when [b < a] fails, in descending order when
    [b <= a] holds; [numbers l] says no key in [l] is NaN; [tied c a]
    says the key of [a] compares equal to [c]. *)
Definition le (a b : A) : Prop := SFltb (key b) (key a) = false.
Definition ge (a b : A) : Prop := SFleb (key b) (key a) = true.
Definition numbers (l : list A) : Prop := Forall (fun a => not_nan (key a)) l.
Definition tied (c : float) (a : A) : bool := SFeqb (key a) c.
End Sort.

(** The slice [l[:k]] for any [int] [k]: a negative [k] counts from the end. *)
Definition slice_to {A} (k : Z) (l : list A) : list A :=
  if k <? 0 then firstn (Z.to_nat (len l + k)) l else firstn (Z.to_nat k) l.

(** One entry of the returned list.  [float(similarity)] widens the
    binary32 value to a Python [float] without changing it. *)
Record hit : Type := {
  hit_id : string;
  similarity : float;
  hit_metadata : metadata;
  hit_text : option string
}.

Definition to_hit (p : VectorRecord * float) : hit :=
  {| hit_id := id (fst p); similarity := snd p;
     hit_metadata := meta (fst p); hit_text := text (fst p) |}.

(** The list [similarities] built by the loop of lines 44-49. *)
Definition similarities (db : t) (q : ndarray) : list (VectorRecord * float) :=
  map (fun r => (r, cosine q (vector r))) (Py.dict_values (records db)).

Definition query_dim_error (d : Z) : Py.exc :=
  Py.Exc Py.ValueError ("Query vector dimension must be " ++ Py.str_of_Z d).

Definition search (db : t) (q : ndarray) (top_k : Z) : Py.result (list hit) :=
  if negb (len q =? dim db) then Py.Raise (query_dim_error (dim db))
  else
    Py.Return (map to_hit (slice_to top_k (sort_reverse snd (similarities db q)))).

End VectorDB.

Module Memory.

(** [EmbeddingsProvider.embed]: a list of texts to a list of vectors; the
    provider is a collaborator and may raise. *)
Definition EmbeddingsProvider : Type :=
  list string -> Py.result (list VectorDB.ndarray).

(** [class Memory].  [store] is the [VectorDBStore] adapter, which only
    delegates to the [VectorDB] it wraps. *)
Record t : Type := {
  store : VectorDB.t;
  embeddings : option EmbeddingsProvider;
  dim : Z
}.

(** [Memory.__init__] with the default store. *)
Definition init (e : option EmbeddingsProvider) (d : Z) : t :=
  {| store := VectorDB.init d; embeddings := e; dim := d |}.

Definition set_embeddings_provider (m : t) (p : EmbeddingsProvider) : t :=
  {| store := store m; embeddings := Some p; dim := dim m |}.

Definition dim_error (got expected : Z) : Py.exc :=
  Py.Exc Py.ValueError
    ("Embedding dim " ++ Py.str_of_Z got ++ " != expected " ++ Py.str_of_Z expected).

(** [Memory.store_memory]; [embedding.shape[-1]] of a one-dimensional array
    is its length, [metadata or {}] is [md] with [None] read as empty, and
    [astype(np.float32)] leaves a binary32 array as it is. *)
Definition store_memory (m : t) (query : string) (embedding : VectorDB.ndarray)
           (md : option VectorDB.metadata) : Py.result string * t :=
  if negb (VectorDB.len embedding =? dim m)
  then (Py.Raise (dim_error (VectorDB.len embedding) (dim m)), m)
  else
    let '(r, db') :=
      VectorDB.add (store m) embedding
                   (match md with Some d => d | None => [] end) (Some query) in
    (r, {| store := db'; embeddings := embeddings m; dim := dim m |}).

Definition not_configured : Py.exc :=
  Py.Exc Py.RuntimeError "Embeddings provider not configured for Memory".

(** [vecs[0]] *)
Definition first {A} (l : list A) : Py.result A :=
  match l with
  | x :: _ => Py.Return x
  | [] => Py.Raise (Py.Exc (Py.OtherException "IndexError") "list index out of range")
  end.

(** [Memory.store_text] *)
Definition store_text (m : t) (txt : string) (md : option VectorDB.metadata)
  : Py.result string * t :=
  match embeddings m with
  | None => (Py.Raise not_configured, m)
  | Some embed =>
      match (vecs <- embed [txt] ;; first vecs)%py with
      | Py.Raise e => (Py.Raise e, m)
      | Py.Return v => store_memory m txt v md
      end
  end.

(** [Memory.retrieve_memory] *)
Definition retrieve_memory (m : t) (query : string) (top_k : Z)
  : Py.result (list VectorDB.hit) :=
  match embeddings m with
  | None => Py.Raise not_configured
  | Some embed =>
      (vecs <- embed [query] ;;
       v <- first vecs ;;
       VectorDB.search (store m) v top_k)%py
  end.

End Memory.

(* ===================================================================== *)
(** * [json.loads] *)
(* ===================================================================== *)

Module Json.

(** Decoded values.  A number with a fraction or an exponent decodes to a
    [float]; it is kept as the decimal [m * 10^e] that was written. *)
Inductive value : Type :=
| JNull
| JBool (b : bool)
| JInt (z : Z)
| JFloat (neg : bool) (m e : Z)
| JNaN
| JInf (neg : bool)
| JStr (s : string)
| JArr (l : list value)
| JObj (d : list (string * value)).

Definition is_ws (c : ascii) : bool :=
  match Py.code c with
  | 32%nat | 9%nat | 10%nat | 13%nat => true
  | _ => false
  end.

Fixpoint skip_ws (s : string) : string :=
  match s with
  | String c s' => if is_ws c then skip_ws s' else s
  | EmptyString => EmptyString
  end.

Definition digit (c : ascii) : option Z :=
  if Py.is_digit c then Some (Z.of_nat (Py.code c - 48)) else None.

(** A maximal run of decimal digits: its value, its length, what follows. *)
Fixpoint digits (acc n : Z) (s : string) : Z * Z * string :=
  match s with
  | String c s' =>
      match digit c with
      | Some d => digits (10 * acc + d) (n + 1) s'
      | None => (acc, n, s)
      end
  | EmptyString => (acc, n, s)
  end.

(** A number: an optional minus sign, an integer part that is either a
    single zero or starts with a non-zero digit, an optional fraction (a dot
    and at least one digit) and an optional exponent. *)
Definition scan_int (s : string) : option (Z * string) :=
  match s with
  | String c r =>
      if Ascii.eqb c "0" then Some (0, r)
      else if Py.is_digit c then let '(i, _, r') := digits 0 0 s in Some (i, r')
      else None
  | EmptyString => None
  end.

Definition scan_frac (s : string) : option (Z * Z * string) :=
  match s with
  | String c r =>
      if Ascii.eqb c "." then
        let '(f, n, r') := digits 0 0 r in
        if n =? 0 then None else Some (f, n, r')
      else None
  | EmptyString => None
  end.

Definition scan_exp (s : string) : option (Z * string) :=
  match s with
  | String c r =>
      if Ascii.eqb c "e" || Ascii.eqb c "E" then
        let '(sg, r1) :=
          match r with
          | String c1 r1 =>
              if Ascii.eqb c1 "-" then (-1, r1)
              else if Ascii.eqb c1 "+" then (1, r1) else (1, r)
          | EmptyString => (1, r)
          end in
        let '(x, n, r2) := digits 0 0 r1 in
        if n =? 0 then None else Some (sg * x, r2)
      else None
  | EmptyString => None
  end.

Definition scan_number (s : string) : option (value * string) :=
  let '(neg, s1) :=
    match s with
    | String c r => if Ascii.eqb c "-" then (true, r) else (false, s)
    | EmptyString => (false, s)
    end in
  match scan_int s1 with
  | None => None
  | Some (i, r) =>
      let '(frac, r1) :=
        match scan_frac r with
        | Some (f, n, r1) => (Some (f, n), r1)
        | None => (None, r)
        end in
      let '(ex, r2) :=
        match scan_exp r1 with
        | Some (x, r2) => (Some x, r2)
        | None => (None, r1)
        end in
      match frac, ex with
      | None, None =>
          (* [int(s)]: an integer of more digits than the limit is refused *)
          if Py.exceeds_limit i then None else Some (JInt (if neg then - i else i), r2)
      | _, _ =>
          let '(f, n) := match frac with Some p => p | None => (0, 0) end in
          let x := match ex with Some x => x | None => 0 end in
          Some (JFloat neg (i * 10 ^ n + f) (x - n), r2)
      end
  end.

Definition hex_val (c : ascii) : option Z :=
  if Py.is_digit c then Some (Z.of_nat (Py.code c - 48))
  else if Py.in_range 97 102 c then Some (Z.of_nat (Py.code c - 87))
  else if Py.in_range 65 70 c then Some (Z.of_nat (Py.code c - 55))
  else None.

(** The four hexadecimal digits after a backslash-u. *)
Definition hex4 (s : string) : option (Z * string) :=
  match s with
  | String a (String b (String c (String d r))) =>
      match hex_val a, hex_val b, hex_val c, hex_val d with
      | Some x, Some y, Some z, Some w => Some (((x * 16 + y) * 16 + z) * 16 + w, r)
      | _, _, _, _ => None
      end
  | _ => None
  end.

Definition byte (z : Z) : ascii := ascii_of_nat (Z.to_nat z).

(** The UTF-8 encoding of a code point. *)
Definition utf8 (cp : Z) : string :=
  if cp <? 128 then String (byte cp) EmptyString
  else if cp <? 2048 then
    String (byte (192 + cp / 64)) (String (byte (128 + cp mod 64)) EmptyString)
  else if cp <? 65536 then
    String (byte (224 + cp / 4096))
      (String (byte (128 + (cp / 64) mod 64))
         (String (byte (128 + cp mod 64)) EmptyString))
  else
    String (byte (240 + cp / 262144))
      (String (byte (128 + (cp / 4096) mod 64))
         (String (byte (128 + (cp / 64) mod 64))
            (String (byte (128 + cp mod 64)) EmptyString))).

Definition simple_escape (c : ascii) : option ascii :=
  if Ascii.eqb c Py.dquote then Some Py.dquote
  else if Ascii.eqb c "\" then Some "\"%char
  else if Ascii.eqb c "/" then Some "/"%char
  else if Ascii.eqb c "b" then Some (ascii_of_nat 8)
  else if Ascii.eqb c "f" then Some (ascii_of_nat 12)
  else if Ascii.eqb c "n" then Some (ascii_of_nat 10)
  else if Ascii.eqb c "r" then Some (ascii_of_nat 13)
  else if Ascii.eqb c "t" then Some (ascii_of_nat 9)
  else None.

(** The body of a string, after its opening quote (strict mode: no raw
    control character). *)
Fixpoint scanstring (fuel : nat) (s : string) : option (string * string) :=
  match fuel with
  | O => None
  | S fuel' =>
      match s with
      | EmptyString => None
      | String c r =>
          if Ascii.eqb c Py.dquote then Some (EmptyString, r)
          else if Ascii.eqb c "\" then
            match r with
            | EmptyString => None
            | String e r1 =>
                if Ascii.eqb e "u" then
                  match hex4 r1 with
                  | None => None
                  | Some (hi, r2) =>
                      let '(cp, r3) :=
                        match r2 with
                        | String b1 (String b2 r2') =>
                            if (55296 <=? hi) && (hi <=? 56319)
                               && Ascii.eqb b1 "\" && Ascii.eqb b2 "u" then
                              match hex4 r2' with
                              | Some (lo, r3) =>
                                  if (56320 <=? lo) && (lo <=? 57343)
                                  then (65536 + (hi - 55296) * 1024 + (lo - 56320), r3)
                                  else (hi, r2)
                              | None => (hi, r2)
                              end
                            else (hi, r2)
                        | _ => (hi, r2)
                        end in
                      match scanstring fuel' r3 with
                      | Some (t, r4) => Some (utf8 cp ++ t, r4)
                      | None => None
                      end
                  end
                else
                  match simple_escape e with
                  | None => None
                  | Some x =>
                      match scanstring fuel' r1 with
                      | Some (t, r2) => Some (String x t, r2)
                      | None => None
                      end
                  end
            end
          else if (Py.code c <? 32)%nat then None
          else
            match scanstring fuel' r with
            | Some (t, r1) => Some (String c t, r1)
            | None => None
            end
      end
  end.

Definition drop (n : nat) (s : string) : string :=
  String.substring n (String.length s - n) s.

(** The scanner: one value at the start of [s], and what follows it. *)
Fixpoint scan_once (fuel : nat) (s : string) : option (value * string) :=
  match fuel with
  | O => None
  | S fuel' =>
      match s with
      | EmptyString => None
      | String c r =>
          if Ascii.eqb c Py.dquote then
            match scanstring (S (String.length r)) r with
            | Some (t, r1) => Some (JStr t, r1)
            | None => None
            end
          else if Ascii.eqb c "{" then
            match skip_ws r with
            | String c1 r1 =>
                if Ascii.eqb c1 "}" then Some (JObj [], r1)
                else members fuel' (String c1 r1) []
            | EmptyString => None
            end
          else if Ascii.eqb c "[" then
            match skip_ws r with
            | String c1 r1 =>
                if Ascii.eqb c1 "]" then Some (JArr [], r1)
                else elements fuel' (String c1 r1) []
            | EmptyString => None
            end
          else if String.prefix "null" s then Some (JNull, drop 4 s)
          else if String.prefix "true" s then Some (JBool true, drop 4 s)
          else if String.prefix "false" s then Some (JBool false, drop 5 s)
          else
            match scan_number s with
            | Some x => Some x
            | None =>
                if String.prefix "NaN" s then Some (JNaN, drop 3 s)
                else if String.prefix "Infinity" s then Some (JInf false, drop 8 s)
                else if String.prefix "-Infinity" s then Some (JInf true, drop 9 s)
                else None
            end
      end
  end

(** The members of an object, [s] standing at the quote that opens a key;
    a key written twice keeps its first place and its last value. *)
with members (fuel : nat) (s : string) (acc : list (string * value))
  : option (value * string) :=
  match fuel with
  | O => None
  | S fuel' =>
      match s with
      | EmptyString => None
      | String c r =>
          if negb (Ascii.eqb c Py.dquote) then None
          else
            match scanstring (S (String.length r)) r with
            | None => None
            | Some (key, r1) =>
                match skip_ws r1 with
                | EmptyString => None
                | String c2 r2 =>
                    if negb (Ascii.eqb c2 ":") then None
                    else
                      match scan_once fuel' (skip_ws r2) with
                      | None => None
                      | Some (v, r3) =>
                          let acc' := Py.dict_set key v acc in
                          match skip_ws r3 with
                          | EmptyString => None
                          | String c4 r4 =>
                              if Ascii.eqb c4 "}" then Some (JObj acc', r4)
                              else if Ascii.eqb c4 "," then members fuel' (skip_ws r4) acc'
                              else None
                          end
                      end
                end
            end
      end
  end

(** The elements of an array, [s] standing at the first of them. *)
with elements (fuel : nat) (s : string) (acc : list value)
  : option (value * string) :=
  match fuel with
  | O => None
  | S fuel' =>
      match scan_once fuel' s with
      | None => None
      | Some (v, r) =>
          match skip_ws r with
          | EmptyString => None
          | String c r1 =>
              if Ascii.eqb c "]" then Some (JArr (acc ++ [v]), r1)
              else if Ascii.eqb c "," then elements fuel' (skip_ws r1) (acc ++ [v])
              else None
          end
      end
  end.

(** [json.loads]: [None] stands for the exception it raises, a
    [JSONDecodeError] or, for an integer beyond the digit limit, a
    [ValueError]; both derive from [Exception]. *)
Definition loads (s : string) : option value :=
  match scan_once (S (String.length s)) (skip_ws s) with
  | Some (v, r) =>
      match skip_ws r with
      | EmptyString => Some v
      | _ => None
      end
  | None => None
  end.

(** Truth value of a decoded value.  A decimal below half the least
    positive double reads as [0.0]. *)
Definition float_nonzero (m e : Z) : bool :=
  negb (m =? 0) && ((0 <=? e) || (10 ^ (- e) <? m * 2 ^ 1075)).

Definition truthy (v : value) : bool :=
  match v with
  | JNull => false
  | JBool b => b
  | JInt z => negb (z =? 0)
  | JFloat _ m e => float_nonzero m e
  | JNaN | JInf _ => true
  | JStr s => Py.nonempty s
  | JArr l => match l with [] => false | _ => true end
  | JObj d => match d with [] => false | _ => true end
  end.

End Json.

(* ===================================================================== *)
(** * [core/kernel/kernel.py] and [llm_manager.py] *)
(* ===================================================================== *)

Module Kernel.

(** [ChatMessage] *)
Record ChatMessage : Type := { role : string; content : string }.

(** [GenerateResult]; the key [text] may be absent. *)
Record GenerateResult : Type := { text : option string }.

(** The generation options [process_input] passes on. *)
Record GenOptions : Type := {
  temperature : Json.value;
  max_tokens : option Z
}.

(** [LLMProvider.generate] *)
Definition LLMProvider : Type :=
  list ChatMessage -> GenOptions -> Py.result GenerateResult.

(** [class LLMManager] *)
Record LLMManager : Type := {
  models : gmap string LLMProvider;
  active_model : option string
}.

Definition no_active_model : Py.exc :=
  Py.Exc Py.RuntimeError "No active model configured in LLMManager.".

(** [LLMManager.generate] *)
Definition generate (llm : LLMManager) (messages : list ChatMessage) (o : GenOptions)
  : Py.result GenerateResult :=
  match active_model llm with
  | None => Py.Raise no_active_model
  | Some a =>
      if negb (Py.nonempty a) then Py.Raise no_active_model
      else
        match models llm !! a with
        | None => Py.Raise no_active_model
        | Some provider => provider messages o
        end
  end.

(** [class Kernel], the fields [process_input] reads. *)
Record t : Type := {
  llm : LLMManager;
  memory : option Memory.t;
  memory_top_k : Z
}.

Definition with_memory (k : t) (m : Memory.t) : t :=
  {| llm := llm k; memory := Some m; memory_top_k := memory_top_k k |}.

(** Lines 107-117: the lines of the memory block, one per hit whose text is
    not empty. *)
Definition mem_snippets (results : list VectorDB.hit) : list string :=
  flat_map
    (fun r =>
       match VectorDB.hit_text r with
       | Some snippet => if Py.nonempty snippet then ["- " ++ snippet] else []
       | None => []
       end)
    results.

Definition newline : string := String (ascii_of_nat 10) EmptyString.

(** Lines 101-119: retrieval, best effort. *)
Definition inject_memory (k : t) (txt : string) (messages : list ChatMessage)
  : list ChatMessage :=
  match memory k with
  | None => messages
  | Some m =>
      match Memory.embeddings m with
      | None => messages
      | Some _ =>
          match Memory.retrieve_memory m txt (memory_top_k k) with
          | Py.Raise _ => messages
          | Py.Return results =>
              match mem_snippets results with
              | [] => messages
              | snippets =>
                  (messages ++
                   [{| role := "system";
                       content := ("Relevant memory items (most similar first):"
                                   ++ newline ++ Py.join newline snippets)%string |}])%list
              end
          end
      end
  end.

(** Lines 131-139: the two stores, best effort; what the first one stored
    stays when the second one raises. *)
Definition store_interaction (k : t) (txt output_text : string) : t :=
  match memory k with
  | None => k
  | Some m =>
      match Memory.embeddings m with
      | None => k
      | Some _ =>
          match Memory.store_text m txt None with
          | (Py.Raise _, m1) => with_memory k m1
          | (Py.Return _, m1) =>
              if Py.nonempty output_text
              then with_memory k (snd (Memory.store_text m1 output_text None))
              else with_memory k m1
          end
      end
  end.

(** The message list handed to the model. *)
Definition build_messages (k : t) (txt : string) (system_prompt : option string)
           (context : option (list ChatMessage)) : list ChatMessage :=
  let messages :=
    match system_prompt with
    | Some p => if Py.nonempty p then [{| role := "system"; content := p |}] else []
    | None => []
    end in
  let messages :=
    match context with
    | Some c => (messages ++ c)%list
    | None => messages
    end in
  (inject_memory k txt messages ++ [{| role := "user"; content := txt |}])%list.

(** [result.get("text", "")] *)
Definition output_of (result : GenerateResult) : string :=
  match text result with Some s => s | None => EmptyString end.

(** [Kernel.process_input]: the outcome and the kernel afterwards. *)
Definition process_input (k : t) (txt : string) (system_prompt : option string)
           (context : option (list ChatMessage)) (o : GenOptions)
  : Py.result string * t :=
  match generate (llm k) (build_messages k txt system_prompt context) o with
  | Py.Raise e => (Py.Raise e, k)
  | Py.Return result =>
      let output_text := output_of result in
      (Py.Return output_text, store_interaction k txt output_text)
  end.

(** The same kernel with no memory configured. *)
Definition without_memory (k : t) : t :=
  {| llm := llm k; memory := None; memory_top_k := memory_top_k k |}.

End Kernel.

(* ===================================================================== *)
(** * [agents/agent_manager.py] *)
(* ===================================================================== *)

Module AgentManager.
Import Json.

Definition INTERPRETER_SYSTEM_PROMPT : string :=
  "You are a tool-using agent. Given a user's input, decide whether to use a tool "
  ++ "and respond in strict JSON ONLY with keys: thought (string), action (string), args (object). "
  ++ "Use 'respond' as action when a direct answer is sufficient.".

(** A registered callable: the keyword parameters it declares without and
    with a default, whether it takes arbitrary keywords, and its body. *)
Record Tool : Type := {
  fname : string;
  required : list string;
  optional : list string;
  var_keyword : bool;
  body : Py.dict Json.value -> Py.result Json.value
}.

(** [class AgentManager] *)
Record t : Type := {
  kernel : Kernel.t;
  tools : gmap string Tool
}.

Definition register_tool (am : t) (name : string) (fn : Tool) : t :=
  {| kernel := kernel am; tools := <[name := fn]> (tools am) |}.

Definition unregister_tool (am : t) (name : string) : t :=
  {| kernel := kernel am; tools := delete name (tools am) |}.

Definition mem (x : string) (l : list string) : bool :=
  existsb (String.eqb x) l.

Definition type_error (msg : string) : Py.exc := Py.Exc Py.TypeError msg.

(** The call of [fn] with [args] unpacked as keywords: the interpreter binds the keywords to the
    signature and raises [TypeError] when they do not fit; only then does
    the body run. *)
Definition accepts (fn : Tool) (k : string) : bool :=
  var_keyword fn || mem k (required fn) || mem k (optional fn).

Definition call (fn : Tool) (args : Json.value) : Py.result Json.value :=
  match args with
  | JObj kw =>
      match List.find (fun k => negb (accepts fn k)) (Py.dict_keys kw) with
      | Some k =>
          Py.Raise (type_error (fname fn ++ "() got an unexpected keyword argument '" ++ k ++ "'"))
      | None =>
          match List.find (fun p => negb (Py.dict_mem p kw)) (required fn) with
          | Some p =>
              Py.Raise (type_error (fname fn ++ "() missing 1 required positional argument: '" ++ p ++ "'"))
          | None => body fn kw
          end
      end
  | _ =>
      Py.Raise (type_error (fname fn ++ "() argument after ** must be a mapping"))
  end.

(** One attempt of [_safe_parse_action]: decode, keep a [dict] that has the
    key [action]. *)
Definition try_parse (s : string) : option (Py.dict Json.value) :=
  match Json.loads s with
  | Some (JObj d) => if Py.dict_mem "action" d then Some d else None
  | _ => None
  end.

(** [AgentManager._safe_parse_action] *)
Definition _safe_parse_action (text : string) : option (Py.dict Json.value) :=
  let text := Py.strip text in
  match try_parse text with
  | Some obj => Some obj
  | None =>
      let start := Py.find "{" text in
      let end_ := Py.rfind "}" text in
      if negb (start =? -1) && negb (end_ =? -1) && (start <? end_) then
        let snippet := Py.slice text start (end_ + 1) in
        try_parse snippet
      else None
  end.

(** [action.get("args") or {}] *)
Definition action_args (action : Py.dict Json.value) : Json.value :=
  match Py.dict_get "args" action with
  | Some a => if Json.truthy a then a else JObj []
  | None => JObj []
  end.

(** The options [execute] fixes: [temperature=0.2], [max_tokens=256]. *)
Definition interpreter_options : Kernel.GenOptions :=
  {| Kernel.temperature := JFloat false 2 (-1); Kernel.max_tokens := Some 256 |}.

Section Execute.
(** [str] of a [float], a [list] or a [dict] is their [repr], which is
    the interpreter's business; it raises when the value holds an [int]
    beyond the digit limit. *)
Variable repr : Json.value -> Py.result string.

(** [str(v)]; for an [int] of more digits than the limit it raises
    [ValueError]. *)
Definition str (v : Json.value) : Py.result string :=
  match v with
  | JStr s => Py.Return s
  | JNull => Py.Return "None"
  | JBool true => Py.Return "True"
  | JBool false => Py.Return "False"
  | JInt z => Py.str_of_int z
  | _ => repr v
  end.

(** Lines 72-87, from the decoded action on. *)
Definition dispatch (am : t) (action : Py.dict Json.value) : Py.result string :=
  let name := match Py.dict_get "action" action with Some n => n | None => JNull end in
  let args := action_args action in
  match name with
  | JStr n =>
      if String.eqb n "respond" then
        match args with
        | JObj d =>
            str (match Py.dict_get "message" d with
                 | Some m => m
                 | None => JStr EmptyString
                 end)
        | _ => Py.Raise (Py.Exc Py.AttributeError "object has no attribute 'get'")
        end
      else
        match tools am !! n with
        | None => Py.Return ("Unknown tool: " ++ n)
        | Some fn =>
            match call fn args with
            | Py.Raise e =>
                if Py.is_TypeError e
                then Py.Return ("Tool '" ++ n ++ "' argument error: " ++ Py.exc_msg e)
                else Py.Return ("Tool '" ++ n ++ "' failed: " ++ Py.exc_msg e)
            | Py.Return result =>
                (* line 87, outside the [try]: what [str] raises is not caught *)
                str result
            end
        end
  | JArr _ | JObj _ =>
      (* [name not in self.tools] hashes the name *)
      Py.Raise (type_error "unhashable type")
  | _ => (shown <- str name ;; Py.Return ("Unknown tool: " ++ shown))%py
  end.

(** [AgentManager.execute] *)
Definition execute (am : t) (user_input : string) : Py.result string * t :=
  let '(r, k') :=
    Kernel.process_input (kernel am) user_input (Some INTERPRETER_SYSTEM_PROMPT) None
      interpreter_options in
  let am' := {| kernel := k'; tools := tools am |} in
  match r with
  | Py.Raise e => (Py.Raise e, am')
  | Py.Return llm_text =>
      match _safe_parse_action llm_text with
      | None | Some [] => (Py.Return llm_text, am')
      | Some action => (dispatch am' action, am')
      end
  end.
End Execute.

End AgentManager.

(* ===================================================================== *)
(** * [re]: the fragment of the pattern language the scheduler uses *)
(* ===================================================================== *)

Module Re.

Inductive regex : Type :=
| Empty
| Lit (c : ascii)
| AnyChar
| AnyDigit
| AnySpace
| AnyWord
| Boundary
| CharSet (negated : bool) (ranges : list (ascii * ascii))
| Cat (a b : regex)
| Alt (a b : regex)
| Repeat (lo : nat) (hi : option nat) (r : regex)
| Group (idx : nat) (r : regex)
| Lookahead (negated : bool) (r : regex)
| Cond (idx : nat) (yes no : regex).

(** A compiled pattern. *)
Record pattern : Type := {
  re : regex;
  ignorecase : bool;
  groupindex : list (string * nat)
}.

(** ** The pattern parser *)

Record pstate : Type := {
  src : string;
  ngroups : nat;
  names : list (string * nat);
  (* numbered groups that conditionals refer to, and where *)
  refs : list (nat * nat)
}.

Inductive presult (A : Type) : Type :=
| POk (a : A) (st : pstate)
| PErr (msg : string) (pos : nat)
| PUnsupported.
Arguments POk {A} a st.
Arguments PErr {A} msg pos.
Arguments PUnsupported {A}.

Definition with_src (st : pstate) (s : string) : pstate :=
  {| src := s; ngroups := ngroups st; names := names st; refs := refs st |}.

(** [getuntil]: the text before the first [stop], and what follows it. *)
Fixpoint getuntil (stop : ascii) (s : string) : option (string * string) :=
  match s with
  | EmptyString => None
  | String c r =>
      if Ascii.eqb c stop then Some (EmptyString, r)
      else
        match getuntil stop r with
        | Some (a, b) => Some (String c a, b)
        | None => None
        end
  end.

Definition is_word (c : ascii) : bool :=
  Py.is_alpha c || Py.is_digit c || Ascii.eqb c "_".

Fixpoint all_chars (p : ascii -> bool) (s : string) : bool :=
  match s with
  | EmptyString => true
  | String c r => p c && all_chars p r
  end.

(** [str.isidentifier] and a plain decimal number. *)
Definition isidentifier (s : string) : bool :=
  match s with
  | EmptyString => false
  | String c r => (Py.is_alpha c || Ascii.eqb c "_") && all_chars is_word r
  end.

Definition isnumber (s : string) : bool :=
  Py.nonempty s && all_chars Py.is_digit s.

Fixpoint nat_of_digits (acc : nat) (s : string) : nat :=
  match s with
  | EmptyString => acc
  | String c r => nat_of_digits (10 * acc + (Py.code c - 48)) r
  end.

Fixpoint lookup_name (n : string) (l : list (string * nat)) : option nat :=
  match l with
  | [] => None
  | (k, i) :: l' => if String.eqb k n then Some i else lookup_name n l'
  end.

(** [repr] of a name inside a message: backslashes are doubled. *)
Fixpoint repr_name (s : string) : string :=
  match s with
  | EmptyString => EmptyString
  | String c r =>
      if Ascii.eqb c "\" then String c (String c (repr_name r))
      else String c (repr_name r)
  end.

(** A repetition count in braces, after the opening brace: the bounds and
    what follows the closing brace; [None] when the braces are literal. *)
Definition braces (s : string) : option (nat * option nat * string) :=
  let '(_, nlo, r) := Json.digits 0 0 s in
  let lo := String.substring 0 (Z.to_nat nlo) s in
  match r with
  | String c r1 =>
      if Ascii.eqb c "}" then
        if Py.nonempty lo then Some (nat_of_digits 0 lo, Some (nat_of_digits 0 lo), r1)
        else None
      else if Ascii.eqb c "," then
        let '(_, nhi, r2) := Json.digits 0 0 r1 in
        let hi := String.substring 0 (Z.to_nat nhi) r1 in
        match r2 with
        | String c2 r3 =>
            if Ascii.eqb c2 "}" then
              Some (nat_of_digits 0 lo,
                    if Py.nonempty hi then Some (nat_of_digits 0 hi) else None, r3)
            else None
        | EmptyString => None
        end
      else None
  | EmptyString => None
  end.

(** The items of a character set, after the opening bracket. *)
Fixpoint set_items (first : bool) (s : string) : option (list (ascii * ascii) * string) :=
  match s with
  | EmptyString => None
  | String c r =>
      if Ascii.eqb c "]" && negb first then Some ([], r)
      else if Ascii.eqb c "\" then None
      else
        match r with
        | String d (String e r2) =>
            if Ascii.eqb d "-" && negb (Ascii.eqb e "]") then
              match set_items false r2 with
              | Some (l, r3) => Some ((c, e) :: l, r3)
              | None => None
              end
            else
              match set_items false r with
              | Some (l, r3) => Some ((c, c) :: l, r3)
              | None => None
              end
        | _ =>
            match set_items false r with
            | Some (l, r3) => Some ((c, c) :: l, r3)
            | None => None
            end
        end
  end.

Section Parser.
(** Length of the whole pattern, to report positions. *)
Variable total : nat.

Definition position (s : string) : nat := (total - String.length s)%nat.

Definition is_special (c : ascii) : bool :=
  Ascii.eqb c "*" || Ascii.eqb c "+" || Ascii.eqb c "?".

(** The repetition that may follow an item. *)
Definition quantifier (a : regex) (st : pstate) : presult regex :=
  let lazy_or_possessive (s : string) :=
    match s with
    | String c _ => Ascii.eqb c "?" || Ascii.eqb c "+"
    | EmptyString => false
    end in
  let multiple (s : string) :=
    match s with
    | String c _ => Ascii.eqb c "*"
    | EmptyString => false
    end in
  let finish (lo : nat) (hi : option nat) (r : string) :=
    if multiple r then PErr "multiple repeat" (position r)
    else if lazy_or_possessive r then PUnsupported
    else POk (Repeat lo hi a) (with_src st r) in
  match src st with
  | String c r =>
      if Ascii.eqb c "*" then finish 0%nat None r
      else if Ascii.eqb c "+" then finish 1%nat None r
      else if Ascii.eqb c "?" then finish 0%nat (Some 1%nat) r
      else if Ascii.eqb c "{" then
        match braces r with
        | Some (lo, hi, r1) =>
            match hi with
            | Some h =>
                if (h <? lo)%nat
                then PErr "min repeat greater than max repeat" (position r)
                else finish lo hi r1
            | None => finish lo hi r1
            end
        | None => POk a st
        end
      else POk a st
  | EmptyString => POk a st
  end.

Definition expect_close (opened : nat) (a : regex) (st : pstate) : presult regex :=
  match src st with
  | String c r =>
      if Ascii.eqb c ")" then POk a (with_src st r)
      else PErr "missing ), unterminated subpattern" opened
  | EmptyString => PErr "missing ), unterminated subpattern" opened
  end.

(** Branches separated by bars. *)
Fixpoint parse_alt (fuel : nat) (st : pstate) : presult regex :=
  match fuel with
  | O => PUnsupported
  | S fuel' =>
      match parse_seq fuel' st with
      | POk a st1 =>
          match src st1 with
          | String c r =>
              if Ascii.eqb c "|" then
                match parse_alt fuel' (with_src st1 r) with
                | POk b st2 => POk (Alt a b) st2
                | e => e
                end
              else POk a st1
          | EmptyString => POk a st1
          end
      | e => e
      end
  end

(** A sequence of items, up to a bar, a closing parenthesis or the end. *)
with parse_seq (fuel : nat) (st : pstate) : presult regex :=
  match fuel with
  | O => PUnsupported
  | S fuel' =>
      match src st with
      | EmptyString => POk Empty st
      | String c _ =>
          if Ascii.eqb c "|" || Ascii.eqb c ")" then POk Empty st
          else
            match parse_atom fuel' st with
            | POk a st1 =>
                match quantifier a st1 with
                | POk a' st2 =>
                    match parse_seq fuel' st2 with
                    | POk Empty st3 => POk a' st3
                    | POk b st3 => POk (Cat a' b) st3
                    | e => e
                    end
                | e => e
                end
            | e => e
            end
      end
  end

(** One item, without its repetition. *)
with parse_atom (fuel : nat) (st : pstate) : presult regex :=
  match fuel with
  | O => PUnsupported
  | S fuel' =>
      match src st with
      | EmptyString => PUnsupported
      | String c r =>
          if Ascii.eqb c "\" then
            match r with
            | EmptyString => PErr "bad escape (end of pattern)" (position (src st))
            | String e r1 =>
                if Ascii.eqb e "b" then POk Boundary (with_src st r1)
                else if Ascii.eqb e "d" then POk AnyDigit (with_src st r1)
                else if Ascii.eqb e "s" then POk AnySpace (with_src st r1)
                else if Ascii.eqb e "w" then POk AnyWord (with_src st r1)
                else if is_word e then PUnsupported
                else POk (Lit e) (with_src st r1)
            end
          else if Ascii.eqb c "." then POk AnyChar (with_src st r)
          else if is_special c then PErr "nothing to repeat" (position (src st))
          else if Ascii.eqb c "^" || Ascii.eqb c "$" then PUnsupported
          else if Ascii.eqb c "[" then
            let '(neg, r1) :=
              match r with
              | String n r1 => if Ascii.eqb n "^" then (true, r1) else (false, r)
              | EmptyString => (false, r)
              end in
            match set_items true r1 with
            | Some (items, r2) => POk (CharSet neg items) (with_src st r2)
            | None => PUnsupported
            end
          else if Ascii.eqb c "(" then
            let opened := position (src st) in
            match r with
            | String q r1 =>
                if Ascii.eqb q "?" then
                  match r1 with
                  | String k r2 =>
                      if Ascii.eqb k ":" then
                        match parse_alt fuel' (with_src st r2) with
                        | POk a st1 => expect_close opened a st1
                        | e => e
                        end
                      else if Ascii.eqb k "=" || Ascii.eqb k "!" then
                        match parse_alt fuel' (with_src st r2) with
                        | POk a st1 => expect_close opened (Lookahead (Ascii.eqb k "!") a) st1
                        | e => e
                        end
                      else if Ascii.eqb k "P" then
                        match r2 with
                        | String lt r3 =>
                            if Ascii.eqb lt "<" then
                              match getuntil ">" r3 with
                              | None => PErr "missing >, unterminated name" (position r3)
                              | Some (name, r4) =>
                                  if negb (isidentifier name) then
                                    PErr ("bad character in group name '" ++ repr_name name ++ "'")
                                         (position r3)
                                  else
                                    match lookup_name name (names st) with
                                    | Some _ =>
                                        PErr ("redefinition of group name '" ++ repr_name name ++ "'")
                                             (position r3)
                                    | None =>
                                        let idx := S (ngroups st) in
                                        match parse_alt fuel'
                                                {| src := r4; ngroups := idx;
                                                   names := (names st ++ [(name, idx)])%list;
                                                   refs := refs st |} with
                                        | POk a st1 => expect_close opened (Group idx a) st1
                                        | e => e
                                        end
                                    end
                              end
                            else PUnsupported
                        | EmptyString => PErr "unexpected end of pattern" (position r2)
                        end
                      else if Ascii.eqb k "(" then
                        (* a conditional: a group name or number comes first *)
                        match getuntil ")" r2 with
                        | None => PErr "missing ), unterminated name" (position r2)
                        | Some (condname, r3) =>
                            let branches (idx : nat) :=
                              match parse_seq fuel'
                                      {| src := r3; ngroups := ngroups st; names := names st;
                                         refs := (refs st ++ [(idx, position r2)])%list |} with
                              | POk yes st1 =>
                                  match src st1 with
                                  | String b r4 =>
                                      if Ascii.eqb b "|" then
                                        match parse_seq fuel' (with_src st1 r4) with
                                        | POk no st2 =>
                                            match src st2 with
                                            | String b2 _ =>
                                                if Ascii.eqb b2 "|" then
                                                  PErr "conditional backref with more than two branches"
                                                       (position (src st2))
                                                else expect_close opened (Cond idx yes no) st2
                                            | EmptyString => expect_close opened (Cond idx yes no) st2
                                            end
                                        | e => e
                                        end
                                      else expect_close opened (Cond idx yes Empty) st1
                                  | EmptyString => expect_close opened (Cond idx yes Empty) st1
                                  end
                              | e => e
                              end in
                            if isidentifier condname then
                              match lookup_name condname (names st) with
                              | Some idx => branches idx
                              | None =>
                                  PErr ("unknown group name '" ++ repr_name condname ++ "'")
                                       (position r2)
                              end
                            else if isnumber condname then
                              if (nat_of_digits 0 condname =? 0)%nat
                              then PErr "bad group number" (position r2)
                              else branches (nat_of_digits 0 condname)
                            else
                              PErr ("bad character in group name '" ++ repr_name condname ++ "'")
                                   (position r2)
                        end
                      else PUnsupported
                  | EmptyString => PErr "unexpected end of pattern" (position r1)
                  end
                else
                  let idx := S (ngroups st) in
                  match parse_alt fuel' {| src := r; ngroups := idx; names := names st;
                                           refs := refs st |} with
                  | POk a st1 => expect_close opened (Group idx a) st1
                  | e => e
                  end
            | EmptyString => PErr "missing ), unterminated subpattern" opened
            end
          else POk (Lit c) (with_src st r)
      end
  end.
End Parser.

Definition re_error (msg : string) (pos : nat) : Py.exc :=
  Py.Exc Py.ReError (msg ++ " at position " ++ Py.str_of_nat pos).

Definition not_modelled : Py.exc :=
  Py.Exc (Py.OtherException "NotModelled") "pattern outside the modelled fragment".

(** [re.compile] *)
Definition compile (p : string) (icase : bool) : Py.result pattern :=
  let n := String.length p in
  match parse_alt n (3 * S n) {| src := p; ngroups := 0; names := []; refs := [] |} with
  | POk a st =>
      match src st with
      | EmptyString =>
          match List.find (fun g => (ngroups st <? fst g)%nat) (refs st) with
          | Some (g, at_) =>
              Py.Raise (re_error ("invalid group reference " ++ Py.str_of_nat g) at_)
          | None =>
              Py.Return {| re := a; ignorecase := icase; groupindex := names st |}
          end
      | s => Py.Raise (re_error "unbalanced parenthesis" (position n s))
      end
  | PErr msg pos => Py.Raise (re_error msg pos)
  | PUnsupported => Py.Raise not_modelled
  end.

(** ** The matcher: backtracking, greedy repetitions, leftmost match *)

(** Where the matcher stands: the character before, the text ahead, the
    index, and the spans of the groups closed so far. *)
Record mstate : Type := {
  before : option ascii;
  ahead : string;
  pos : nat;
  spans : list (nat * (nat * nat))
}.

Definition advance (st : mstate) (c : ascii) (r : string) : mstate :=
  {| before := Some c; ahead := r; pos := S (pos st); spans := spans st |}.

Definition close_group (i start : nat) (st : mstate) : mstate :=
  {| before := before st; ahead := ahead st; pos := pos st;
     spans := (i, (start, pos st)) :: spans st |}.

Fixpoint span_of (i : nat) (l : list (nat * (nat * nat))) : option (nat * nat) :=
  match l with
  | [] => None
  | (j, sp) :: l' => if (i =? j)%nat then Some sp else span_of i l'
  end.

Definition upper_char (c : ascii) : ascii :=
  if Py.in_range 97 122 c then ascii_of_nat (Py.code c - 32) else c.

Definition in_ranges (ranges : list (ascii * ascii)) (c : ascii) : bool :=
  existsb (fun p => Py.in_range (Py.code (fst p)) (Py.code (snd p)) c) ranges.

Definition at_boundary (st : mstate) : bool :=
  let w (o : option ascii) := match o with Some c => is_word c | None => false end in
  let next := match ahead st with String c _ => Some c | EmptyString => None end in
  negb (Bool.eqb (w (before st)) (w next)).

Section Match.
Variable icase : bool.

Definition same_char (a b : ascii) : bool :=
  if icase then Ascii.eqb (Py.lower_char a) (Py.lower_char b) else Ascii.eqb a b.

Definition in_set (neg : bool) (ranges : list (ascii * ascii)) (c : ascii) : bool :=
  let hit :=
    if icase
    then in_ranges ranges (Py.lower_char c) || in_ranges ranges (upper_char c)
    else in_ranges ranges c in
  xorb neg hit.

Definition one_char (p : ascii -> bool) (st : mstate)
           (k : mstate -> option mstate) : option mstate :=
  match ahead st with
  | String c r => if p c then k (advance st c r) else None
  | EmptyString => None
  end.

Fixpoint run (r : regex) (st : mstate) (k : mstate -> option mstate) {struct r}
  : option mstate :=
  match r with
  | Empty => k st
  | Lit c => one_char (same_char c) st k
  | AnyChar => one_char (fun c => negb (Ascii.eqb c (ascii_of_nat 10))) st k
  | AnyDigit => one_char Py.is_digit st k
  | AnySpace => one_char Py.is_space st k
  | AnyWord => one_char is_word st k
  | Boundary => if at_boundary st then k st else None
  | CharSet neg ranges => one_char (in_set neg ranges) st k
  | Cat a b => run a st (fun st' => run b st' k)
  | Alt a b =>
      match run a st k with
      | Some x => Some x
      | None => run b st k
      end
  | Repeat lo hi body =>
      (fix loop (fuel count : nat) (st : mstate) {struct fuel} : option mstate :=
         let stop := if (lo <=? count)%nat then k st else None in
         let room := match hi with Some h => (count <? h)%nat | None => true end in
         match fuel with
         | O => stop
         | S fuel' =>
             if room then
               match run body st
                       (fun st' =>
                          if (pos st' =? pos st)%nat && (lo <=? count)%nat then None
                          else loop fuel' (S count) st') with
               | Some x => Some x
               | None => stop
               end
             else stop
         end) (S (String.length (ahead st)) + lo)%nat 0%nat st
  | Group i body =>
      let start := pos st in
      run body st (fun st' => k (close_group i start st'))
  | Lookahead neg body =>
      match run body st Some with
      | Some _ => if neg then None else k st
      | None => if neg then k st else None
      end
  | Cond i yes no =>
      match span_of i (spans st) with
      | Some _ => run yes st k
      | None => run no st k
      end
  end.
End Match.

(** A match object. *)
Record Match : Type := {
  subject : string;
  m_start : nat;
  m_end : nat;
  m_spans : list (nat * (nat * nat));
  m_names : list (string * nat)
}.

Fixpoint search_from (p : pattern) (whole : string) (prev : option ascii)
         (s : string) (i : nat) : option Match :=
  match run (ignorecase p) (re p)
            {| before := prev; ahead := s; pos := i; spans := [] |} Some with
  | Some st =>
      Some {| subject := whole; m_start := i; m_end := pos st;
              m_spans := spans st; m_names := groupindex p |}
  | None =>
      match s with
      | String c s' => search_from p whole (Some c) s' (S i)
      | EmptyString => None
      end
  end.

(** [pattern.search(s)] *)
Definition search (p : pattern) (s : string) : option Match :=
  search_from p s None s 0%nat.

(** [m.group(0)] *)
Definition group0 (m : Match) : string :=
  String.substring (m_start m) (m_end m - m_start m) (subject m).

(** [m.group(name)]: [None] when the group took no part in the match. *)
Definition group (m : Match) (name : string) : option string :=
  match lookup_name name (m_names m) with
  | None => None
  | Some i =>
      match span_of i (m_spans m) with
      | Some (a, b) => Some (String.substring a (b - a) (subject m))
      | None => None
      end
  end.

End Re.

(* ===================================================================== *)
(** * [datetime]: naive timestamps and durations *)
(* ===================================================================== *)

Module Datetime.

Record datetime : Type := {
  year : Z; month : Z; day : Z;
  hour : Z; minute : Z; second : Z; microsecond : Z
}.

Definition MINYEAR : Z := 1.
Definition MAXYEAR : Z := 9999.
Definition MAXORDINAL : Z := 3652059.

Definition is_leap (y : Z) : bool :=
  (y mod 4 =? 0) && (negb (y mod 100 =? 0) || (y mod 400 =? 0)).

Definition DAYS_IN_MONTH : list Z := [31; 28; 31; 30; 31; 30; 31; 31; 30; 31; 30; 31].

Definition days_in_month (y m : Z) : Z :=
  if (m =? 2) && is_leap y then 29
  else nth (Z.to_nat (m - 1)) DAYS_IN_MONTH 0.

Definition days_before_year (y : Z) : Z :=
  let y' := y - 1 in y' * 365 + y' / 4 - y' / 100 + y' / 400.

(** Days of the year before the first of month [m], in a common year. *)
Definition DAYS_BEFORE_MONTH : list Z :=
  [0; 31; 59; 90; 120; 151; 181; 212; 243; 273; 304; 334].

Definition days_before_month (y m : Z) : Z :=
  nth (Z.to_nat (m - 1)) DAYS_BEFORE_MONTH 0
  + (if (2 <? m) && is_leap y then 1 else 0).

(** [date.toordinal]: 1 for 0001-01-01. *)
Definition ymd2ord (y m d : Z) : Z :=
  days_before_year y + days_before_month y m + d.

(** [date.fromordinal] *)
Definition ord2ymd (n : Z) : Z * Z * Z :=
  let n := n - 1 in
  let n400 := n / 146097 in
  let n := n mod 146097 in
  let n100 := n / 36524 in
  let n := n mod 36524 in
  let n4 := n / 1461 in
  let n := n mod 1461 in
  let n1 := n / 365 in
  let n := n mod 365 in
  let y := n400 * 400 + 1 + n100 * 100 + n4 * 4 + n1 in
  if (n1 =? 4) || (n100 =? 4) then (y - 1, 12, 31)
  else
    let leapyear := (n1 =? 3) && (negb (n4 =? 24) || (n100 =? 3)) in
    let m := Z.shiftr (n + 50) 5 in
    let preceding :=
      nth (Z.to_nat (m - 1)) DAYS_BEFORE_MONTH 0
      + (if (2 <? m) && leapyear then 1 else 0) in
    if n <? preceding then
      let m' := m - 1 in
      let preceding' :=
        preceding - (nth (Z.to_nat (m' - 1)) DAYS_IN_MONTH 0
                     + (if (m' =? 2) && leapyear then 1 else 0)) in
      (y, m', n - preceding' + 1)
    else (y, m, n - preceding + 1).

Definition valid (d : datetime) : bool :=
  (MINYEAR <=? year d) && (year d <=? MAXYEAR)
  && (1 <=? month d) && (month d <=? 12)
  && (1 <=? day d) && (day d <=? days_in_month (year d) (month d))
  && (0 <=? hour d) && (hour d <? 24)
  && (0 <=? minute d) && (minute d <? 60)
  && (0 <=? second d) && (second d <? 60)
  && (0 <=? microsecond d) && (microsecond d <? 1000000).

Definition value_error (msg : string) : Py.exc := Py.Exc Py.ValueError msg.
Definition overflow_error (msg : string) : Py.exc := Py.Exc Py.OverflowError msg.

(** The constructor, with its range checks. *)
Definition make (y mo d h mi s us : Z) : Py.result datetime :=
  let r := {| year := y; month := mo; day := d;
              hour := h; minute := mi; second := s; microsecond := us |} in
  if valid r then Py.Return r else Py.Raise (value_error "field out of range").

(** [dt.replace(hour=h, minute=mi)] and
    [dt.replace(hour=h, minute=mi, second=0, microsecond=0)]. *)
Definition replace_hm (d : datetime) (h mi : Z) : Py.result datetime :=
  make (year d) (month d) (day d) h mi (second d) (microsecond d).

Definition replace_hm00 (d : datetime) (h mi : Z) : Py.result datetime :=
  make (year d) (month d) (day d) h mi 0 0.

(** [dt.replace(second=0, microsecond=0)] *)
Definition replace_s00 (d : datetime) : Py.result datetime :=
  make (year d) (month d) (day d) (hour d) (minute d) 0 0.

(** A [timedelta], as its length in microseconds. *)
Definition timedelta : Type := Z.

Definition US_PER_SECOND : Z := 1000000.
Definition US_PER_DAY : Z := 86400 * US_PER_SECOND.

(** [timedelta(days=d, hours=h, minutes=m)]: the day count is bounded. *)
Definition mk_timedelta (d h m : Z) : Py.result timedelta :=
  let us := (((d * 24 + h) * 60 + m) * 60) * US_PER_SECOND in
  if (-999999999 <=? us / US_PER_DAY) && (us / US_PER_DAY <=? 999999999)
  then Py.Return us
  else Py.Raise (overflow_error "days out of range; must have magnitude <= 999999999").

(** Microseconds since the ordinal origin. *)
Definition to_us (d : datetime) : Z :=
  ((ymd2ord (year d) (month d) (day d) * 86400
    + hour d * 3600 + minute d * 60 + second d) * US_PER_SECOND)
  + microsecond d.

(** [dt + delta] *)
Definition add (d : datetime) (delta : timedelta) : Py.result datetime :=
  let t := to_us d + delta in
  let days := t / US_PER_DAY in
  let rest := t mod US_PER_DAY in
  let secs := rest / US_PER_SECOND in
  if (0 <? days) && (days <=? MAXORDINAL) then
    let '(y, m, dd) := ord2ymd days in
    Py.Return {| year := y; month := m; day := dd;
                 hour := secs / 3600; minute := (secs mod 3600) / 60;
                 second := secs mod 60; microsecond := rest mod US_PER_SECOND |}
  else Py.Raise (overflow_error "date value out of range").

(** [a > b] on naive timestamps. *)
Definition gt (a b : datetime) : bool := to_us b <? to_us a.

(** [int(s)]: decimal digits, possibly signed and surrounded by spaces. *)
Definition int (s : string) : Py.result Z :=
  let s := Py.strip s in
  let '(sign, body) :=
    match s with
    | String c r =>
        if Ascii.eqb c "-" then (-1, r)
        else if Ascii.eqb c "+" then (1, r) else (1, s)
    | EmptyString => (1, s)
    end in
  if Re.isnumber body then Py.Return (sign * fst (fst (Json.digits 0 0 body)))
  else Py.Raise (value_error "invalid literal for int() with base 10").

Definition field (s : string) (a n : nat) : string := String.substring a n s.

Definition sep_at (s : string) (a : nat) (c : ascii) : bool :=
  match String.get a s with Some x => Ascii.eqb x c | None => false end.

(** [datetime.fromisoformat] on a date, one separator and a time of hours
    and minutes: ten characters, one, five. *)
Definition fromisoformat (s : string) : Py.result datetime :=
  if (String.length s =? 16)%nat
     && Re.isnumber (field s 0 4) && sep_at s 4 "-"
     && Re.isnumber (field s 5 2) && sep_at s 7 "-"
     && Re.isnumber (field s 8 2)
     && Re.isnumber (field s 11 2) && sep_at s 13 ":"
     && Re.isnumber (field s 14 2)
  then
    (y <- int (field s 0 4) ;; mo <- int (field s 5 2) ;; d <- int (field s 8 2) ;;
     h <- int (field s 11 2) ;; mi <- int (field s 14 2) ;;
     make y mo d h mi 0 0)%py
  else Py.Raise (value_error "Invalid isoformat string").

End Datetime.

(* ===================================================================== *)
(** * [agents/scheduling_agent.py]: the time parser *)
(* ===================================================================== *)

Module SchedulingAgent.
Import Datetime.

(** The four module-level patterns, lines 87-90, as written. *)
Definition AMPM_src : string := "\b(?P<hour>1[0-2]|0?[1-9])\s*(?P<ampm>am|pm)\b".
Definition HHMM_src : string := "\b(?P<hour>\d{1,2}):(?(?=\d{2})\d{2})\b".
Definition IN_X_src : string :=
  "\bin\s+(?P<num>\d+)\s+(?P<unit>minute|minutes|hour|hours)\b".
Definition DATE_TIME_src : string :=
  "\b(?P<date>\d{4}-\d{2}-\d{2})\s+(?P<time>\d{1,2}:\d{2})\b".

(** The module globals [parse_natural_time] reads. *)
Record globals : Type := {
  AMPM : Re.pattern;
  HHMM : Re.pattern;
  IN_X : Re.pattern;
  DATE_TIME : Re.pattern
}.

(** Importing the module runs the four [re.compile] calls in order. *)
Definition import_module : Py.result globals :=
  (a <- Re.compile AMPM_src true ;;
   h <- Re.compile HHMM_src false ;;
   i <- Re.compile IN_X_src true ;;
   d <- Re.compile DATE_TIME_src false ;;
   Py.Return {| AMPM := a; HHMM := h; IN_X := i; DATE_TIME := d |})%py.

(** The same import with [h] in the place of the second compiled pattern. *)
Definition import_with (h : Re.pattern) : Py.result globals :=
  (a <- Re.compile AMPM_src true ;;
   i <- Re.compile IN_X_src true ;;
   d <- Re.compile DATE_TIME_src false ;;
   Py.Return {| AMPM := a; HHMM := h; IN_X := i; DATE_TIME := d |})%py.

(** The globals an import leaves when [h] is what the second pattern
    compiled to. *)
Definition pattern_of (r : Py.result Re.pattern) : Re.pattern :=
  match r with
  | Py.Return p => p
  | Py.Raise _ => {| Re.re := Re.Empty; Re.ignorecase := false; Re.groupindex := [] |}
  end.

Definition globals_with (h : Re.pattern) : globals :=
  {| AMPM := pattern_of (Re.compile AMPM_src true);
     HHMM := h;
     IN_X := pattern_of (Re.compile IN_X_src true);
     DATE_TIME := pattern_of (Re.compile DATE_TIME_src false) |}.

(** [_apply_ampm] *)
Definition _apply_ampm (hour : Z) (ampm : string) : Z :=
  let ampm := Py.lower ampm in
  if String.eqb ampm "am" then (if hour =? 12 then 0 else hour)
  else (if hour =? 12 then hour else hour + 12).

(** [m.group(name)] as an operand: a group that took no part is [None]. *)
Definition group_str (m : Re.Match) (name : string) : Py.result string :=
  match Re.group m name with
  | Some s => Py.Return s
  | None => Py.Raise (Py.Exc Py.AttributeError "'NoneType' object has no attribute 'lower'")
  end.

Definition group_int (m : Re.Match) (name : string) : Py.result Z :=
  match Re.group m name with
  | Some s => Datetime.int s
  | None => Py.Raise (Py.Exc Py.TypeError "int() argument must be a string, not 'NoneType'")
  end.

(** [f"{x}"] of a group. *)
Definition fmt (o : option string) : string :=
  match o with Some s => s | None => "None" end.

(** [s.split(c)] *)
Fixpoint split (c : ascii) (s : string) : list string :=
  match s with
  | EmptyString => [EmptyString]
  | String x r =>
      if Ascii.eqb x c then EmptyString :: split c r
      else
        match split c r with
        | h :: t => String x h :: t
        | [] => [String x EmptyString]
        end
  end.

(** [h, mi = m.group(0).split(":")] followed by [int(h)], [int(mi)]. *)
Definition hour_minute (m : Re.Match) : Py.result (Z * Z) :=
  match split ":" (Re.group0 m) with
  | [h; mi] => (h' <- Datetime.int h ;; mi' <- Datetime.int mi ;; Py.Return (h', mi'))%py
  | _ => Py.Raise (value_error "wrong number of values to unpack (expected 2)")
  end.

Definition one_day : Py.result timedelta := mk_timedelta 1 0 0.

(** [dt if dt > now else dt + timedelta(days=1)] *)
Definition roll (dt now : datetime) : Py.result datetime :=
  if gt dt now then Py.Return dt else (d <- one_day ;; add dt d)%py.

(** Lines 163-175: a bare time. *)
Definition bare_time (g : globals) (lower : string) (now : datetime)
  : Py.result (option datetime) :=
  match Re.search (AMPM g) lower with
  | Some m =>
      (h <- group_int m "hour" ;;
       ap <- group_str m "ampm" ;;
       dt <- replace_hm00 now (_apply_ampm h ap) 0 ;;
       r <- roll dt now ;;
       Py.Return (Some r))%py
  | None =>
      match Re.search (HHMM g) lower with
      | Some m =>
          (hm <- hour_minute m ;;
           dt <- replace_hm00 now (fst hm) (snd hm) ;;
           r <- roll dt now ;;
           Py.Return (Some r))%py
      | None => Py.Return None
      end
  end.

(** Lines 149-161: today, or a time introduced by at. *)
Definition today_or_at (g : globals) (lower : string) (now : datetime)
  : Py.result (option datetime) :=
  if Py.contains "today" lower || Py.startswith "at " lower || Py.contains " at " lower
  then
    (base <- replace_s00 now ;;
     match Re.search (AMPM g) lower with
     | Some m =>
         (h <- group_int m "hour" ;;
          ap <- group_str m "ampm" ;;
          dt <- replace_hm base (_apply_ampm h ap) 0 ;;
          r <- roll dt now ;;
          Py.Return (Some r))
     | None =>
         match Re.search (HHMM g) lower with
         | Some m =>
             (hm <- hour_minute m ;;
              dt <- replace_hm base (fst hm) (snd hm) ;;
              r <- roll dt now ;;
              Py.Return (Some r))
         | None => bare_time g lower now
         end
     end)%py
  else bare_time g lower now.

(** Lines 133-147: tomorrow. *)
Definition tomorrow (g : globals) (lower : string) (now : datetime)
  : Py.result (option datetime) :=
  (d <- one_day ;;
   t <- add now d ;;
   base <- replace_s00 t ;;
   match Re.search (AMPM g) lower with
   | Some m =>
       (h <- group_int m "hour" ;;
        ap <- group_str m "ampm" ;;
        r <- replace_hm base (_apply_ampm h ap) 0 ;;
        Py.Return (Some r))
   | None =>
       match Re.search (HHMM g) lower with
       | Some m =>
           (hm <- hour_minute m ;;
            r <- replace_hm base (fst hm) (snd hm) ;;
            Py.Return (Some r))
       | None =>
           (r <- replace_hm base 9 0 ;; Py.Return (Some r))
       end
   end)%py.

(** Lines 114-121: an absolute date and time; a failure of
    [fromisoformat] is passed over. *)
Definition absolute (g : globals) (text : string) : option datetime :=
  match Re.search (DATE_TIME g) text with
  | Some m =>
      match fromisoformat (fmt (Re.group m "date") ++ " " ++ fmt (Re.group m "time")) with
      | Py.Return dt => Some dt
      | Py.Raise _ => None
      end
  | None => None
  end.

(** Lines 123-129: an offset from now. *)
Definition relative (m : Re.Match) (now : datetime) : Py.result (option datetime) :=
  (num <- group_int m "num" ;;
   unit <- group_str m "unit" ;;
   delta <- (if Py.startswith "minute" (Py.lower unit)
             then mk_timedelta 0 0 num else mk_timedelta 0 num 0) ;;
   r <- add now delta ;;
   Py.Return (Some r))%py.

(** [parse_natural_time], its globals passed explicitly; [now] is the
    caller's, or the clock's reading when the caller gives none. *)
Definition parse_natural_time (g : globals) (text : string) (now : datetime)
  : Py.result (option datetime) :=
  let text := Py.strip text in
  match absolute g text with
  | Some dt => Py.Return (Some dt)
  | None =>
      match Re.search (IN_X g) text with
      | Some m => relative m now
      | None =>
          let lower := Py.lower text in
          if Py.contains "tomorrow" lower then tomorrow g lower now
          else today_or_at g lower now
      end
  end.

(** What a caller gets: the module is imported, then the function runs. *)
Definition call_parse_natural_time (text : string) (now : datetime)
  : Py.result (option datetime) :=
  (g <- import_module ;; parse_natural_time g text now)%py.

End SchedulingAgent.

(* ===================================================================== *)
(** * Vocabulary of the statements, and the inputs of the examples *)
(* ===================================================================== *)

Module Claims.
Import VectorDB.

(** The hits are in descending order of similarity. *)
Definition descending (hits : list hit) : Prop :=
  StronglySorted (ge similarity) hits.

(** Every record of the database as a hit, in the order of the [dict]. *)
Definition stored_order (db : t) (q : ndarray) : list hit :=
  map to_hit (similarities db q).

(** Hits with equal similarity stand in the order of the [dict]: for every
    value [c], the hits tied at [c] are the first of the stored records tied
    at [c]. *)
Definition ties_in_stored_order (db : t) (q : ndarray) (hits : list hit) : Prop :=
  forall c, exists rest,
    List.filter (tied similarity c) (stored_order db q)
    = (List.filter (tied similarity c) hits ++ rest)%list.

(** No similarity computed for [q] is NaN. *)
Definition all_numbers (db : t) (q : ndarray) : Prop :=
  numbers snd (similarities db q).



(** The id the [n]-th store of a fresh database gets, and the keys of a
    database that has only seen stores. *)
Definition vec_id (n : nat) : string := "vec_" ++ Py.str_of_nat n.

Definition dense (db : t) : Prop :=
  Py.dict_keys (records db) = map vec_id (seq 1 (length (records db))).


(** [snippet] is the part of [t] from its first opening brace to its last
    closing brace, the closing one after the opening one. *)
Definition brace_slice (t snippet : string) : Prop :=
  exists pre mid post,
    t = (pre ++ String "{" (mid ++ String "}" post))%string
    /\ Py.find "{" pre = -1
    /\ Py.rfind "}" post = -1
    /\ snippet = String "{" (mid ++ String "}" EmptyString)%string.

(** The keywords of [args] do not fit the signature of [fn]: [args] is no
    mapping, or has a keyword [fn] does not take, or lacks one it requires. *)
Definition shape_mismatch (fn : AgentManager.Tool) (args : Json.value) : Prop :=
  match args with
  | Json.JObj kw =>
      (exists k, In k (Py.dict_keys kw) /\ AgentManager.accepts fn k = false)
      \/ (exists p, In p (AgentManager.required fn) /\ Py.dict_mem p kw = false)
  | _ => True
  end.

(** The action plan with the action [respond] and the message [m]. *)
Definition respond_plan (m : string) : Json.value :=
  Json.JObj [("action", Json.JStr "respond");
             ("args", Json.JObj [("message", Json.JStr m)])].

(** The error the second pattern of the scheduler is rejected with. *)
Definition bad_group_name : Py.exc :=
  Re.re_error "bad character in group name '?=\\d{2}'" 23.

Definition at_2025_01_01 : Datetime.datetime :=
  {| Datetime.year := 2025; Datetime.month := 1; Datetime.day := 1;
     Datetime.hour := 0; Datetime.minute := 0;
     Datetime.second := 0; Datetime.microsecond := 0 |}.

Definition at_2025_01_02_08 : Datetime.datetime :=
  {| Datetime.year := 2025; Datetime.month := 1; Datetime.day := 2;
     Datetime.hour := 8; Datetime.minute := 0;
     Datetime.second := 0; Datetime.microsecond := 0 |}.

Definition at_2025_10_01_14 : Datetime.datetime :=
  {| Datetime.year := 2025; Datetime.month := 10; Datetime.day := 1;
     Datetime.hour := 14; Datetime.minute := 0;
     Datetime.second := 0; Datetime.microsecond := 0 |}.

(** Thirty minutes, as a [timedelta]. *)
Definition thirty_minutes : Datetime.timedelta := 30 * 60 * Datetime.US_PER_SECOND.

(** The model text of the specification's example, and what it decodes to. *)
Definition noisy_text : string :=
  "noise {" ++ Py.quoted "action" ++ ":" ++ Py.quoted "x" ++ ","
  ++ Py.quoted "args" ++ ":{}} trailing".

Definition noisy_action : Py.dict Json.value :=
  [("action", Json.JStr "x"); ("args", Json.JObj [])].

End Claims.

Module Ex.
Import VectorDB.

(** [1.0] as a binary32 value. *)
Definition one : float := S754_finite false 8388608 (-23).

Definition v10 : ndarray := [one; fzero].
Definition v01 : ndarray := [fzero; one].
Definition v11 : ndarray := [one; one].
Definition v00 : ndarray := [fzero; fzero].

(** Two stores, then the first record deleted. *)
Definition db_two : VectorDB.t :=
  snd (add (snd (add (init 2) v10 [] (Some "a"))) v01 [] (Some "b")).

Definition db_after_delete : VectorDB.t := snd (delete db_two "vec_1").

(** A database holding the zero vector and a unit vector. *)
Definition db_zero : VectorDB.t :=
  snd (add (snd (add (init 2) v00 [] (Some "z"))) v10 [] (Some "u")).

Definition mem_two : Memory.t :=
  {| Memory.store := db_two; Memory.embeddings := None; Memory.dim := 2 |}.

(** A provider that answers [s] whatever it is asked, and a kernel around it. *)
Definition provider_says (s : string) : Kernel.LLMProvider :=
  fun _ _ => Py.Return {| Kernel.text := Some s |}.

Definition llm_says (s : string) : Kernel.LLMManager :=
  {| Kernel.models := {[ "default" := provider_says s ]};
     Kernel.active_model := Some "default" |}.

Definition kernel_says (s : string) : Kernel.t :=
  {| Kernel.llm := llm_says s; Kernel.memory := None; Kernel.memory_top_k := 3 |}.

(** The tools of the repository's tests: [needs_a(a)] returns its argument,
    [boom()] raises [RuntimeError("kaboom")]. *)
Definition needs_a : AgentManager.Tool :=
  {| AgentManager.fname := "needs_a";
     AgentManager.required := ["a"];
     AgentManager.optional := [];
     AgentManager.var_keyword := false;
     AgentManager.body :=
       fun kw => Py.Return (match Py.dict_get "a" kw with
                            | Some v => v
                            | None => Json.JNull
                            end) |}.

Definition boom : AgentManager.Tool :=
  {| AgentManager.fname := "boom";
     AgentManager.required := [];
     AgentManager.optional := [];
     AgentManager.var_keyword := false;
     AgentManager.body := fun _ => Py.Raise (Py.Exc Py.RuntimeError "kaboom") |}.

Definition manager_says (s : string) : AgentManager.t :=
  {| AgentManager.kernel := kernel_says s;
     AgentManager.tools := <["needs_a" := needs_a]> {[ "boom" := boom ]} |}.

(** Model texts: an unknown tool, a keyword that does not fit, a tool that
    raises, a direct answer, a direct answer without a message. *)
Definition plan (action args : string) : string :=
  "{" ++ Py.quoted "action" ++ ": " ++ Py.quoted action ++ ", "
  ++ Py.quoted "args" ++ ": " ++ args ++ "}".

Definition hello_text : string :=
  plan "respond" ("{" ++ Py.quoted "message" ++ ": " ++ Py.quoted "hello" ++ "}").
Definition silent_text : string := plan "respond" "{}".

(** A pattern for an hour and a minute that does compile, to stand where
    the second pattern of the scheduler should be. *)
Definition hour_minute : Re.pattern :=
  SchedulingAgent.pattern_of (Re.compile "\b(?P<hour>\d{1,2}):\d{2}\b" false).

(** An embedder that always fails, and a kernel whose memory uses it. *)
Definition failing_embedder : Memory.EmbeddingsProvider :=
  fun _ => Py.Raise (Py.Exc Py.RuntimeError "embedding service unavailable").

Definition kernel_with_failing_memory : Kernel.t :=
  {| Kernel.llm := llm_says "ok";
     Kernel.memory := Some (Memory.init (Some failing_embedder) 2);
     Kernel.memory_top_k := 3 |}.

End Ex.

(* ===================================================================== *)
(** * [core/kernel/llm_manager.py]: loading and selecting models *)
(* ===================================================================== *)

Module LLMModels.
Import Kernel.

(** The keywords [load_model] hands on to the provider: [model], [api_key]
    and [base_url]; [None] stands for a keyword that is not given, or given
    as [None]. *)
Record Config : Type := {
  cfg_model : option string;
  cfg_api_key : option string;
  cfg_base_url : option string
}.

(** [LLMManager.__init__] *)
Definition init : LLMManager := {| models := ∅; active_model := None |}.

(** [a or b] where [a] and [b] are a [str] or [None]. *)
Definition or_else (a b : option string) : option string :=
  match a with
  | Some s => if Py.nonempty s then a else b
  | None => b
  end.

Definition missing_key : Py.exc :=
  Py.Exc Py.ValueError "OpenAI API key not provided. Set OPENAI_API_KEY or pass api_key.".

Definition unsupported (provider : string) : Py.exc :=
  Py.Exc Py.ValueError ("Unsupported provider: " ++ provider).

Section WithEnvironment.
(** The two environment variables, and the exchange with the service that
    [OpenAIChatProvider.generate] makes for a model, a key and a base URL. *)
Variable OPENAI_API_KEY : option string.
Variable OPENAI_BASE_URL : option string.
Variable chat_completions : string -> string -> string -> LLMProvider.

(** [OpenAIChatProvider.__init__] *)
Definition OpenAIChatProvider (model : string) (c : Config) : Py.result LLMProvider :=
  let api_key :=
    match or_else (cfg_api_key c) OPENAI_API_KEY with
    | Some k => k
    | None => EmptyString
    end in
  let base_url :=
    match or_else (cfg_base_url c)
                  (Some (match OPENAI_BASE_URL with
                         | Some u => u
                         | None => "https://api.openai.com"
                         end)) with
    | Some u => u
    | None => EmptyString
    end in
  if negb (Py.nonempty api_key) then Py.Raise missing_key
  else Py.Return (chat_completions model api_key base_url).

(** [LLMManager._build_provider] *)
Definition _build_provider (provider model : string) (c : Config)
  : Py.result LLMProvider :=
  let provider_key := Py.lower provider in
  if String.eqb provider_key "openai" || String.eqb provider_key "openai-chat"
     || String.eqb provider_key "openai_chat"
  then OpenAIChatProvider model c
  else Py.Raise (unsupported provider).

(** [LLMManager.load_model]: the outcome and the manager afterwards. *)
Definition load_model (llm : LLMManager) (model_name provider : string) (c : Config)
  : Py.result bool * LLMManager :=
  match _build_provider provider
          (match cfg_model c with Some m => m | None => model_name end) c with
  | Py.Raise e => (Py.Raise e, llm)
  | Py.Return instance =>
      (Py.Return true,
       {| models := <[model_name := instance]> (models llm);
          active_model :=
            match active_model llm with
            | None => Some model_name
            | Some a => Some a
            end |})
  end.
End WithEnvironment.

(** [LLMManager.unload_model] *)
Definition unload_model (llm : LLMManager) (model_name : string) : bool * LLMManager :=
  match models llm !! model_name with
  | Some _ =>
      (true,
       {| models := delete model_name (models llm);
          active_model :=
            match active_model llm with
            | Some a => if String.eqb a model_name then None else Some a
            | None => None
            end |})
  | None => (false, llm)
  end.

(** [LLMManager.set_active_model] *)
Definition set_active_model (llm : LLMManager) (model_name : string)
  : bool * LLMManager :=
  match models llm !! model_name with
  | Some _ => (true, {| models := models llm; active_model := Some model_name |})
  | None => (false, llm)
  end.

End LLMModels.

(* ===================================================================== *)
(** * [agents/task_manager.py] *)
(* ===================================================================== *)

Module TaskManager.

Inductive TaskStatus : Type := PENDING | RUNNING | COMPLETED | FAILED.

Section WithAny.
(** The values a task's parameters and result may hold. *)
Context {Any : Type}.

(** [@dataclass class Task] *)
Record Task : Type := {
  id : string;
  name : string;
  description : string;
  parameters : Py.dict Any;
  status : TaskStatus;
  result : option Any;
  error : option string
}.

(** [class TaskManager]: the [dict] of tasks and the queue hold the same
    task objects; none of the methods changes a task once it is made. *)
Record t : Type := {
  tasks : Py.dict Task;
  task_queue : list Task
}.

(** [TaskManager.__init__] *)
Definition init : t := {| tasks := []; task_queue := [] |}.

(** [TaskManager.create_task]: the id returned and the manager afterwards. *)
Definition create_task (tm : t) (name description : string) (parameters : Py.dict Any)
  : string * t :=
  let task_id := "task_" ++ Py.str_of_nat (length (tasks tm) + 1) in
  let task :=
    {| id := task_id; name := name; description := description;
       parameters := parameters; status := PENDING; result := None;
       error := None |} in
  (task_id,
   {| tasks := Py.dict_set task_id task (tasks tm);
      task_queue := (task_queue tm ++ [task])%list |}).

(** [TaskManager.get_task_status] *)
Definition get_task_status (tm : t) (task_id : string) : option TaskStatus :=
  match Py.dict_get task_id (tasks tm) with
  | Some task => Some (status task)
  | None => None
  end.

(** [TaskManager.get_task_result] *)
Definition get_task_result (tm : t) (task_id : string) : option Any :=
  match Py.dict_get task_id (tasks tm) with
  | Some task =>
      match status task with
      | COMPLETED => result task
      | _ => None
      end
  | None => None
  end.

(** What a caller asks for when creating a task, and a run of creations:
    the ids returned, oldest first, and the manager afterwards. *)
Definition request : Type := string * string * Py.dict Any.

Fixpoint create_all (tm : t) (l : list request) : list string * t :=
  match l with
  | [] => ([], tm)
  | (n, d, p) :: l' =>
      let '(i, tm1) := create_task tm n d p in
      let '(ids, tm2) := create_all tm1 l' in
      (i :: ids, tm2)
  end.

Definition task_id (n : nat) : string := "task_" ++ Py.str_of_nat n.

Definition request_of (task : Task) : request :=
  (name task, description task, parameters task).
End WithAny.
Arguments Task Any : clear implicits.
Arguments t Any : clear implicits.
Arguments request Any : clear implicits.

End TaskManager.

(* ===================================================================== *)
(** * Histories of calls, and further inputs of examples *)
(* ===================================================================== *)

Module History.
Import VectorDB.

(** The calls that change a database, and a run of them. *)
Inductive op : Type :=
| Add (v : ndarray) (m : metadata) (txt : option string)
| Delete (record_id : string).

Definition step (db : t) (o : op) : t :=
  match o with
  | Add v m txt => snd (add db v m txt)
  | Delete record_id => snd (delete db record_id)
  end.

Definition run (db : t) (ops : list op) : t := fold_left step ops db.

(** Every record is filed under its own id, no id occurs twice, and every
    stored vector has the dimension of the database. *)
Definition filed (db : t) (p : string * VectorRecord) : Prop :=
  id (snd p) = fst p /\ len (vector (snd p)) = dim db.

Definition well_formed (db : t) : Prop :=
  List.NoDup (Py.dict_keys (records db)) /\ Forall (filed db) (records db).

(** A run of stores: the outcomes, oldest first, and the database afterwards. *)
Definition entry : Type := ndarray * metadata * option string.

Fixpoint add_all (db : t) (l : list entry) : list (Py.result string) * t :=
  match l with
  | [] => ([], db)
  | (v, m, txt) :: l' =>
      let '(r, db1) := add db v m txt in
      let '(rs, db2) := add_all db1 l' in
      (r :: rs, db2)
  end.

Definition entry_of (r : VectorRecord) : entry := (vector r, meta r, text r).

(** The number of hits [search] returns for [top_k] when [n] records are
    stored: the slice [[:top_k]] of a list of length [n]. *)
Definition slice_length (top_k : Z) (n : nat) : nat :=
  if top_k <? 0 then Z.to_nat (Z.of_nat n + top_k) else Nat.min (Z.to_nat top_k) n.

(** The record of [db] behind a hit. *)
Definition hit_of (q : ndarray) (r : VectorRecord) : hit :=
  to_hit (r, cosine q (vector r)).

(** The calls that change a memory, and a run of them. *)
Inductive memory_op : Type :=
| StoreMemory (query : string) (embedding : ndarray) (md : option metadata)
| StoreText (txt : string) (md : option metadata)
| SetEmbeddingsProvider (p : Memory.EmbeddingsProvider).

Definition memory_step (m : Memory.t) (o : memory_op) : Memory.t :=
  match o with
  | StoreMemory query embedding md => snd (Memory.store_memory m query embedding md)
  | StoreText txt md => snd (Memory.store_text m txt md)
  | SetEmbeddingsProvider p => Memory.set_embeddings_provider m p
  end.

Definition memory_run (m : Memory.t) (ops : list memory_op) : Memory.t :=
  fold_left memory_step ops m.

(** The database of the memory has only seen stores, and its dimension is
    the memory's. *)
Definition consistent (m : Memory.t) : Prop :=
  Claims.dense (Memory.store m) /\ dim (Memory.store m) = Memory.dim m.

End History.

Module Turn.
Import Kernel.

Definition system_message (p : string) : ChatMessage :=
  {| role := "system"; content := p |}.

Definition user_message (txt : string) : ChatMessage :=
  {| role := "user"; content := txt |}.

Definition memory_header : string := "Relevant memory items (most similar first):".

(** The message that lists [lines] as memory items. *)
Definition memory_message (lines : list string) : ChatMessage :=
  system_message (memory_header ++ newline ++ Py.join newline lines).

(** The texts of the hits that have one, in the order of the hits. *)
Definition remembered (results : list VectorDB.hit) : list string :=
  flat_map
    (fun r =>
       match VectorDB.hit_text r with
       | Some s => if Py.nonempty s then [s] else []
       | None => []
       end)
    results.

Definition item (s : string) : string := "- " ++ s.

(** An embedder that answers every text with one vector of the memory's
    dimension, and at least that one. *)
Definition embeds (m : Memory.t) (embed : Memory.EmbeddingsProvider) : Prop :=
  forall s, exists v rest,
    embed [s] = Py.Return (v :: rest) /\ VectorDB.len v = Memory.dim m.

(** The record a memory files for a text. *)
Definition text_record (rid : string) (v : VectorDB.ndarray) (s : string)
  : VectorDB.VectorRecord :=
  {| VectorDB.id := rid; VectorDB.vector := v; VectorDB.meta := [];
     VectorDB.text := Some s |}.

End Turn.

Module Plan.
Import Json AgentManager.


(** The value [execute] hands to [str] for a decoded action, when it gets
    that far: the message of a [respond], what the tool returned, or a name
    that is neither a string, a list nor an object. *)
Definition shown (am : t) (action : Py.dict Json.value) : option Json.value :=
  match Py.dict_get "action" action with
  | Some (JStr n) =>
      if String.eqb n "respond" then
        match action_args action with
        | JObj d =>
            Some (match Py.dict_get "message" d with
                  | Some m => m
                  | None => JStr EmptyString
                  end)
        | _ => None
        end
      else
        match tools am !! n with
        | Some fn =>
            match call fn (action_args action) with
            | Py.Return v => Some v
            | Py.Raise _ => None
            end
        | None => None
        end
  | Some (JArr _) | Some (JObj _) => None
  | Some v => Some v
  | None => Some JNull
  end.

End Plan.

Module Ex2.
Import VectorDB.

(** An embedder that answers every text with the same unit vector. *)
Definition constant_embedder : Memory.EmbeddingsProvider :=
  fun texts => Py.Return (map (fun _ => Ex.v10) texts).

Definition working_memory : Memory.t := Memory.init (Some constant_embedder) 2.

Definition kernel_with_memory (s : string) : Kernel.t :=
  {| Kernel.llm := Ex.llm_says s;
     Kernel.memory := Some working_memory;
     Kernel.memory_top_k := 3 |}.

(** A provider that always fails, and a manager that has only it. *)
Definition failing_provider : Kernel.LLMProvider :=
  fun _ _ => Py.Raise (Py.Exc (Py.OtherException "ClientError") "connection refused").

Definition kernel_with_failing_llm : Kernel.t :=
  {| Kernel.llm := {| Kernel.models := {[ "default" := failing_provider ]};
                      Kernel.active_model := Some "default" |};
     Kernel.memory := Some working_memory;
     Kernel.memory_top_k := 3 |}.

(** An exchange with the service that echoes the model it is asked for. *)
Definition echo_service : string -> string -> string -> Kernel.LLMProvider :=
  fun model _ _ => Ex.provider_says model.

Definition with_key (k : string) : LLMModels.Config :=
  {| LLMModels.cfg_model := None; LLMModels.cfg_api_key := Some k;
     LLMModels.cfg_base_url := None |}.

(** A tool call that fits: [needs_a] with its argument. *)
Definition fitting_text : string :=
  Ex.plan "needs_a" ("{" ++ Py.quoted "a" ++ ": " ++ Py.quoted "x" ++ "}").


Definition respond_number_text : string := Ex.plan "respond" "7".

(** A direct answer whose arguments are [null]. *)
Definition respond_null_text : string := Ex.plan "respond" "null".

(** [repr] where no example needs it. *)
Definition no_repr : Json.value -> Py.result string := fun _ => Py.Return EmptyString.



(** [power()] returns [10 ** 4300], an [int] of 4301 digits. *)
Definition power : AgentManager.Tool :=
  {| AgentManager.fname := "power";
     AgentManager.required := [];
     AgentManager.optional := [];
     AgentManager.var_keyword := false;
     AgentManager.body := fun _ => Py.Return (Json.JInt (10 ^ 4300)) |}.

Definition power_text : string := Ex.plan "power" "{}".

(** A manager whose model says [s] and whose registry holds one tool. *)
Definition manager_with (name : string) (fn : AgentManager.Tool) (s : string)
  : AgentManager.t :=
  {| AgentManager.kernel := Ex.kernel_says s;
     AgentManager.tools := {[ name := fn ]} |}.

End Ex2.

(* ===================================================================== *)
(** * Properties *)
(* ===================================================================== *)

(** ** The order on floats, away from NaN *)

Module FloatOrder.

Import VectorDB.

Ltac shapes :=
  repeat match goal with
         | x : spec_float |- _ => destruct x as [[]|[]| |[] ? ?]
         end;
  unfold not_nan, SFltb, SFleb, SFeqb in *;
  cbn [SFcompare VectorDB.is_nan] in *;
  try discriminate; try reflexivity; try tauto.

Ltac compare_cases :=
  repeat match goal with
         | H : context [Pos.compare_cont Eq ?a ?b] |- _ =>
             change (Pos.compare_cont Eq a b) with (Pos.compare a b) in H
         | |- context [Pos.compare_cont Eq ?a ?b] =>
             change (Pos.compare_cont Eq a b) with (Pos.compare a b)
         end;
  repeat match goal with
         | H : context [Z.compare ?a ?b] |- _ =>
             destruct (Z.compare_spec a b); try subst; cbn in H; try discriminate
         | |- context [Z.compare ?a ?b] =>
             destruct (Z.compare_spec a b); try subst; cbn; try discriminate
         end;
  repeat match goal with
         | H : context [Pos.compare ?a ?b] |- _ =>
             destruct (Pos.compare_spec a b); try subst; cbn in H; try discriminate
         | |- context [Pos.compare ?a ?b] =>
             destruct (Pos.compare_spec a b); try subst; cbn; try discriminate
         end;
  try reflexivity; try lia.

Lemma ltb_nan_l x : SFltb S754_nan x = false.
Proof. reflexivity. Qed.

Lemma ltb_nan_r x : SFltb x S754_nan = false.
Proof. destruct x; reflexivity. Qed.

Lemma eqb_not_nan x y : SFeqb x y = true -> not_nan x /\ not_nan y.
Proof. shapes. Qed.

Lemma ltb_asym x y : SFltb x y = true -> SFltb y x = false.
Proof. shapes; compare_cases. Qed.

(** [x <= y] and [y <= z] give [x <= z], where [a <= b] reads "not [b < a]". *)
Lemma le_trans x y z :
  not_nan x -> not_nan y -> not_nan z ->
  SFltb y x = false -> SFltb z y = false -> SFltb z x = false.
Proof. intros Hx Hy Hz; shapes; intros; compare_cases. Qed.

Lemma lt_le_trans x y z :
  not_nan z -> SFltb x y = true -> SFltb z y = false -> SFltb x z = true.
Proof. intros Hz; shapes; intros; compare_cases. Qed.

Lemma leb_iff x y :
  not_nan x -> not_nan y -> (SFleb y x = true <-> SFltb x y = false).
Proof. intros Hx Hy; shapes; split; intros; compare_cases. Qed.

Lemma eqb_ltb x y : SFeqb x y = true -> SFltb x y = false.
Proof. shapes; intros; compare_cases. Qed.

Lemma eqb_sym x y : SFeqb x y = SFeqb y x.
Proof. shapes; compare_cases. Qed.

Lemma eqb_trans x y z : SFeqb x y = true -> SFeqb y z = true -> SFeqb x z = true.
Proof. shapes; intros; compare_cases. Qed.

End FloatOrder.

(** ** [list.sort(key=..., reverse=True)] on keys that are numbers *)

Module SortFacts.
Import VectorDB FloatOrder.

Section WithKey.
Context {A : Type} (key : A -> spec_float).

Local Abbreviation le := (le key).
Local Abbreviation ge := (ge key).
Local Abbreviation numbers := (numbers key).
Local Abbreviation tied := (tied key).

Lemma filter_none (p : A -> bool) l :
  (forall z, In z l -> p z = false) -> List.filter p l = [].
Proof.
  induction l as [|y l IH]; intros H; cbn; [reflexivity|].
  rewrite (H y) by now left. apply IH. intros z Hz. apply H. now right.
Qed.

Lemma insort_perm x l : Permutation (insort key x l) (x :: l).
Proof.
  induction l as [|y l IH]; cbn; [reflexivity|].
  destruct (SFltb (key x) (key y)); [reflexivity|].
  rewrite IH. apply perm_swap.
Qed.

Lemma sort_asc_perm_acc l acc :
  Permutation (fold_left (fun a x => insort key x a) l acc) (acc ++ l).
Proof.
  revert acc. induction l as [|x l IH]; intros acc; cbn.
  - rewrite app_nil_r. reflexivity.
  - rewrite IH, insort_perm. cbn.
    apply Permutation_middle.
Qed.

Lemma sort_reverse_perm l : Permutation (sort_reverse key l) l.
Proof.
  unfold sort_reverse, sort_asc.
  rewrite <- Permutation_rev, sort_asc_perm_acc. cbn.
  symmetry. apply Permutation_rev.
Qed.

Lemma numbers_perm l l' : Permutation l l' -> numbers l -> numbers l'.
Proof. intros HP. unfold numbers. now rewrite HP. Qed.

Lemma insort_sorted x l :
  not_nan (key x) -> numbers l ->
  StronglySorted le l -> StronglySorted le (insort key x l).
Proof.
  intros Hx Hl Hs. induction Hs as [|y l Hs IH Hy]; cbn.
  - repeat constructor.
  - inversion Hl as [|? ? Hny Hnl]; subst.
    destruct (SFltb (key x) (key y)) eqn:E.
    + constructor; [constructor; assumption|].
      constructor.
      * unfold le. now apply ltb_asym.
      * rewrite List.Forall_forall in Hy, Hnl |- *. intros z Hz.
        unfold le in *.
        apply (le_trans (key x) (key y) (key z)); auto.
        now apply ltb_asym.
    + constructor; [now apply IH|].
      eapply Permutation_Forall; [symmetry; apply insort_perm|].
      constructor; assumption.
Qed.

Lemma sort_asc_sorted_acc l acc :
  numbers l -> numbers acc -> StronglySorted le acc ->
  StronglySorted le (fold_left (fun a x => insort key x a) l acc).
Proof.
  revert acc. induction l as [|x l IH]; intros acc Hl Hacc Hs; cbn; [assumption|].
  inversion Hl; subst.
  apply IH; [assumption| |now apply insort_sorted].
  eapply numbers_perm; [symmetry; apply insort_perm|].
  constructor; assumption.
Qed.

(** Insertion keeps the elements tied at [c] in their order, the new
    element last among them. *)
Lemma insort_stable c x l :
  not_nan (key x) -> numbers l -> StronglySorted le l ->
  List.filter (tied c) (insort key x l)
  = (List.filter (tied c) l ++ (if tied c x then [x] else []))%list.
Proof.
  intros Hx Hl Hs. induction Hs as [|y l Hs IH Hy]; cbn.
  - destruct (tied c x); reflexivity.
  - inversion Hl as [|? ? Hny Hnl]; subst.
    destruct (SFltb (key x) (key y)) eqn:E.
    + cbn. destruct (tied c x) eqn:Tx.
      * (* nothing from [y] on is tied with [x] *)
        assert (Hnone : List.filter (tied c) (y :: l) = []).
        { apply filter_none. intros z Hz.
          destruct (tied c z) eqn:Tz; [|reflexivity].
          exfalso. unfold tied in *.
          assert (Hxz : SFeqb (key x) (key z) = true).
          { apply (eqb_trans _ c); [assumption|]. now rewrite eqb_sym. }
          apply eqb_ltb in Hxz.
          assert (Hlt : SFltb (key x) (key z) = true).
          { destruct Hz as [<-|Hz]; [assumption|].
            rewrite List.Forall_forall in Hy, Hnl.
            apply (lt_le_trans _ (key y)); [now apply Hnl|assumption|].
            now apply Hy. }
          congruence. }
        cbn in Hnone. rewrite Hnone. reflexivity.
      * now rewrite app_nil_r.
    + cbn. rewrite IH by assumption.
      destruct (tied c y); reflexivity.
Qed.

Lemma sort_asc_stable_acc c l acc :
  numbers l -> numbers acc -> StronglySorted le acc ->
  List.filter (tied c) (fold_left (fun a x => insort key x a) l acc)
  = (List.filter (tied c) acc ++ List.filter (tied c) l)%list.
Proof.
  revert acc. induction l as [|x l IH]; intros acc Hl Hacc Hs; cbn.
  - now rewrite app_nil_r.
  - inversion Hl; subst.
    rewrite IH; [|assumption| |now apply insort_sorted].
    + rewrite insort_stable by assumption.
      rewrite <- app_assoc. f_equal.
      destruct (tied c x); reflexivity.
    + eapply numbers_perm; [symmetry; apply insort_perm|].
      constructor; assumption.
Qed.

Lemma filter_rev' (p : A -> bool) l : List.filter p (rev l) = rev (List.filter p l).
Proof.
  induction l as [|x l IH]; cbn; [reflexivity|].
  rewrite List.filter_app, IH. cbn.
  destruct (p x); cbn; [reflexivity|now rewrite app_nil_r].
Qed.

Lemma numbers_rev l : numbers l -> numbers (rev l).
Proof. apply numbers_perm, Permutation_rev. Qed.

(** The sort keeps tied elements in the order of the list. *)
Lemma sort_reverse_stable c l :
  numbers l -> List.filter (tied c) (sort_reverse key l) = List.filter (tied c) l.
Proof.
  intros Hl. unfold sort_reverse, sort_asc.
  rewrite filter_rev', sort_asc_stable_acc;
    [|now apply numbers_rev|constructor|constructor].
  cbn. rewrite filter_rev'. apply rev_involutive.
Qed.

Lemma StronglySorted_snoc (R : A -> A -> Prop) l x :
  StronglySorted R l -> Forall (fun y => R y x) l -> StronglySorted R (l ++ [x]).
Proof.
  induction 1 as [|y l Hs IH Hy]; intros Hx; cbn.
  - repeat constructor.
  - inversion Hx; subst. constructor; [now apply IH|].
    apply Forall_app. split; [assumption|]. now constructor.
Qed.

Lemma StronglySorted_rev (R : A -> A -> Prop) l :
  StronglySorted R l -> StronglySorted (fun a b => R b a) (rev l).
Proof.
  induction 1 as [|x l Hs IH Hx]; cbn; [constructor|].
  apply StronglySorted_snoc; [assumption|].
  rewrite List.Forall_forall in Hx |- *. intros z Hz.
  apply Hx. now apply in_rev.
Qed.

(** The sort leaves the keys in descending order. *)
Lemma sort_reverse_sorted l :
  numbers l -> StronglySorted ge (sort_reverse key l).
Proof.
  intros Hl.
  assert (Hn : numbers (sort_reverse key l)).
  { eapply numbers_perm; [symmetry; apply sort_reverse_perm|assumption]. }
  assert (Hs : StronglySorted (fun a b => le b a) (sort_reverse key l)).
  { unfold sort_reverse, sort_asc. apply StronglySorted_rev.
    apply sort_asc_sorted_acc; [now apply numbers_rev|constructor|constructor]. }
  revert Hn. induction Hs as [|x l' Hs IH Hx]; intros Hn; [constructor|].
  inversion Hn as [|? ? Hnx Hnl]; subst.
  constructor; [now apply IH|].
  rewrite List.Forall_forall in Hx, Hnl |- *. intros z Hz.
  unfold ge, le in *. apply leb_iff; auto.
Qed.

End WithKey.
End SortFacts.

(** ** The vector database *)

Module VectorDBProps.
Import VectorDB Claims FloatOrder.

(** *** Identifiers *)

Lemma str_of_nat_inj a b : Py.str_of_nat a = Py.str_of_nat b -> a = b.
Proof.
  unfold Py.str_of_nat. intros H.
  apply (f_equal NilEmpty.uint_of_string) in H.
  rewrite !NilEmpty.usu in H. injection H as H.
  now apply DecimalNat.Unsigned.to_uint_inj.
Qed.

Lemma vec_id_inj a b : vec_id a = vec_id b -> a = b.
Proof. unfold vec_id. cbn. intros H. injection H as H. now apply str_of_nat_inj. Qed.

Lemma dict_get_none_keys {V} k (d : Py.dict V) :
  ~ In k (Py.dict_keys d) -> Py.dict_get k d = None.
Proof.
  induction d as [|[k' v] d IH]; cbn; [reflexivity|].
  intros H. destruct (String.eqb_spec k' k) as [->|Hne].
  - exfalso. apply H. now left.
  - apply IH. intros Hin. apply H. now right.
Qed.

Lemma dict_set_fresh {V} k (v : V) (d : Py.dict V) :
  Py.dict_get k d = None -> Py.dict_set k v d = (d ++ [(k, v)])%list.
Proof.
  induction d as [|[k' v'] d IH]; cbn; [reflexivity|].
  destruct (String.eqb k' k); [discriminate|].
  intros H. now rewrite IH.
Qed.

(** Without a delete in between, a store gets an id no stored record has,
    and appends. *)
Lemma add_fresh_when_dense db v m txt :
  dense db -> len v = dim db ->
  exists rid db',
    add db v m txt = (Py.Return rid, db')
    /\ get db rid = None
    /\ records db' = (records db ++ [(rid, {| id := rid; vector := v; meta := m; text := txt |})])%list
    /\ dense db'.
Proof.
  intros Hd Hlen. unfold dense in Hd.
  unfold add. rewrite Hlen, Z.eqb_refl. cbn [negb].
  set (rid := ("vec_" ++ Py.str_of_nat (length (records db) + 1))%string).
  assert (Hnone : Py.dict_get rid (records db) = None).
  { apply dict_get_none_keys. rewrite Hd. intros Hin.
    apply in_map_iff in Hin. destruct Hin as (i & Hi & Hin).
    apply vec_id_inj in Hi. apply in_seq in Hin. lia. }
  eexists _, _. split; [reflexivity|].
  split; [exact Hnone|]. cbn [records].
  rewrite (dict_set_fresh _ _ _ Hnone). split; [reflexivity|].
  unfold dense. cbn [records]. unfold Py.dict_keys in *.
  rewrite map_app, Hd, length_app. cbn [length map fst].
  rewrite seq_app, map_app. cbn. do 2 f_equal.
  subst rid. unfold vec_id. do 2 f_equal. lia.
Qed.

Lemma dict_get_some_keys {V} k (d : Py.dict V) :
  In k (Py.dict_keys d) -> exists v, Py.dict_get k d = Some v.
Proof.
  induction d as [|[k' v] d IH]; cbn; [contradiction|].
  intros [->|Hin].
  - rewrite String.eqb_refl. eauto.
  - destruct (String.eqb k' k); eauto.
Qed.

Lemma dict_get_set {V} k (v : V) (d : Py.dict V) :
  Py.dict_get k (Py.dict_set k v d) = Some v.
Proof.
  induction d as [|[k' v'] d IH]; cbn.
  - now rewrite String.eqb_refl.
  - destruct (String.eqb k' k) eqn:E; cbn; now rewrite E.
Qed.

Lemma dict_set_length {V} k (v : V) (d : Py.dict V) :
  Py.dict_mem k d = true -> length (Py.dict_set k v d) = length d.
Proof.
  unfold Py.dict_mem.
  induction d as [|[k' v'] d IH]; cbn; [discriminate|].
  destruct (String.eqb k' k); cbn; [reflexivity|].
  intros H. now rewrite IH.
Qed.

(** C1 (the code on every failing input of this shape): in a database that
    has seen [n >= 2] stores and nothing else, once the first record is
    deleted the next store returns the id of the last record stored, which
    is still there, and puts the new record in its place: the number of
    records does not grow. *)
Theorem add_after_delete_reuses_id (db : t) (v : ndarray) (m : metadata)
        (txt : option string) :
  dense db ->
  (2 <= length (records db))%nat ->
  len v = dim db ->
  let db1 := snd (delete db (vec_id 1)) in
  let last := vec_id (length (records db)) in
  fst (delete db (vec_id 1)) = true
  /\ (exists old, get db1 last = Some old)
  /\ fst (add db1 v m txt) = Py.Return last
  /\ get (snd (add db1 v m txt)) last
     = Some {| id := last; vector := v; meta := m; text := txt |}
  /\ length (records (snd (add db1 v m txt))) = length (records db1).
Proof.
  intros Hd Hn Hlen. unfold dense in Hd.
  destruct db as [d recs]. cbn [records dim] in *. unfold Py.dict in *.
  destruct recs as [|[k1 r1] rest]; [cbn in Hn; lia|].
  cbn [length] in *. cbn [Py.dict_keys map fst seq] in Hd.
  injection Hd as Hk1 Hrest. subst k1.
  unfold delete, Py.dict_mem. cbn [records Py.dict_get Py.dict_del dim].
  rewrite String.eqb_refl. cbn [fst snd].
  assert (Hin : In (vec_id (S (length rest))) (Py.dict_keys rest)).
  { unfold Py.dict_keys. rewrite Hrest. apply in_map, in_seq. lia. }
  destruct (dict_get_some_keys _ _ Hin) as (old & Hold).
  split; [reflexivity|]. split; [exists old; exact Hold|].
  unfold add. cbn [records dim]. rewrite Hlen, Z.eqb_refl. cbn [negb fst snd records].
  replace (length rest + 1)%nat with (S (length rest)) by lia.
  fold (vec_id (S (length rest))).
  split; [reflexivity|]. split.
  - unfold get. cbn [records]. apply dict_get_set.
  - apply dict_set_length. unfold Py.dict_mem. now rewrite Hold.
Qed.

Lemma add_after_delete_reuses_id_witness :
  (exists old, get Ex.db_after_delete "vec_2" = Some old)
  /\ fst (add Ex.db_after_delete Ex.v11 [] (Some "c")) = Py.Return "vec_2"
  /\ get (snd (add Ex.db_after_delete Ex.v11 [] (Some "c"))) "vec_2"
     = Some {| id := "vec_2"; vector := Ex.v11; meta := []; text := Some "c" |}.
Proof.
  destruct (add_after_delete_reuses_id Ex.db_two Ex.v11 [] (Some "c")
              eq_refl ltac:(vm_compute; lia) eq_refl)
    as (_ & Hold & Hadd & Hget & _).
  split; [exact Hold|]. split; [exact Hadd|exact Hget].
Defined.

(** *** Dimension checks *)

(** C9: storing an embedding whose length differs from the configured
    dimension, of the memory or of its database, raises [ValueError], and the
    memory afterwards is the memory before. *)
Theorem store_memory_dimension_mismatch (m : Memory.t) (query : string)
        (embedding : ndarray) (md : option metadata) :
  len embedding <> Memory.dim m \/ len embedding <> dim (Memory.store m) ->
  exists err,
    Memory.store_memory m query embedding md = (Py.Raise err, m)
    /\ Py.exc_cls err = Py.ValueError.
Proof.
  intros H. unfold Memory.store_memory.
  destruct (Z.eqb_spec (len embedding) (Memory.dim m)) as [E1|E1]; cbn [negb].
  - destruct H as [H|H]; [contradiction|].
    unfold add. apply Z.eqb_neq in H. rewrite H. cbn [negb].
    exists (dim_error (dim (Memory.store m))). split; [|reflexivity].
    destruct m; reflexivity.
  - eexists. split; reflexivity.
Qed.

Lemma store_memory_dimension_mismatch_witness :
  exists err,
    Memory.store_memory Ex.mem_two "q" [Ex.one] None = (Py.Raise err, Ex.mem_two)
    /\ Py.exc_cls err = Py.ValueError.
Proof.
  apply (store_memory_dimension_mismatch Ex.mem_two "q" [Ex.one] None).
  left. vm_compute. discriminate.
Defined.

Lemma add_dimension_mismatch db v m txt :
  len v <> dim db -> add db v m txt = (Py.Raise (dim_error (dim db)), db).
Proof. intros H. unfold add. apply Z.eqb_neq in H. now rewrite H. Qed.

End VectorDBProps.

(** ** Similarity and search *)

Module SearchProps.
Import VectorDB Claims FloatOrder.

(** *** The quotient of lines 46-48 at a zero norm *)
















(** *** The order of the hits *)

Lemma StronglySorted_firstn {A} (R : A -> A -> Prop) n l :
  StronglySorted R l -> StronglySorted R (firstn n l).
Proof.
  intros Hs. revert n. induction Hs as [|x l Hs IH Hx]; intros [|n]; cbn; try constructor.
  - apply IH.
  - rewrite List.Forall_forall in Hx |- *. intros z Hz.
    apply Hx. rewrite <- (firstn_skipn n l). apply in_or_app. now left.
Qed.

Lemma descending_map_to_hit l :
  StronglySorted (ge snd) l -> descending (map to_hit l).
Proof.
  unfold descending. induction 1 as [|x l Hs IH Hx]; cbn; constructor; [assumption|].
  rewrite List.Forall_forall in Hx |- *. intros z Hz.
  apply in_map_iff in Hz as (p & <- & Hp). apply (Hx p Hp).
Qed.

Lemma filter_map_to_hit c l :
  List.filter (tied similarity c) (map to_hit l)
  = map to_hit (List.filter (tied snd c) l).
Proof.
  induction l as [|x l IH]; [reflexivity|].
  cbn [map List.filter]. rewrite IH.
  unfold tied. cbn [similarity to_hit].
  destruct (SFeqb (snd x) c); reflexivity.
Qed.

Lemma slice_to_nonneg {A} k (l : list A) :
  0 <= k -> slice_to k l = firstn (Z.to_nat k) l.
Proof. intros H. unfold slice_to. apply Z.ltb_ge in H. now rewrite H. Qed.

(** C2 (amended): for a count [k] that is not negative, and as long as no
    computed similarity is NaN, [search] returns at most [k] hits, taken from
    the stored records, in descending order of similarity, hits of equal
    similarity in the order of the [dict]. *)
Theorem search_sorted_stable (db : t) (q : ndarray) (k : Z) (hits : list hit) :
  0 <= k ->
  all_numbers db q ->
  search db q k = Py.Return hits ->
  len hits <= k
  /\ descending hits
  /\ ties_in_stored_order db q hits
  /\ exists rest, Permutation (hits ++ rest) (stored_order db q).
Proof.
  intros Hk Hn Hs. unfold search in Hs.
  destruct (negb (len q =? dim db)); [discriminate|].
  injection Hs as <-. rewrite slice_to_nonneg by assumption.
  set (sorted := sort_reverse snd (similarities db q)).
  assert (Hperm : Permutation sorted (similarities db q))
    by apply SortFacts.sort_reverse_perm.
  repeat split.
  - unfold len. rewrite length_map.
    pose proof (firstn_le_length (Z.to_nat k) sorted). lia.
  - apply descending_map_to_hit, StronglySorted_firstn.
    now apply SortFacts.sort_reverse_sorted.
  - intros c. exists (map to_hit (List.filter (tied snd c) (skipn (Z.to_nat k) sorted))).
    unfold stored_order. rewrite !filter_map_to_hit, <- map_app, <- List.filter_app.
    rewrite firstn_skipn. f_equal. symmetry.
    now apply SortFacts.sort_reverse_stable.
  - exists (map to_hit (skipn (Z.to_nat k) sorted)).
    rewrite <- map_app, firstn_skipn. unfold stored_order.
    now apply Permutation_map.
Qed.

Lemma search_sorted_stable_witness :
  exists hits,
    search Ex.db_two Ex.v11 1 = Py.Return hits
    /\ len hits <= 1 /\ descending hits /\ ties_in_stored_order Ex.db_two Ex.v11 hits.
Proof.
  eexists. split; [reflexivity|].
  pose proof (search_sorted_stable Ex.db_two Ex.v11 1 _ ltac:(lia)
                ltac:(repeat constructor) eq_refl) as (H1 & H2 & H3 & _).
  repeat split; assumption.
Defined.

(** C2 as stated fails, twice.  With the zero vector stored, the hits for
    the first unit vector carry the similarities NaN and 1 in that order,
    which is not descending.  With [top_k = -1] and two records stored, the
    slice keeps all but the last: one hit, more than [top_k]. *)
Lemma search_not_sorted_with_nan :
  (exists hits,
     search Ex.db_zero Ex.v10 5 = Py.Return hits
     /\ map similarity hits = [S754_nan; Ex.one]
     /\ ~ descending hits)
  /\ (exists hits,
        search Ex.db_two Ex.v11 (-1) = Py.Return hits /\ ~ len hits <= -1).
Proof.
  split.
  - eexists. split; [reflexivity|]. split; [reflexivity|].
    intros H. inversion H as [|? ? _ Hx]; subst.
    inversion Hx as [|? ? Hge _]; subst.
    vm_compute in Hge. discriminate.
  - eexists. split; [reflexivity|]. vm_compute. intros H. now apply H.
Qed.

End SearchProps.

(** ** The action interpreter *)

Module ParseProps.
Import Json AgentManager Claims.

Local Open Scope string_scope.
Local Arguments String.append !s1 s2 /.

Lemma find_lower_bound c s : -1 <= Py.find c s.
Proof.
  induction s as [|x s IH]; cbn; [lia|].
  destruct (Ascii.eqb x c); [lia|].
  destruct (Z.ltb_spec (Py.find c s) 0); lia.
Qed.

Lemma rfind_lower_bound c s : -1 <= Py.rfind c s.
Proof.
  induction s as [|x s IH]; cbn; [lia|].
  destruct (Z.leb_spec 0 (Py.rfind c s)); [lia|].
  destruct (Ascii.eqb x c); lia.
Qed.

Lemma find_app c pre rest :
  Py.find c pre = -1 -> Py.find c (pre ++ String c rest) = Z.of_nat (String.length pre).
Proof.
  induction pre as [|x pre IH]; cbn [Py.find String.append String.length]; intros H.
  - now rewrite Ascii.eqb_refl.
  - destruct (Ascii.eqb x c); [discriminate|].
    pose proof (find_lower_bound c pre).
    destruct (Z.ltb_spec (Py.find c pre) 0); [|lia].
    rewrite IH by lia.
    destruct (Z.ltb_spec (Z.of_nat (String.length pre)) 0); lia.
Qed.

Lemma rfind_app c a post :
  Py.rfind c post = -1 -> Py.rfind c (a ++ String c post) = Z.of_nat (String.length a).
Proof.
  intros H. induction a as [|x a IH]; cbn [Py.rfind String.append String.length].
  - rewrite H. cbn. now rewrite Ascii.eqb_refl.
  - rewrite IH.
    destruct (Z.leb_spec 0 (Z.of_nat (String.length a))); lia.
Qed.

Lemma substring_skip pre n s :
  String.substring (String.length pre) n (pre ++ s) = String.substring 0 n s.
Proof. induction pre as [|x pre IH]; cbn; [reflexivity|assumption]. Qed.

Lemma substring_prefix s t :
  String.substring 0 (String.length s) (s ++ t) = s.
Proof.
  induction s as [|x s IH]; cbn.
  - destruct t; reflexivity.
  - now rewrite IH.
Qed.

Lemma length_append s t : String.length (s ++ t) = (String.length s + String.length t)%nat.
Proof. induction s as [|x s IH]; cbn; [reflexivity|now rewrite IH]. Qed.

Lemma append_assoc s t u : (s ++ t) ++ u = s ++ (t ++ u).
Proof. induction s as [|x s IH]; cbn; [reflexivity|now rewrite IH]. Qed.

(** The slice the code takes is the brace slice. *)
Lemma slice_of_brace_slice t snippet :
  brace_slice t snippet ->
  let start := Py.find "{" t in
  let end_ := Py.rfind "}" t in
  start <> -1 /\ end_ <> -1 /\ start < end_
  /\ Py.slice t start (end_ + 1) = snippet.
Proof.
  intros (pre & mid & post & -> & Hpre & Hpost & ->). cbn zeta.
  rewrite (find_app _ pre _ Hpre).
  replace (pre ++ String "{" (mid ++ String "}" post))
    with ((pre ++ String "{" mid) ++ String "}" post)
    by (rewrite append_assoc; reflexivity).
  rewrite (rfind_app _ _ post Hpost), length_append. cbn [String.length].
  repeat split; try lia.
  unfold Py.slice. rewrite append_assoc. cbn [String.append].
  rewrite Nat2Z.id.
  replace (Z.to_nat _) with (String.length (String "{" (mid ++ String "}" EmptyString)))
    by (cbn [String.length]; rewrite length_append; cbn [String.length]; lia).
  rewrite substring_skip.
  replace (String "{" (mid ++ String "}" post))
    with (String "{" (mid ++ String "}" EmptyString) ++ post)
    by (cbn; rewrite append_assoc; reflexivity).
  apply substring_prefix.
Qed.

(** Conversely, indices that pass the test of line 106 cut a brace slice. *)
Lemma find_split c s :
  0 <= Py.find c s ->
  exists pre rest,
    s = pre ++ String c rest
    /\ Py.find c pre = -1
    /\ Z.of_nat (String.length pre) = Py.find c s.
Proof.
  induction s as [|x s IH]; cbn [Py.find]; [lia|].
  destruct (Ascii.eqb_spec x c) as [->|Hne].
  - intros _. exists EmptyString, s. repeat split.
  - pose proof (find_lower_bound c s).
    destruct (Z.ltb_spec (Py.find c s) 0) as [Hlt|Hge]; [lia|].
    intros _. destruct (IH Hge) as (pre & rest & -> & Hp & Hl).
    exists (String x pre), rest. cbn [Py.find String.append String.length].
    apply Ascii.eqb_neq in Hne. rewrite Hne, Hp. cbn.
    repeat split. lia.
Qed.

Lemma rfind_split c s :
  0 <= Py.rfind c s ->
  exists a post,
    s = a ++ String c post
    /\ Py.rfind c post = -1
    /\ Z.of_nat (String.length a) = Py.rfind c s.
Proof.
  induction s as [|x s IH]; cbn [Py.rfind]; [lia|].
  destruct (Z.leb_spec 0 (Py.rfind c s)) as [Hge|Hlt].
  - intros _. destruct (IH Hge) as (a & post & -> & Hp & Hl).
    exists (String x a), post. cbn [String.append String.length].
    repeat split; [assumption|lia].
  - destruct (Ascii.eqb_spec x c) as [->|Hne]; [|lia].
    intros _. exists EmptyString, s. pose proof (rfind_lower_bound c s).
    repeat split. lia.
Qed.

Lemma append_split_longer a b c d :
  a ++ b = c ++ d -> (String.length a <= String.length c)%nat ->
  exists m, c = a ++ m /\ b = m ++ d.
Proof.
  revert c. induction a as [|x a IH]; intros c H Hlen; cbn in *.
  - exists c. split; [reflexivity|assumption].
  - destruct c as [|y c]; cbn in *; [lia|].
    injection H as -> H.
    destruct (IH c H ltac:(lia)) as (m & -> & ->).
    exists m. split; reflexivity.
Qed.

Lemma brace_slice_exists t :
  Py.find "{" t <> -1 -> Py.rfind "}" t <> -1 -> Py.find "{" t < Py.rfind "}" t ->
  exists snippet, brace_slice t snippet.
Proof.
  intros H1 H2 H3.
  pose proof (find_lower_bound "{" t). pose proof (rfind_lower_bound "}" t).
  destruct (find_split "{" t ltac:(lia)) as (pre & rest & E1 & Hpre & L1).
  destruct (rfind_split "}" t ltac:(lia)) as (a & post & E2 & Hpost & L2).
  assert (E : pre ++ String "{" rest = a ++ String "}" post) by congruence.
  destruct (append_split_longer pre _ a _ E ltac:(lia)) as (m & -> & Hm).
  rewrite length_append in L2.
  destruct m as [|x m]; [cbn in L2; lia|].
  cbn in Hm. injection Hm as <- ->.
  eexists. exists pre, m, post. repeat split; assumption.
Qed.

Lemma try_parse_spec s obj :
  try_parse s = Some obj
  <-> Json.loads s = Some (JObj obj) /\ Py.dict_mem "action" obj = true.
Proof.
  unfold try_parse. split.
  - destruct (Json.loads s) as [[| | | | | | | |d]|]; try discriminate.
    destruct (Py.dict_mem "action" d) eqn:E; [|discriminate].
    intros [= ->]. now split.
  - intros [E1 E2]. now rewrite E1, E2.
Qed.

(** C4: the interpreter trims the text and decodes it whole, keeping the
    result only if it is an object with the key [action]; failing that, it
    decodes the part from the first opening brace to the last closing brace
    under the same test; it returns null when both attempts fail.  The
    specification's two examples: the object wrapped in prose is found, the
    text without braces gives null. *)
Theorem safe_parse_action_two_stage :
  (forall s obj,
      try_parse s = Some obj
      <-> Json.loads s = Some (JObj obj) /\ Py.dict_mem "action" obj = true)
  /\ (forall text obj,
         try_parse (Py.strip text) = Some obj -> _safe_parse_action text = Some obj)
  /\ (forall text snippet,
         try_parse (Py.strip text) = None ->
         brace_slice (Py.strip text) snippet ->
         _safe_parse_action text = try_parse snippet)
  /\ (forall text,
         try_parse (Py.strip text) = None ->
         (forall snippet, ~ brace_slice (Py.strip text) snippet) ->
         _safe_parse_action text = None)
  /\ _safe_parse_action noisy_text = Some noisy_action
  /\ _safe_parse_action "no braces here" = None.
Proof.
  split; [exact try_parse_spec|].
  split; [|split; [|split; [|split; reflexivity]]].
  - intros text obj H. unfold _safe_parse_action. now rewrite H.
  - intros text snippet H Hs. unfold _safe_parse_action. rewrite H.
    destruct (slice_of_brace_slice _ _ Hs) as (H1 & H2 & H3 & H4).
    apply Z.eqb_neq in H1, H2. apply Z.ltb_lt in H3.
    rewrite H1, H2, H3. cbn. now rewrite H4.
  - intros text H Hno. unfold _safe_parse_action. rewrite H.
    destruct (Z.eqb_spec (Py.find "{" (Py.strip text)) (-1)) as [|H1]; [reflexivity|].
    destruct (Z.eqb_spec (Py.rfind "}" (Py.strip text)) (-1)) as [|H2]; [reflexivity|].
    destruct (Z.ltb_spec (Py.find "{" (Py.strip text)) (Py.rfind "}" (Py.strip text)))
      as [H3|]; [|reflexivity].
    destruct (brace_slice_exists _ H1 H2 H3) as (snippet & Hs).
    exfalso. exact (Hno snippet Hs).
Qed.

Lemma safe_parse_action_two_stage_witness :
  _safe_parse_action noisy_text
  = try_parse (String "{" (Py.quoted "action" ++ ":" ++ Py.quoted "x" ++ ","
                           ++ Py.quoted "args" ++ ":{}" ++ String "}" EmptyString)).
Proof.
  apply (proj1 (proj2 (proj2 safe_parse_action_two_stage))).
  - reflexivity.
  - exists "noise ", (Py.quoted "action" ++ ":" ++ Py.quoted "x" ++ ","
                      ++ Py.quoted "args" ++ ":{}"), " trailing".
    repeat split; reflexivity.
Defined.

End ParseProps.

(** ** Dispatch *)

Module DispatchProps.
Import Json AgentManager Claims.

Local Open Scope string_scope.

Section WithRepr.
Variable repr : Json.value -> Py.result string.

(** What [execute] returns once the model text is known. *)
Lemma execute_dispatch am user_input llm_text k' action :
  Kernel.process_input (kernel am) user_input (Some INTERPRETER_SYSTEM_PROMPT) None
                       interpreter_options = (Py.Return llm_text, k') ->
  _safe_parse_action llm_text = Some action ->
  Py.dict_mem "action" action = true ->
  fst (execute repr am user_input)
  = dispatch repr {| kernel := k'; tools := tools am |} action.
Proof.
  intros Hk Hp Hm. unfold execute. rewrite Hk, Hp.
  destruct action; [discriminate|reflexivity].
Qed.

Lemma parsed_has_action llm_text action :
  _safe_parse_action llm_text = Some action -> Py.dict_mem "action" action = true.
Proof.
  unfold _safe_parse_action.
  destruct (try_parse (Py.strip llm_text)) eqn:E1.
  - intros [= <-]. now apply ParseProps.try_parse_spec in E1.
  - destruct (_ && _); [|discriminate].
    intros E2. now apply ParseProps.try_parse_spec in E2.
Qed.



Lemma find_none_of_all {A} (p : A -> bool) l :
  (forall x, In x l -> p x = false) -> List.find p l = None.
Proof.
  induction l as [|a l IH]; cbn; [reflexivity|]. intros H.
  rewrite (H a) by now left. apply IH. intros x Hx. apply H. now right.
Qed.

(** Keywords that fit reach the body. *)
Lemma call_fits fn kw :
  ~ shape_mismatch fn (JObj kw) -> call fn (JObj kw) = body fn kw.
Proof.
  intros H. cbn in *. rewrite !find_none_of_all; [reflexivity| |].
  - intros p Hp. apply negb_false_iff.
    destruct (Py.dict_mem p kw) eqn:E; [reflexivity|].
    exfalso. apply H. right. eauto.
  - intros k Hk. apply negb_false_iff.
    destruct (accepts fn k) eqn:E; [reflexivity|].
    exfalso. apply H. left. eauto.
Qed.


(** C6 (as amended): when the model text decodes to the plan with the
    action [respond] and the message [m], [execute] returns [m]; when the
    decoded action is [respond] and its arguments are absent, are false
    ([null], [false], zero, an empty string, list or object), or are an
    object without the key [message], [execute] returns the empty string;
    when its arguments are true and no object, [execute] raises
    [AttributeError]. *)
Theorem respond_returns_message (am : t) (user_input llm_text : string)
        (k' : Kernel.t) :
  Kernel.process_input (kernel am) user_input (Some INTERPRETER_SYSTEM_PROMPT) None
                       interpreter_options = (Py.Return llm_text, k') ->
  (forall m,
      Json.loads (Py.strip llm_text) = Some (respond_plan m) ->
      fst (execute repr am user_input) = Py.Return m)
  /\ (forall action,
         _safe_parse_action llm_text = Some action ->
         Py.dict_get "action" action = Some (JStr "respond") ->
         (Py.dict_get "args" action = None
          \/ (exists a, Py.dict_get "args" action = Some a /\ truthy a = false)
          \/ (exists d, Py.dict_get "args" action = Some (JObj d)
                        /\ Py.dict_get "message" d = None)) ->
         fst (execute repr am user_input) = Py.Return EmptyString)
  /\ (forall action a,
         _safe_parse_action llm_text = Some action ->
         Py.dict_get "action" action = Some (JStr "respond") ->
         Py.dict_get "args" action = Some a ->
         truthy a = true ->
         (forall d, a <> JObj d) ->
         exists e,
           fst (execute repr am user_input) = Py.Raise e
           /\ Py.exc_cls e = Py.AttributeError).
Proof.
  intros Hk. split; [|split].
  - intros m Hl.
    assert (Hp : _safe_parse_action llm_text
                 = Some [("action", JStr "respond"); ("args", JObj [("message", JStr m)])]).
    { unfold _safe_parse_action, try_parse. unfold respond_plan in Hl. now rewrite Hl. }
    rewrite (execute_dispatch _ _ _ _ _ Hk Hp eq_refl). reflexivity.
  - intros action Hp Hn Hargs.
    rewrite (execute_dispatch _ _ _ _ _ Hk Hp (parsed_has_action _ _ Hp)).
    unfold dispatch, action_args. rewrite Hn. cbn [String.eqb Ascii.eqb Bool.eqb].
    destruct Hargs as [->|[(a & -> & Hf)|(d & -> & Hm)]]; [reflexivity| |].
    + rewrite Hf. reflexivity.
    + cbn [truthy]. destruct d as [|p d]; [reflexivity|]. now rewrite Hm.
  - intros action a Hp Hn Ha Ht Hno.
    rewrite (execute_dispatch _ _ _ _ _ Hk Hp (parsed_has_action _ _ Hp)).
    unfold dispatch, action_args. rewrite Hn, Ha, Ht.
    cbn [String.eqb Ascii.eqb Bool.eqb].
    destruct a; try (eexists; split; reflexivity).
    exfalso. eapply Hno. reflexivity.
Qed.

End WithRepr.



Lemma respond_returns_message_witness :
  fst (execute Ex2.no_repr (Ex.manager_says Ex.hello_text) "hi")
  = Py.Return "hello"
  /\ fst (execute Ex2.no_repr (Ex.manager_says Ex.silent_text) "hi")
     = Py.Return EmptyString
  /\ fst (execute Ex2.no_repr (Ex.manager_says Ex2.respond_null_text) "hi")
     = Py.Return EmptyString.
Proof.
  split; [|split].
  - apply (proj1 (respond_returns_message Ex2.no_repr
                    (Ex.manager_says Ex.hello_text) "hi" Ex.hello_text
                    (Ex.kernel_says Ex.hello_text) eq_refl) "hello").
    reflexivity.
  - apply (proj1 (proj2 (respond_returns_message Ex2.no_repr
                    (Ex.manager_says Ex.silent_text) "hi" Ex.silent_text
                    (Ex.kernel_says Ex.silent_text) eq_refl))
                 [("action", JStr "respond"); ("args", JObj [])]).
    + reflexivity.
    + reflexivity.
    + right. right. exists []. split; reflexivity.
  - apply (proj1 (proj2 (respond_returns_message Ex2.no_repr
                    (Ex.manager_says Ex2.respond_null_text) "hi" Ex2.respond_null_text
                    (Ex.kernel_says Ex2.respond_null_text) eq_refl))
                 [("action", JStr "respond"); ("args", JNull)]).
    + reflexivity.
    + reflexivity.
    + right. left. exists JNull. split; reflexivity.
Defined.

(** C6 (the claim as it stands fails): a [respond] whose arguments are the
    number 7 has no key [message] in its arguments, and [execute] raises
    [AttributeError] instead of returning the empty string. *)
Lemma respond_number_raises :
  _safe_parse_action Ex2.respond_number_text
  = Some [("action", JStr "respond"); ("args", JInt 7)]
  /\ fst (execute Ex2.no_repr (Ex.manager_says Ex2.respond_number_text) "hi")
     = Py.Raise (Py.Exc Py.AttributeError "object has no attribute 'get'").
Proof. split; vm_compute; reflexivity. Qed.

End DispatchProps.

(** ** The kernel *)

Module KernelProps.
Import Kernel.

(** Retrieval that raises leaves the messages as they are without memory. *)
Lemma retrieval_failure_skipped k txt sp ctx m e :
  memory k = Some m ->
  Memory.retrieve_memory m txt (memory_top_k k) = Py.Raise e ->
  build_messages k txt sp ctx = build_messages (without_memory k) txt sp ctx.
Proof.
  intros Hm He. unfold build_messages, inject_memory. cbn [memory without_memory].
  rewrite Hm, He. now destruct (Memory.embeddings m).
Qed.

(** C8: whenever the call to the language model succeeds, [process_input]
    returns the text of its result, whatever the memory does: a retrieval
    that raises only drops the memory block from the messages, and the two
    stores cannot change the outcome nor the model manager. *)
Theorem memory_failures_never_abort (k : t) (txt : string) (sp : option string)
        (ctx : option (list ChatMessage)) (o : GenOptions) (r : GenerateResult) :
  generate (llm k) (build_messages k txt sp ctx) o = Py.Return r ->
  fst (process_input k txt sp ctx o) = Py.Return (output_of r)
  /\ llm (snd (process_input k txt sp ctx o)) = llm k
  /\ (forall m e,
         memory k = Some m ->
         Memory.retrieve_memory m txt (memory_top_k k) = Py.Raise e ->
         build_messages k txt sp ctx = build_messages (without_memory k) txt sp ctx).
Proof.
  intros Hg. unfold process_input. rewrite Hg. cbn [fst snd].
  split; [reflexivity|]. split.
  - unfold store_interaction.
    destruct (memory k) as [m|]; [|reflexivity].
    destruct (Memory.embeddings m); [|reflexivity].
    destruct (Memory.store_text m txt None) as [[?|?] m1]; [|reflexivity].
    destruct (Py.nonempty (output_of r)); reflexivity.
  - intros m e. apply retrieval_failure_skipped.
Qed.

Lemma memory_failures_never_abort_witness :
  fst (process_input Ex.kernel_with_failing_memory "hello" None None
                     AgentManager.interpreter_options) = Py.Return "ok"
  /\ Memory.retrieve_memory (Memory.init (Some Ex.failing_embedder) 2) "hello" 3
     = Py.Raise (Py.Exc Py.RuntimeError "embedding service unavailable")
  /\ fst (Memory.store_text (Memory.init (Some Ex.failing_embedder) 2) "hello" None)
     = Py.Raise (Py.Exc Py.RuntimeError "embedding service unavailable").
Proof.
  split; [|split; reflexivity].
  apply (proj1 (memory_failures_never_abort Ex.kernel_with_failing_memory "hello" None None
                  AgentManager.interpreter_options {| text := Some "ok" |} eq_refl)).
Defined.

End KernelProps.

(** ** The time parser *)

Module SchedulingProps.
Import Datetime SchedulingAgent Claims.

Local Open Scope string_scope.

(** The second pattern does not compile: what follows the opening of a
    conditional has to be a group name or number. *)
Lemma HHMM_rejected : Re.compile HHMM_src false = Py.Raise bad_group_name.
Proof. reflexivity. Qed.

Lemma import_module_raises : import_module = Py.Raise bad_group_name.
Proof. reflexivity. Qed.

(** *** The function body, for any compiled second pattern

    The lemmas below read the body of [parse_natural_time] with an arbitrary
    pattern [h] standing where the second pattern should be: this is what
    the function computes once that pattern compiles. *)

Lemma import_with_returns h : import_with h = Py.Return (globals_with h).
Proof. vm_compute. reflexivity. Qed.

Lemma body_tomorrow_8am h :
  parse_natural_time (globals_with h) "tomorrow at 8AM" at_2025_01_01
  = Py.Return (Some at_2025_01_02_08).
Proof. vm_compute. reflexivity. Qed.

Lemma body_absolute h T :
  parse_natural_time (globals_with h) "2025-10-01 14:00" T
  = Py.Return (Some at_2025_10_01_14).
Proof.
  unfold parse_natural_time.
  replace (absolute _ _) with (Some at_2025_10_01_14) by (vm_compute; reflexivity).
  reflexivity.
Qed.

Lemma body_in_30_minutes h T :
  parse_natural_time (globals_with h) "in 30 minutes" T
  = (r <- Datetime.add T thirty_minutes ;; Py.Return (Some r))%py.
Proof.
  unfold parse_natural_time.
  replace (absolute _ _) with (@None datetime) by (vm_compute; reflexivity).
  destruct (Re.search (IN_X (globals_with h)) (Py.strip "in 30 minutes")) as [m|] eqn:E;
    [|vm_compute in E; discriminate].
  vm_compute in E. injection E as <-.
  unfold relative.
  replace (group_int _ "num") with (Py.Return 30) by (vm_compute; reflexivity).
  replace (group_str _ "unit") with (Py.Return "minutes") by (vm_compute; reflexivity).
  cbn [Py.bind].
  replace (Py.startswith _ _) with true by (vm_compute; reflexivity).
  reflexivity.
Qed.

(** The fall-through of lines 149-175, whatever the four patterns are: with
    no absolute timestamp, no offset, no "tomorrow", no am/pm hour and no
    hour-and-minute mention, the body returns none, in the today/at branch
    as elsewhere. *)
Lemma body_falls_through g text now :
  valid now = true ->
  absolute g (Py.strip text) = None ->
  Re.search (IN_X g) (Py.strip text) = None ->
  Py.contains "tomorrow" (Py.lower (Py.strip text)) = false ->
  Re.search (AMPM g) (Py.lower (Py.strip text)) = None ->
  Re.search (HHMM g) (Py.lower (Py.strip text)) = None ->
  parse_natural_time g text now = Py.Return None.
Proof.
  intros Hv Ha Hi Ht Hap Hhm. unfold parse_natural_time.
  rewrite Ha, Hi, Ht. unfold today_or_at, bare_time. rewrite Hap, Hhm.
  destruct (_ || _); [|reflexivity].
  unfold replace_s00, make.
  replace (valid _) with true; [reflexivity|].
  symmetry. unfold valid in *. cbn [year month day hour minute second microsecond] in *.
  repeat (apply andb_prop in Hv as [Hv ?]).
  repeat (apply andb_true_intro; split); assumption || reflexivity.
Qed.


(** *** The calls *)

(** No call gets past the import. *)
Lemma call_always_raises text now :
  call_parse_natural_time text now = Py.Raise bad_group_name.
Proof. unfold call_parse_natural_time. now rewrite import_module_raises. Qed.

(** C7 (the code at the failing inputs): importing the module raises
    [re.error] at the second pattern, so none of the three calls of the
    specification returns a timestamp; with any compiled pattern in the
    place of the second one, the body returns the three timestamps of the
    specification. *)
Theorem parse_examples_raise :
  (call_parse_natural_time "tomorrow at 8AM" at_2025_01_01 = Py.Raise bad_group_name
   /\ (forall T, call_parse_natural_time "in 30 minutes" T = Py.Raise bad_group_name)
   /\ (forall T, call_parse_natural_time "2025-10-01 14:00" T = Py.Raise bad_group_name))
  /\ (forall h,
         parse_natural_time (globals_with h) "tomorrow at 8AM" at_2025_01_01
         = Py.Return (Some at_2025_01_02_08)
         /\ (forall T,
                parse_natural_time (globals_with h) "in 30 minutes" T
                = (r <- Datetime.add T thirty_minutes ;; Py.Return (Some r))%py)
         /\ (forall T,
                parse_natural_time (globals_with h) "2025-10-01 14:00" T
                = Py.Return (Some at_2025_10_01_14))).
Proof.
  split.
  - repeat split; intros; apply call_always_raises.
  - intros h. split; [apply body_tomorrow_8am|].
    split; intros T; [apply body_in_30_minutes|apply body_absolute].
Qed.

(** C10 (the code at a failing input): the call on the text [today], which
    holds the word and no time, does not return none, because the import
    raises; the body itself, whatever the four compiled patterns, returns
    none when no rule finds a time. *)
Theorem parse_today_raises :
  (Py.contains "today" (Py.lower (Py.strip "today")) = true
   /\ forall now, call_parse_natural_time "today" now = Py.Raise bad_group_name)
  /\ (forall g text now,
         valid now = true ->
         absolute g (Py.strip text) = None ->
         Re.search (IN_X g) (Py.strip text) = None ->
         Py.contains "tomorrow" (Py.lower (Py.strip text)) = false ->
         Re.search (AMPM g) (Py.lower (Py.strip text)) = None ->
         Re.search (HHMM g) (Py.lower (Py.strip text)) = None ->
         parse_natural_time g text now = Py.Return None).
Proof.
  split; [split; [reflexivity|intros; apply call_always_raises]|].
  exact body_falls_through.
Qed.

Lemma parse_today_raises_witness :
  parse_natural_time (globals_with Ex.hour_minute) "today" at_2025_01_01
  = Py.Return None.
Proof.
  apply (proj2 parse_today_raises); vm_compute; reflexivity.
Defined.

End SchedulingProps.

(** ** The vector database over a history of calls *)

Module StoreProps.
Import VectorDB Claims History VectorDBProps.

(** *** The [dict] operations *)

Lemma dict_get_set_other {V} k k' (v : V) (d : Py.dict V) :
  k' <> k -> Py.dict_get k' (Py.dict_set k v d) = Py.dict_get k' d.
Proof.
  intros Hne. induction d as [|[k0 v0] d IH]; cbn.
  - destruct (String.eqb_spec k k'); [congruence|reflexivity].
  - destruct (String.eqb_spec k0 k) as [->|Hk]; cbn.
    + destruct (String.eqb_spec k k'); [congruence|reflexivity].
    + destruct (String.eqb k0 k'); [reflexivity|exact IH].
Qed.

Lemma dict_keys_set {V} k (v : V) (d : Py.dict V) :
  Py.dict_keys (Py.dict_set k v d)
  = if Py.dict_mem k d then Py.dict_keys d else (Py.dict_keys d ++ [k])%list.
Proof.
  unfold Py.dict_mem, Py.dict_keys.
  induction d as [|[k0 v0] d IH]; cbn; [reflexivity|].
  destruct (String.eqb_spec k0 k) as [->|Hk]; cbn; [reflexivity|].
  rewrite IH. now destruct (Py.dict_get k d).
Qed.

Lemma dict_mem_keys {V} k (d : Py.dict V) :
  Py.dict_mem k d = true <-> In k (Py.dict_keys d).
Proof.
  unfold Py.dict_mem. split.
  - intros H. destruct (in_dec string_dec k (Py.dict_keys d)) as [Hin|Hnin]; [exact Hin|].
    rewrite (dict_get_none_keys _ _ Hnin) in H. discriminate.
  - intros Hin. destruct (dict_get_some_keys _ _ Hin) as (v & ->). reflexivity.
Qed.

Lemma dict_set_in {V} k (v : V) (d : Py.dict V) p :
  In p (Py.dict_set k v d) -> In p d \/ p = (k, v).
Proof.
  induction d as [|[k0 v0] d IH]; cbn.
  - intros [<-|[]]. now right.
  - destruct (String.eqb_spec k0 k) as [->|Hk]; cbn.
    + intros [<-|H]; [now right|now left; right].
    + intros [<-|H]; [now left; left|]. destruct (IH H); [now left; right|now right].
Qed.

Lemma dict_del_in {V} k (d : Py.dict V) p : In p (Py.dict_del k d) -> In p d.
Proof.
  induction d as [|[k0 v0] d IH]; cbn; [tauto|].
  destruct (String.eqb k0 k); cbn; [now right|].
  intros [<-|H]; [now left|right; auto].
Qed.

Lemma dict_del_nodup {V} k (d : Py.dict V) :
  List.NoDup (Py.dict_keys d) -> List.NoDup (Py.dict_keys (Py.dict_del k d)).
Proof.
  unfold Py.dict_keys.
  induction d as [|[k0 v0] d IH]; cbn; [auto|].
  intros H. inversion H as [|? ? Hnin Hnd]; subst.
  destruct (String.eqb k0 k); cbn; [exact Hnd|].
  constructor; [|auto].
  intros Hin. apply Hnin. apply in_map_iff in Hin. destruct Hin as (p & <- & Hp).
  apply in_map. eapply dict_del_in; eauto.
Qed.

Lemma dict_get_del_other {V} k k' (d : Py.dict V) :
  k' <> k -> Py.dict_get k' (Py.dict_del k d) = Py.dict_get k' d.
Proof.
  intros Hne. induction d as [|[k0 v0] d IH]; cbn; [reflexivity|].
  destruct (String.eqb_spec k0 k) as [->|Hk]; cbn.
  - destruct (String.eqb_spec k k'); [congruence|reflexivity].
  - destruct (String.eqb k0 k'); [reflexivity|exact IH].
Qed.

Lemma dict_get_del_same {V} k (d : Py.dict V) :
  List.NoDup (Py.dict_keys d) -> Py.dict_get k (Py.dict_del k d) = None.
Proof.
  unfold Py.dict_keys.
  induction d as [|[k0 v0] d IH]; cbn; [reflexivity|].
  intros H. inversion H as [|? ? Hnin Hnd]; subst.
  destruct (String.eqb_spec k0 k) as [->|Hk]; cbn.
  - now apply dict_get_none_keys.
  - destruct (String.eqb_spec k0 k); [congruence|auto].
Qed.

Lemma dict_del_length {V} k (d : Py.dict V) :
  Py.dict_mem k d = true -> S (length (Py.dict_del k d)) = length d.
Proof.
  unfold Py.dict_mem.
  induction d as [|[k0 v0] d IH]; cbn; [discriminate|].
  destruct (String.eqb k0 k); cbn; [reflexivity|].
  intros H. now rewrite IH.
Qed.

Lemma dict_set_length_bounds {V} k (v : V) (d : Py.dict V) :
  (length d <= length (Py.dict_set k v d) <= length d + 1)%nat.
Proof.
  destruct (Py.dict_mem k d) eqn:E.
  - rewrite (dict_set_length _ _ _ E). lia.
  - unfold Py.dict_mem in E.
    destruct (Py.dict_get k d) eqn:G; [discriminate|].
    rewrite (dict_set_fresh _ _ _ G), length_app. cbn. lia.
Qed.

(** *** The invariant *)

Lemma step_dim db o : dim (step db o) = dim db.
Proof.
  destruct o as [v m txt|rid]; cbn.
  - unfold add. now destruct (negb (len v =? dim db)).
  - unfold delete. now destruct (Py.dict_mem rid (records db)).
Qed.

Lemma add_well_formed db v m txt :
  well_formed db -> well_formed (snd (add db v m txt)).
Proof.
  intros [Hnd Hf]. unfold add.
  destruct (Z.eqb_spec (len v) (dim db)) as [Hlen|Hlen]; cbn [negb snd];
    [|now split].
  set (rid := ("vec_" ++ Py.str_of_nat (length (records db) + 1))%string).
  split; cbn [records].
  - rewrite dict_keys_set.
    destruct (Py.dict_mem rid (records db)) eqn:E; [exact Hnd|].
    apply List.NoDup_app; [exact Hnd|repeat constructor; intros []|].
    intros k Hk [<-|[]]. apply dict_mem_keys in Hk. congruence.
  - apply List.Forall_forall. intros p Hp.
    destruct (dict_set_in _ _ _ _ Hp) as [Hold| ->].
    + rewrite List.Forall_forall in Hf. exact (Hf p Hold).
    + split; [reflexivity|exact Hlen].
Qed.

Lemma delete_well_formed db rid :
  well_formed db -> well_formed (snd (delete db rid)).
Proof.
  intros [Hnd Hf]. unfold delete.
  destruct (Py.dict_mem rid (records db)); cbn [snd]; [|now split].
  split; cbn [records].
  - now apply dict_del_nodup.
  - apply List.Forall_forall. intros p Hp. rewrite List.Forall_forall in Hf.
    apply (Hf p). eapply dict_del_in; eauto.
Qed.

Lemma step_well_formed db o : well_formed db -> well_formed (step db o).
Proof.
  destruct o; cbn; [apply add_well_formed|apply delete_well_formed].
Qed.

Lemma run_well_formed db ops : well_formed db -> well_formed (run db ops).
Proof.
  unfold run. revert db. induction ops as [|o ops IH]; cbn; intros db H; [exact H|].
  apply IH. now apply step_well_formed.
Qed.

(** X1: Whatever stores and deletes a database has seen since it was made, no
    id occurs twice in it, every record is filed under the id it carries,
    and every stored vector has the dimension the database was made with. *)
Theorem history_keeps_records_filed (d : Z) (ops : list op) :
  well_formed (run (init d) ops) /\ dim (run (init d) ops) = d.
Proof.
  split.
  - apply run_well_formed. split; constructor.
  - unfold run. change d with (dim (init d)) at 2.
    generalize (init d) as db. induction ops as [|o ops IH]; cbn; intros db;
      [reflexivity|].
    rewrite IH. apply step_dim.
Qed.

(** *** Store and look up *)

Lemma add_get db v m txt :
  len v = dim db ->
  exists rid,
    add db v m txt
    = (Py.Return rid,
       {| dim := dim db;
          records := Py.dict_set rid {| id := rid; vector := v; meta := m; text := txt |}
                       (records db) |})
    /\ rid = ("vec_" ++ Py.str_of_nat (length (records db) + 1))%string.
Proof.
  intros Hlen. unfold add. rewrite Hlen, Z.eqb_refl. cbn [negb].
  eexists. split; reflexivity.
Qed.

(** X2: A store of a vector of the right length returns an id under which the
    database then holds exactly what was stored, it leaves what is filed
    under every other id alone, and it changes neither the dimension nor,
    beyond the one record, the number of records. *)
Theorem add_then_get (db : t) (v : ndarray) (m : metadata) (txt : option string) :
  len v = dim db ->
  exists rid,
    fst (add db v m txt) = Py.Return rid
    /\ get (snd (add db v m txt)) rid
       = Some {| id := rid; vector := v; meta := m; text := txt |}
    /\ (forall k, k <> rid -> get (snd (add db v m txt)) k = get db k)
    /\ (length (records db) <= length (records (snd (add db v m txt)))
        <= length (records db) + 1)%nat.
Proof.
  intros Hlen. destruct (add_get db v m txt Hlen) as (rid & -> & _).
  exists rid. cbn [fst snd]. unfold get. cbn [records].
  split; [reflexivity|]. split; [apply dict_get_set|].
  split; [intros k Hk; now apply dict_get_set_other|].
  apply dict_set_length_bounds.
Qed.

Lemma add_then_get_witness :
  exists rid,
    fst (add Ex.db_two Ex.v11 [] (Some "c")) = Py.Return rid
    /\ get (snd (add Ex.db_two Ex.v11 [] (Some "c"))) rid
       = Some {| id := rid; vector := Ex.v11; meta := []; text := Some "c" |}.
Proof.
  destruct (add_then_get Ex.db_two Ex.v11 [] (Some "c") eq_refl)
    as (rid & H1 & H2 & _).
  exists rid. split; [exact H1|exact H2].
Defined.

(** *** Delete *)

(** X3: In a database where no id occurs twice, [delete] answers [True] exactly
    when the id is stored; afterwards the id is not stored, every other id
    holds what it held, and deleting the same id again answers [False] and
    changes nothing. *)
Theorem delete_removes_exactly_one (db : t) (rid : string) :
  well_formed db ->
  (fst (delete db rid) = true <-> exists r, get db rid = Some r)
  /\ get (snd (delete db rid)) rid = None
  /\ (forall k, k <> rid -> get (snd (delete db rid)) k = get db k)
  /\ delete (snd (delete db rid)) rid = (false, snd (delete db rid)).
Proof.
  intros [Hnd _]. unfold delete, get, Py.dict_mem.
  destruct (Py.dict_get rid (records db)) as [r|] eqn:G; cbn [fst snd records].
  - assert (Hgone : Py.dict_get rid (Py.dict_del rid (records db)) = None)
      by now apply dict_get_del_same.
    split; [split; eauto|]. split; [exact Hgone|].
    split; [intros k Hk; now apply dict_get_del_other|].
    now rewrite Hgone.
  - split; [split; [discriminate|intros (r & Hr); discriminate]|].
    split; [exact G|]. split; [reflexivity|]. now rewrite G.
Qed.

Lemma delete_removes_exactly_one_witness :
  fst (delete Ex.db_two "vec_1") = true
  /\ get (snd (delete Ex.db_two "vec_1")) "vec_1" = None
  /\ delete (snd (delete Ex.db_two "vec_1")) "vec_1"
     = (false, snd (delete Ex.db_two "vec_1")).
Proof.
  assert (Hwf : well_formed Ex.db_two).
  { split; [repeat constructor; cbn; intuition discriminate|].
    repeat constructor. }
  destruct (delete_removes_exactly_one Ex.db_two "vec_1" Hwf)
    as (H1 & H2 & _ & H4).
  split; [apply H1; eexists; reflexivity|]. split; [exact H2|exact H4].
Defined.

(** *** A run of stores *)

Lemma add_all_dense db l :
  dense db ->
  Forall (fun e : entry => len (fst (fst e)) = dim db) l ->
  fst (add_all db l)
  = map (fun i => Py.Return (vec_id i)) (seq (S (length (records db))) (length l))
  /\ map entry_of (Py.dict_values (records (snd (add_all db l))))
     = (map entry_of (Py.dict_values (records db)) ++ l)%list
  /\ dense (snd (add_all db l))
  /\ dim (snd (add_all db l)) = dim db.
Proof.
  intros Hd Hl. revert db Hd Hl.
  induction l as [|[[v m] txt] l IH]; intros db Hd Hl; cbn [add_all].
  - cbn. rewrite app_nil_r. auto.
  - inversion Hl as [|? ? Hv Hl']; subst. cbn [fst] in Hv.
    destruct (add_fresh_when_dense db v m txt Hd Hv) as (rid & db' & Ha & _ & Hr & Hd').
    assert (Hrid : rid = vec_id (S (length (records db)))).
    { unfold add in Ha. rewrite Hv, Z.eqb_refl in Ha. cbn [negb] in Ha.
      injection Ha as <- _. unfold vec_id. do 2 f_equal. lia. }
    assert (Hdim : dim db' = dim db).
    { unfold add in Ha. rewrite Hv, Z.eqb_refl in Ha. cbn [negb] in Ha.
      injection Ha as _ <-. reflexivity. }
    rewrite Ha.
    assert (Hl2 : Forall (fun e : entry => len (fst (fst e)) = dim db') l)
      by now rewrite Hdim.
    destruct (IH db' Hd' Hl2) as (I1 & I2 & I3 & I4).
    destruct (add_all db' l) as [rs db2]. cbn [fst snd] in *.
    split; [|split; [|split]].
    + cbn [length seq map]. rewrite I1, Hrid. do 2 f_equal.
      rewrite Hr, length_app. cbn. f_equal. lia.
    + rewrite I2, Hr. unfold Py.dict_values. rewrite !map_app. cbn.
      now rewrite <- app_assoc.
    + exact I3.
    + congruence.
Qed.

(** X4: Stores alone, from a new database: the [n]-th store returns the id
    [vec_n], no store replaces a record, and the database ends up holding
    what was stored, in the order of the stores. *)
Theorem stores_number_their_records (d : Z) (l : list entry) :
  Forall (fun e : entry => len (fst (fst e)) = d) l ->
  fst (add_all (init d) l)
  = map (fun i => Py.Return (vec_id i)) (seq 1 (length l))
  /\ Py.dict_keys (records (snd (add_all (init d) l))) = map vec_id (seq 1 (length l))
  /\ map entry_of (Py.dict_values (records (snd (add_all (init d) l)))) = l.
Proof.
  intros Hl.
  destruct (add_all_dense (init d) l eq_refl Hl) as (H1 & H2 & H3 & _).
  split; [exact H1|]. split; [|exact H2].
  unfold dense in H3. rewrite H3. f_equal. f_equal.
  apply (f_equal (@length _)) in H2. rewrite !length_map in H2.
  unfold Py.dict_values in H2. rewrite length_map in H2. exact H2.
Qed.

Lemma stores_number_their_records_witness :
  fst (add_all (init 2) [(Ex.v10, [], Some "a"); (Ex.v01, [], Some "b")])
  = [Py.Return "vec_1"; Py.Return "vec_2"].
Proof.
  destruct (stores_number_their_records 2
              [(Ex.v10, [], Some "a"); (Ex.v01, [], Some "b")]) as (H & _).
  - repeat constructor.
  - exact H.
Defined.

End StoreProps.

(** ** What [search] returns *)

Module SearchMore.
Import VectorDB Claims History VectorDBProps.

Lemma sort_reverse_length {A} (key : A -> float) l :
  length (sort_reverse key l) = length l.
Proof. apply Permutation_length, SortFacts.sort_reverse_perm. Qed.

Lemma slice_to_length {A} k (l : list A) :
  length (slice_to k l) = slice_length k (length l).
Proof.
  unfold slice_to, slice_length, len.
  destruct (k <? 0) eqn:E; rewrite length_firstn; [|reflexivity].
  apply Z.ltb_lt in E. lia.
Qed.

Lemma slice_to_incl {A} k (l : list A) : incl (slice_to k l) l.
Proof.
  unfold slice_to. intros x Hx.
  destruct (k <? 0);
    match type of Hx with In _ (firstn ?n _) =>
      rewrite <- (firstn_skipn n l); apply in_or_app; now left
    end.
Qed.

Lemma slice_to_all {A} k (l : list A) : Z.of_nat (length l) <= k -> slice_to k l = l.
Proof.
  intros H. unfold slice_to.
  destruct (k <? 0) eqn:E; [apply Z.ltb_lt in E; lia|].
  apply firstn_all2. lia.
Qed.

Lemma similarities_length db q : length (similarities db q) = length (records db).
Proof. unfold similarities, Py.dict_values. now rewrite !length_map. Qed.

Lemma search_returns db q top_k :
  len q = dim db ->
  search db q top_k
  = Py.Return (map to_hit (slice_to top_k (sort_reverse snd (similarities db q)))).
Proof. intros H. unfold search. now rewrite H, Z.eqb_refl. Qed.

(** X5: A query of the right length gets the slice [[:top_k]] of the stored
    records: as many hits as that slice of a list of their number has, a
    negative [top_k] counting from the end, and every hit the hit of a stored
    record.  A query of any other length raises [ValueError]. *)
Theorem search_returns_a_slice (db : t) (q : ndarray) (top_k : Z) :
  (len q = dim db ->
   exists hits,
     search db q top_k = Py.Return hits
     /\ length hits = slice_length top_k (length (records db))
     /\ incl hits (stored_order db q))
  /\ (len q <> dim db -> search db q top_k = Py.Raise (query_dim_error (dim db))).
Proof.
  split.
  - intros H. rewrite (search_returns _ _ _ H). eexists. split; [reflexivity|].
    split.
    + now rewrite length_map, slice_to_length, sort_reverse_length, similarities_length.
    + unfold stored_order. intros h Hh. apply in_map_iff in Hh.
      destruct Hh as (p & <- & Hp). apply in_map.
      apply slice_to_incl in Hp.
      eapply Permutation_in; [apply SortFacts.sort_reverse_perm|exact Hp].
  - intros H. unfold search. apply Z.eqb_neq in H. now rewrite H.
Qed.

Lemma search_returns_a_slice_witness :
  exists hits,
    search Ex.db_two Ex.v10 (-1) = Py.Return hits /\ length hits = 1%nat.
Proof.
  destruct (search_returns_a_slice Ex.db_two Ex.v10 (-1)) as (H & _).
  destruct (H eq_refl) as (hits & H1 & H2 & _).
  exists hits. split; [exact H1|exact H2].
Defined.

(** X6: With [top_k] at least the number of stored records, a query of the right
    length gets every stored record exactly once. *)
Theorem search_wide_returns_all (db : t) (q : ndarray) (top_k : Z) :
  len q = dim db ->
  Z.of_nat (length (records db)) <= top_k ->
  exists hits,
    search db q top_k = Py.Return hits /\ Permutation hits (stored_order db q).
Proof.
  intros H Hk. rewrite (search_returns _ _ _ H). eexists. split; [reflexivity|].
  rewrite slice_to_all
    by now rewrite sort_reverse_length, similarities_length.
  unfold stored_order. apply Permutation_map, SortFacts.sort_reverse_perm.
Qed.

Lemma search_wide_returns_all_witness :
  exists hits,
    search Ex.db_two Ex.v10 5 = Py.Return hits
    /\ Permutation hits (stored_order Ex.db_two Ex.v10).
Proof.
  exact (search_wide_returns_all Ex.db_two Ex.v10 5 eq_refl ltac:(vm_compute; discriminate)).
Defined.

Lemma dict_set_has {V} k (v : V) (d : Py.dict V) : In (k, v) (Py.dict_set k v d).
Proof.
  induction d as [|[k0 v0] d IH]; cbn; [now left|].
  destruct (String.eqb_spec k0 k) as [->|Hk]; cbn; [now left|now right].
Qed.

Lemma stored_is_found db r q top_k :
  len q = dim db ->
  Z.of_nat (length (records db)) <= top_k ->
  In r (Py.dict_values (records db)) ->
  exists hits, search db q top_k = Py.Return hits /\ In (hit_of q r) hits.
Proof.
  intros H Hk Hr. rewrite (search_returns _ _ _ H). eexists. split; [reflexivity|].
  rewrite slice_to_all
    by now rewrite sort_reverse_length, similarities_length.
  unfold hit_of. apply in_map.
  eapply Permutation_in; [apply Permutation_sym, SortFacts.sort_reverse_perm|].
  unfold similarities. apply in_map_iff. exists r. split; [reflexivity|exact Hr].
Qed.

Lemma add_has_record db v m txt :
  len v = dim db ->
  exists rid,
    fst (add db v m txt) = Py.Return rid
    /\ In {| id := rid; vector := v; meta := m; text := txt |}
          (Py.dict_values (records (snd (add db v m txt))))
    /\ dim (snd (add db v m txt)) = dim db.
Proof.
  intros Hv. destruct (StoreProps.add_get db v m txt Hv) as (rid & -> & _).
  exists rid. cbn [fst snd records dim]. split; [reflexivity|]. split; [|reflexivity].
  unfold Py.dict_values. apply in_map_iff.
  eexists (rid, _). split; [reflexivity|apply dict_set_has].
Qed.

(** X7: Store, then search: a record stored is among the hits of every later
    query of the right length whose [top_k] covers the records then held:
    one of the hits has the id the store returned, the metadata and the text
    stored.  Nothing is said of the similarity it comes with. *)
Theorem stored_record_is_found (db : t) (v : ndarray) (m : metadata)
        (txt : option string) (q : ndarray) (top_k : Z) :
  len v = dim db ->
  len q = dim db ->
  Z.of_nat (length (records (snd (add db v m txt)))) <= top_k ->
  exists rid hits h,
    fst (add db v m txt) = Py.Return rid
    /\ search (snd (add db v m txt)) q top_k = Py.Return hits
    /\ In h hits
    /\ hit_id h = rid
    /\ hit_metadata h = m
    /\ hit_text h = txt.
Proof.
  intros Hv Hq Hk.
  destruct (add_has_record db v m txt Hv) as (rid & Ha & Hin & Hd).
  destruct (stored_is_found (snd (add db v m txt))
              {| id := rid; vector := v; meta := m; text := txt |} q top_k)
    as (hits & Hs & Hh); [congruence|exact Hk|exact Hin|].
  exists rid, hits. eexists. split; [exact Ha|]. split; [exact Hs|].
  split; [exact Hh|]. repeat split.
Qed.

Lemma stored_record_is_found_witness :
  exists rid hits h,
    fst (add Ex.db_two Ex.v11 [] (Some "c")) = Py.Return rid
    /\ search (snd (add Ex.db_two Ex.v11 [] (Some "c"))) Ex.v10 3 = Py.Return hits
    /\ In h hits
    /\ hit_id h = rid
    /\ hit_metadata h = []
    /\ hit_text h = Some "c".
Proof.
  exact (stored_record_is_found Ex.db_two Ex.v11 [] (Some "c") Ex.v10 3
           eq_refl eq_refl ltac:(vm_compute; discriminate)).
Defined.

End SearchMore.

(** ** The memory: storing and retrieving text *)

Module MemoryProps.
Import VectorDB Claims History VectorDBProps.

Lemma store_memory_failure m query embedding md e m' :
  Memory.store_memory m query embedding md = (Py.Raise e, m') -> m' = m.
Proof.
  unfold Memory.store_memory.
  destruct (negb (len embedding =? Memory.dim m)); [now intros [= _ <-]|].
  unfold add.
  destruct (negb (len embedding =? dim (Memory.store m))); [|discriminate].
  intros [= _ <-]. now destruct m.
Qed.

(** X8: A call of [store_text] that raises leaves the memory as it was,
    whatever made it raise: no embedder, an embedder that raises or answers
    with no vector, or a vector of the wrong length. *)
Theorem failed_store_changes_nothing (m : Memory.t) (txt : string)
        (md : option metadata) (e : Py.exc) (m' : Memory.t) :
  Memory.store_text m txt md = (Py.Raise e, m') -> m' = m.
Proof.
  unfold Memory.store_text.
  destruct (Memory.embeddings m) as [embed|]; [|now intros [= _ <-]].
  destruct (Py.bind _ _); [|now intros [= _ <-]].
  apply store_memory_failure.
Qed.

Lemma failed_store_changes_nothing_witness :
  snd (Memory.store_text (Memory.init (Some Ex.failing_embedder) 2) "hello" None)
  = Memory.init (Some Ex.failing_embedder) 2.
Proof.
  exact (failed_store_changes_nothing
           (Memory.init (Some Ex.failing_embedder) 2) "hello" None _ _ eq_refl).
Defined.

Lemma store_text_files m embed txt md v rest :
  Memory.embeddings m = Some embed ->
  embed [txt] = Py.Return (v :: rest) ->
  len v = Memory.dim m ->
  dim (Memory.store m) = Memory.dim m ->
  exists rid,
    Memory.store_text m txt md
    = (Py.Return rid,
       {| Memory.store := snd (add (Memory.store m) v
                                   (match md with Some d => d | None => [] end)
                                   (Some txt));
          Memory.embeddings := Memory.embeddings m;
          Memory.dim := Memory.dim m |})
    /\ fst (add (Memory.store m) v (match md with Some d => d | None => [] end) (Some txt))
       = Py.Return rid.
Proof.
  intros He Hv Hl Hd. unfold Memory.store_text. rewrite He, Hv. cbn [Py.bind Memory.first].
  unfold Memory.store_memory. rewrite Hl, Z.eqb_refl. cbn [negb].
  destruct (StoreProps.add_get (Memory.store m) v
              (match md with Some d => d | None => [] end) (Some txt)) as (rid & Ha & _);
    [congruence|].
  rewrite Ha. cbn [fst snd]. rewrite ?He. exists rid. split; reflexivity.
Qed.

(** X9: When the embedder answers [txt] with a vector of the configured
    dimension, [store_text] returns an id under which the database then holds
    the first vector of the answer, the metadata given, or none, and the text
    itself; the embedder and the dimension stay. *)
Theorem store_text_files_the_text (m : Memory.t) (embed : Memory.EmbeddingsProvider)
        (txt : string) (md : option metadata) (v : ndarray) (rest : list ndarray) :
  Memory.embeddings m = Some embed ->
  embed [txt] = Py.Return (v :: rest) ->
  len v = Memory.dim m ->
  dim (Memory.store m) = Memory.dim m ->
  exists rid,
    fst (Memory.store_text m txt md) = Py.Return rid
    /\ get (Memory.store (snd (Memory.store_text m txt md))) rid
       = Some {| id := rid; vector := v;
                 meta := match md with Some d => d | None => [] end;
                 text := Some txt |}
    /\ Memory.embeddings (snd (Memory.store_text m txt md)) = Some embed
    /\ Memory.dim (snd (Memory.store_text m txt md)) = Memory.dim m.
Proof.
  intros He Hv Hl Hd.
  destruct (store_text_files m embed txt md v rest He Hv Hl Hd) as (rid & -> & Ha).
  exists rid. cbn [fst snd Memory.store Memory.embeddings Memory.dim].
  split; [reflexivity|]. split; [|split; [exact He|reflexivity]].
  destruct (StoreProps.add_get (Memory.store m) v
              (match md with Some d => d | None => [] end) (Some txt)) as (rid' & Ha' & _);
    [congruence|].
  rewrite Ha' in Ha |- *. cbn [fst snd] in *. injection Ha as ->.
  unfold get. cbn [records]. apply dict_get_set.
Qed.

Lemma store_text_files_the_text_witness :
  exists rid,
    fst (Memory.store_text Ex2.working_memory "hello" None) = Py.Return rid
    /\ get (Memory.store (snd (Memory.store_text Ex2.working_memory "hello" None))) rid
       = Some {| id := rid; vector := Ex.v10; meta := []; text := Some "hello" |}.
Proof.
  destruct (store_text_files_the_text Ex2.working_memory Ex2.constant_embedder
              "hello" None Ex.v10 [] eq_refl eq_refl eq_refl eq_refl)
    as (rid & H1 & H2 & _).
  exists rid. split; [exact H1|exact H2].
Defined.

(** X10: Store a text, then retrieve: when the embedder answers both the text and
    the query with vectors of the configured dimension and [top_k] covers the
    records then held, the hits of the query include the text stored, under
    the id [store_text] returned. *)
Theorem stored_text_is_retrieved (m : Memory.t) (embed : Memory.EmbeddingsProvider)
        (txt query : string) (md : option metadata) (v qv : ndarray)
        (rest qrest : list ndarray) (top_k : Z) :
  Memory.embeddings m = Some embed ->
  embed [txt] = Py.Return (v :: rest) ->
  embed [query] = Py.Return (qv :: qrest) ->
  len v = Memory.dim m ->
  len qv = Memory.dim m ->
  dim (Memory.store m) = Memory.dim m ->
  Z.of_nat (length (records (Memory.store (snd (Memory.store_text m txt md))))) <= top_k ->
  exists rid hits h,
    fst (Memory.store_text m txt md) = Py.Return rid
    /\ Memory.retrieve_memory (snd (Memory.store_text m txt md)) query top_k
       = Py.Return hits
    /\ In h hits
    /\ hit_id h = rid
    /\ hit_text h = Some txt.
Proof.
  intros He Hv Hq Hl Hql Hd.
  destruct (store_text_files m embed txt md v rest He Hv Hl Hd) as (rid & -> & Ha).
  cbn [fst snd Memory.store]. intros Hk.
  unfold Memory.retrieve_memory. cbn [Memory.embeddings Memory.store].
  rewrite He, Hq. cbn [Py.bind Memory.first].
  destruct (SearchMore.add_has_record (Memory.store m) v
              (match md with Some d => d | None => [] end) (Some txt))
    as (rid' & Ha' & Hin & Hd'); [congruence|].
  rewrite Ha in Ha'. injection Ha' as <-.
  assert (Hqd : len qv = dim (snd (add (Memory.store m) v
                                      (match md with Some d => d | None => [] end)
                                      (Some txt)))) by congruence.
  destruct (SearchMore.stored_is_found _ _ qv top_k Hqd Hk Hin) as (hits & Hs & Hh).
  eexists rid, hits, _. split; [reflexivity|]. split; [exact Hs|].
  split; [exact Hh|]. split; reflexivity.
Qed.

Lemma stored_text_is_retrieved_witness :
  exists rid hits h,
    fst (Memory.store_text Ex2.working_memory "hello" None) = Py.Return rid
    /\ Memory.retrieve_memory (snd (Memory.store_text Ex2.working_memory "hello" None))
         "hi" 3 = Py.Return hits
    /\ In h hits
    /\ hit_id h = rid
    /\ hit_text h = Some "hello".
Proof.
  exact (stored_text_is_retrieved Ex2.working_memory Ex2.constant_embedder
           "hello" "hi" None Ex.v10 Ex.v10 [] [] 3
           eq_refl eq_refl eq_refl eq_refl eq_refl eq_refl
           ltac:(vm_compute; discriminate)).
Defined.

(** *** The invariant of a memory *)

Lemma store_memory_consistent m query embedding md :
  consistent m -> consistent (snd (Memory.store_memory m query embedding md)).
Proof.
  intros [Hd Hdim]. unfold Memory.store_memory.
  destruct (Z.eqb_spec (len embedding) (Memory.dim m)) as [Hl|Hl]; cbn [negb snd];
    [|now split].
  destruct (add_fresh_when_dense (Memory.store m) embedding
              (match md with Some d => d | None => [] end) (Some query) Hd)
    as (rid & db' & Ha & _ & _ & Hd'); [congruence|].
  rewrite Ha. cbn [snd]. split; cbn [Memory.store Memory.dim]; [exact Hd'|].
  unfold add in Ha. destruct (negb _); injection Ha as _ <-; exact Hdim.
Qed.

Lemma store_text_consistent m txt md :
  consistent m -> consistent (snd (Memory.store_text m txt md)).
Proof.
  intros H. unfold Memory.store_text.
  destruct (Memory.embeddings m) as [embed|]; [|exact H].
  destruct (Py.bind _ _); [|exact H].
  now apply store_memory_consistent.
Qed.

Lemma memory_step_consistent m o : consistent m -> consistent (memory_step m o).
Proof.
  destruct o; cbn [memory_step];
    [apply store_memory_consistent|apply store_text_consistent|].
  intros H. exact H.
Qed.

Lemma memory_step_dim m o : Memory.dim (memory_step m o) = Memory.dim m.
Proof.
  destruct o as [query embedding md|txt md|p]; cbn [memory_step]; [| |reflexivity].
  - unfold Memory.store_memory. destruct (negb _); [reflexivity|].
    now destruct (add _ _ _ _).
  - unfold Memory.store_text. destruct (Memory.embeddings m); [|reflexivity].
    destruct (Py.bind _ _); [|reflexivity].
    unfold Memory.store_memory. destruct (negb _); [reflexivity|].
    now destruct (add _ _ _ _).
Qed.

(** X11: The memory has no call that deletes.  Whatever stores a memory made
    with the default database has seen, with whatever embedders, its database
    has only seen stores, so that its ids are [vec_1] to [vec_n] and no store
    ever replaces a record; and the dimensions of the memory and of the
    database are the one the memory was made with. *)
Theorem memory_never_reuses_an_id (e : option Memory.EmbeddingsProvider) (d : Z)
        (ops : list memory_op) :
  consistent (memory_run (Memory.init e d) ops)
  /\ Memory.dim (memory_run (Memory.init e d) ops) = d.
Proof.
  unfold memory_run.
  assert (H0 : consistent (Memory.init e d)) by (split; reflexivity).
  change d with (Memory.dim (Memory.init e d)) at 3.
  revert H0. generalize (Memory.init e d) as m.
  induction ops as [|o ops IH]; cbn [fold_left]; intros m H0; [now split|].
  destruct (IH (memory_step m o) (memory_step_consistent _ _ H0)) as (I1 & I2).
  split; [exact I1|]. rewrite I2. apply memory_step_dim.
Qed.

End MemoryProps.

(** ** A turn of the kernel *)

Module TurnProps.
Import VectorDB Claims History VectorDBProps Kernel Turn.

Lemma mem_snippets_items results : mem_snippets results = map item (remembered results).
Proof.
  unfold mem_snippets, remembered.
  induction results as [|h results IH]; cbn [flat_map]; [reflexivity|].
  rewrite map_app, IH. f_equal.
  destruct (hit_text h) as [s|]; [|reflexivity].
  now destruct (Py.nonempty s).
Qed.

Lemma remembered_in results h s :
  In h results -> hit_text h = Some s -> Py.nonempty s = true ->
  In s (remembered results).
Proof.
  intros Hin Ht Hs. unfold remembered. apply in_flat_map.
  exists h. split; [exact Hin|]. rewrite Ht, Hs. now left.
Qed.

Lemma inject_memory_block k txt messages :
  exists block,
    inject_memory k txt messages = (messages ++ block)%list
    /\ (block = []
        \/ exists m results,
             memory k = Some m
             /\ Memory.retrieve_memory m txt (memory_top_k k) = Py.Return results
             /\ remembered results <> []
             /\ block = [memory_message (map item (remembered results))]).
Proof.
  unfold inject_memory.
  destruct (memory k) as [m|]; [|exists []; rewrite app_nil_r; auto].
  destruct (Memory.embeddings m); [|exists []; rewrite app_nil_r; auto].
  destruct (Memory.retrieve_memory m txt (memory_top_k k)) as [results|err] eqn:R;
    [|exists []; rewrite app_nil_r; auto].
  rewrite mem_snippets_items.
  destruct (remembered results) as [|s l] eqn:E; cbn [map];
    [exists []; rewrite app_nil_r; auto|].
  eexists. split; [reflexivity|]. right. exists m, results.
  split; [reflexivity|]. split; [exact R|]. rewrite E.
  split; [discriminate|reflexivity].
Qed.

(** X12: The messages handed to the model are, in this order: the system prompt
    when it is not empty, the context as given, at most one memory message,
    and the user's text last.  A memory message is there only if the memory
    answered the user's text with hits, and it lists the texts of those hits
    that have one, in the order of the hits. *)
Theorem messages_in_order (k : t) (txt : string) (sp : option string)
        (ctx : option (list ChatMessage)) :
  exists block,
    build_messages k txt sp ctx
    = ((match sp with
        | Some p => if Py.nonempty p then [system_message p] else []
        | None => []
        end)
       ++ (match ctx with Some c => c | None => [] end)
       ++ block ++ [user_message txt])%list
    /\ (block = []
        \/ exists m results,
             memory k = Some m
             /\ Memory.retrieve_memory m txt (memory_top_k k) = Py.Return results
             /\ remembered results <> []
             /\ block = [memory_message (map item (remembered results))]).
Proof.
  unfold build_messages.
  match goal with |- context [inject_memory k txt ?msgs] =>
    destruct (inject_memory_block k txt msgs) as (block & -> & Hb)
  end.
  exists block. split; [|exact Hb].
  unfold system_message, user_message.
  destruct sp as [p|]; [destruct (Py.nonempty p)|]; destruct ctx as [c|];
    cbn [app]; rewrite <- ?app_assoc, ?app_nil_r; reflexivity.
Qed.

(** X13: A turn raises only when the model does: then the exception is the
    model's, and the kernel, its memory included, is as it was. *)
Theorem failed_turn_is_the_models (k : t) (txt : string) (sp : option string)
        (ctx : option (list ChatMessage)) (o : GenOptions) (e : Py.exc) :
  fst (process_input k txt sp ctx o) = Py.Raise e ->
  generate (llm k) (build_messages k txt sp ctx) o = Py.Raise e
  /\ snd (process_input k txt sp ctx o) = k.
Proof.
  unfold process_input.
  destruct (generate (llm k) (build_messages k txt sp ctx) o) as [r|e'];
    cbn [fst snd]; [discriminate|].
  intros [= ->]. split; reflexivity.
Qed.

Lemma failed_turn_is_the_models_witness :
  snd (process_input Ex2.kernel_with_failing_llm "hello" None None
         AgentManager.interpreter_options)
  = Ex2.kernel_with_failing_llm.
Proof.
  exact (proj2 (failed_turn_is_the_models Ex2.kernel_with_failing_llm "hello" None None
                  AgentManager.interpreter_options _ eq_refl)).
Defined.

(** *** What a turn stores *)

Lemma store_text_dense m embed txt v rest :
  Memory.embeddings m = Some embed ->
  embed [txt] = Py.Return (v :: rest) ->
  len v = Memory.dim m ->
  dim (Memory.store m) = Memory.dim m ->
  dense (Memory.store m) ->
  let rid := vec_id (S (length (records (Memory.store m)))) in
  exists m',
    Memory.store_text m txt None = (Py.Return rid, m')
    /\ records (Memory.store m')
       = (records (Memory.store m) ++ [(rid, text_record rid v txt)])%list
    /\ dense (Memory.store m')
    /\ Memory.embeddings m' = Some embed
    /\ Memory.dim m' = Memory.dim m
    /\ dim (Memory.store m') = Memory.dim m.
Proof.
  intros He Hv Hl Hd Hdense rid.
  destruct (MemoryProps.store_text_files m embed txt None v rest He Hv Hl Hd)
    as (rid' & Hs & _).
  destruct (add_fresh_when_dense (Memory.store m) v [] (Some txt) Hdense)
    as (rid2 & db' & Ha & _ & Hr & Hd'); [congruence|].
  assert (Hrid : rid2 = rid).
  { unfold add in Ha. destruct (negb _); [discriminate|].
    injection Ha as <- _. unfold rid, vec_id. do 2 f_equal. lia. }
  assert (Hdim : dim db' = dim (Memory.store m)).
  { unfold add in Ha. destruct (negb _); [injection Ha as _ <-|injection Ha as _ <-];
      reflexivity. }
  rewrite Ha in Hs. cbn [snd] in Hs. subst rid2.
  assert (rid' = rid) as ->.
  { destruct (StoreProps.add_get (Memory.store m) v [] (Some txt)) as (r3 & Ha3 & _);
      [congruence|].
    unfold Memory.store_text in Hs. rewrite He, Hv in Hs. cbn [Py.bind Memory.first] in Hs.
    unfold Memory.store_memory in Hs. rewrite Hl, Z.eqb_refl in Hs. cbn [negb] in Hs.
    rewrite Ha in Hs. now injection Hs as ->. }
  eexists. split; [exact Hs|]. cbn [Memory.store Memory.embeddings Memory.dim].
  split; [exact Hr|]. split; [exact Hd'|]. split; [exact He|].
  split; [reflexivity|congruence].
Qed.

Lemma turn_stores k m embed txt out v1 rest1 :
  memory k = Some m ->
  Memory.embeddings m = Some embed ->
  dim (Memory.store m) = Memory.dim m ->
  dense (Memory.store m) ->
  embed [txt] = Py.Return (v1 :: rest1) ->
  len v1 = Memory.dim m ->
  (Py.nonempty out = true ->
   exists v2 rest2, embed [out] = Py.Return (v2 :: rest2) /\ len v2 = Memory.dim m) ->
  let n := length (records (Memory.store m)) in
  exists m' v2,
    store_interaction k txt out = with_memory k m'
    /\ records (Memory.store m')
       = (records (Memory.store m)
          ++ (vec_id (n + 1), text_record (vec_id (n + 1)) v1 txt)
          :: (if Py.nonempty out
              then [(vec_id (n + 2), text_record (vec_id (n + 2)) v2 out)]
              else []))%list
    /\ Memory.embeddings m' = Some embed
    /\ Memory.dim m' = Memory.dim m
    /\ dim (Memory.store m') = Memory.dim m
    /\ (Py.nonempty out = true -> exists rest2, embed [out] = Py.Return (v2 :: rest2)).
Proof.
  intros Hm He Hd Hdense Hv1 Hl1 Hout n.
  destruct (store_text_dense m embed txt v1 rest1 He Hv1 Hl1 Hd Hdense)
    as (m1 & Hs1 & Hr1 & Hd1 & He1 & Hdim1 & Hsd1).
  unfold store_interaction. rewrite Hm, He, Hs1.
  replace (S (length (records (Memory.store m)))) with (n + 1)%nat in * by (unfold n; lia).
  destruct (Py.nonempty out) eqn:Eo.
  - destruct (Hout eq_refl) as (v2 & rest2 & Hv2 & Hl2).
    destruct (store_text_dense m1 embed out v2 rest2 He1 Hv2) as
      (m2 & Hs2 & Hr2 & Hd2 & He2 & Hdim2 & Hsd2); [congruence|congruence|exact Hd1|].
    rewrite Hs2. cbn [snd]. exists m2, v2. split; [reflexivity|].
    replace (S (length (records (Memory.store m1)))) with (n + 2)%nat in *
      by (rewrite Hr1, length_app; cbn; unfold n; lia).
    split; [rewrite Hr2, Hr1, <- app_assoc; reflexivity|].
    split; [exact He2|]. split; [congruence|]. split; [congruence|].
    intros _. exists rest2. exact Hv2.
  - exists m1, []. split; [reflexivity|]. split; [exact Hr1|].
    split; [exact He1|]. split; [congruence|]. split; [congruence|discriminate].
Qed.

(** X14: A turn that returns, in a kernel whose memory has a working embedder and
    a database that has only seen stores, leaves the model manager and
    [memory_top_k] alone and appends to the database the user's text and then
    the model's output, under the next two ids and with no metadata, each
    with its embedding: the first vector the embedder answers the text with.
    An empty output is not stored. *)
Theorem turn_stores_both_texts (k : t) (m : Memory.t) (embed : Memory.EmbeddingsProvider)
        (txt : string) (sp : option string) (ctx : option (list ChatMessage))
        (o : GenOptions) (r : GenerateResult) (v1 : ndarray) (rest1 : list ndarray) :
  memory k = Some m ->
  Memory.embeddings m = Some embed ->
  dim (Memory.store m) = Memory.dim m ->
  dense (Memory.store m) ->
  generate (llm k) (build_messages k txt sp ctx) o = Py.Return r ->
  embed [txt] = Py.Return (v1 :: rest1) ->
  len v1 = Memory.dim m ->
  (Py.nonempty (output_of r) = true ->
   exists v2 rest2,
     embed [output_of r] = Py.Return (v2 :: rest2) /\ len v2 = Memory.dim m) ->
  let n := length (records (Memory.store m)) in
  exists m' v2,
    process_input k txt sp ctx o = (Py.Return (output_of r), with_memory k m')
    /\ records (Memory.store m')
       = (records (Memory.store m)
          ++ (vec_id (n + 1), text_record (vec_id (n + 1)) v1 txt)
          :: (if Py.nonempty (output_of r)
              then [(vec_id (n + 2), text_record (vec_id (n + 2)) v2 (output_of r))]
              else []))%list
    /\ (Py.nonempty (output_of r) = true ->
        exists rest2, embed [output_of r] = Py.Return (v2 :: rest2)).
Proof.
  intros Hm He Hd Hdense Hg Hv1 Hl1 Hout n.
  destruct (turn_stores k m embed txt (output_of r) v1 rest1 Hm He Hd Hdense Hv1 Hl1 Hout)
    as (m' & v2 & Hs & Hr & _ & _ & _ & Htie).
  exists m', v2. unfold process_input. rewrite Hg, Hs.
  split; [reflexivity|]. split; [exact Hr|exact Htie].
Qed.

Lemma turn_stores_both_texts_witness :
  exists m' v2,
    process_input (Ex2.kernel_with_memory "ok") "hello" None None
      AgentManager.interpreter_options
    = (Py.Return "ok", with_memory (Ex2.kernel_with_memory "ok") m')
    /\ records (Memory.store m')
       = [("vec_1", text_record "vec_1" Ex.v10 "hello");
          ("vec_2", text_record "vec_2" v2 "ok")]
    /\ exists rest2, Ex2.constant_embedder ["ok"] = Py.Return (v2 :: rest2).
Proof.
  destruct (turn_stores_both_texts (Ex2.kernel_with_memory "ok") Ex2.working_memory
              Ex2.constant_embedder "hello" None None AgentManager.interpreter_options
              {| text := Some "ok" |} Ex.v10 []
              eq_refl eq_refl eq_refl eq_refl eq_refl eq_refl eq_refl
              (fun _ => ex_intro _ Ex.v10 (ex_intro _ [] (conj eq_refl eq_refl))))
    as (m' & v2 & H1 & H2 & H3).
  exists m', v2. split; [exact H1|]. split; [exact H2|exact (H3 eq_refl)].
Defined.

(** X15: What a turn stores, the next turn is told: after a turn that returns, in
    a kernel whose memory has a working embedder, a database that has only
    seen stores and a [memory_top_k] that covers its records, the messages of
    any later turn contain a memory message that lists the user's text, if
    not empty, and the model's output, if not empty. *)
Theorem turn_is_remembered (k : t) (m : Memory.t) (embed : Memory.EmbeddingsProvider)
        (txt : string) (sp : option string) (ctx : option (list ChatMessage))
        (o : GenOptions) (r : GenerateResult)
        (txt' : string) (sp' : option string) (ctx' : option (list ChatMessage)) :
  memory k = Some m ->
  Memory.embeddings m = Some embed ->
  embeds m embed ->
  dim (Memory.store m) = Memory.dim m ->
  dense (Memory.store m) ->
  generate (llm k) (build_messages k txt sp ctx) o = Py.Return r ->
  Py.nonempty txt = true ->
  Z.of_nat (length (records (Memory.store m))) + 2 <= memory_top_k k ->
  exists lines,
    In (memory_message lines)
       (build_messages (snd (process_input k txt sp ctx o)) txt' sp' ctx')
    /\ In (item txt) lines
    /\ (Py.nonempty (output_of r) = true -> In (item (output_of r)) lines).
Proof.
  intros Hm He Hemb Hd Hdense Hg Htxt Hk.
  destruct (Hemb txt) as (v1 & rest1 & Hv1 & Hl1).
  destruct (Hemb txt') as (qv & qrest & Hq & Hql).
  assert (Hout : Py.nonempty (output_of r) = true ->
                 exists v2 rest2,
                   embed [output_of r] = Py.Return (v2 :: rest2) /\ len v2 = Memory.dim m)
    by (intros _; apply Hemb).
  destruct (turn_stores k m embed txt (output_of r) v1 rest1 Hm He Hd Hdense Hv1 Hl1 Hout)
    as (m' & v2 & Hs & Hr & He' & Hdim' & Hsd' & _).
  unfold process_input. rewrite Hg, Hs. cbn [snd].
  assert (Hlen : Z.of_nat (length (records (Memory.store m'))) <= memory_top_k k).
  { rewrite Hr, length_app. cbn [length]. destruct (Py.nonempty (output_of r)); cbn; lia. }
  assert (Hret : exists hits,
             Memory.retrieve_memory m' txt' (memory_top_k k) = Py.Return hits
             /\ forall rec, In rec (Py.dict_values (records (Memory.store m'))) ->
                            In (hit_of qv rec) hits).
  { unfold Memory.retrieve_memory. rewrite He', Hq. cbn [Py.bind Memory.first].
    rewrite SearchMore.search_returns by congruence. eexists. split; [reflexivity|].
    intros rec Hrec.
    rewrite SearchMore.slice_to_all
      by now rewrite SearchMore.sort_reverse_length, SearchMore.similarities_length.
    unfold hit_of. apply in_map.
    eapply Permutation_in; [apply Permutation_sym, SortFacts.sort_reverse_perm|].
    unfold similarities. apply in_map_iff. exists rec. split; [reflexivity|exact Hrec]. }
  destruct Hret as (hits & Hret & Hall).
  set (n := length (records (Memory.store m))) in *.
  assert (H1 : In (item txt) (map item (remembered hits))).
  { apply in_map.
    apply (remembered_in hits (hit_of qv (text_record (vec_id (n + 1)) v1 txt)));
      [|reflexivity|exact Htxt].
    apply Hall. rewrite Hr. unfold Py.dict_values. rewrite map_app.
    apply in_or_app. right. now left. }
  assert (H2 : Py.nonempty (output_of r) = true ->
               In (item (output_of r)) (map item (remembered hits))).
  { intros Ho. apply in_map.
    apply (remembered_in hits
             (hit_of qv (text_record (vec_id (n + 2)) v2 (output_of r))));
      [|reflexivity|exact Ho].
    apply Hall. rewrite Hr, Ho. unfold Py.dict_values. rewrite map_app.
    apply in_or_app. right. right. now left. }
  exists (map item (remembered hits)). split; [|split; [exact H1|exact H2]].
  unfold build_messages. apply in_or_app. left.
  unfold inject_memory. cbn [memory with_memory memory_top_k].
  rewrite He', Hret, mem_snippets_items.
  destruct (map item (remembered hits)) as [|l ls] eqn:E; [destruct H1|].
  apply in_or_app. right. now left.
Qed.

Lemma turn_is_remembered_witness :
  exists lines,
    In (memory_message lines)
       (build_messages
          (snd (process_input (Ex2.kernel_with_memory "ok") "hello" None None
                  AgentManager.interpreter_options))
          "and then?" None None)
    /\ In (item "hello") lines.
Proof.
  destruct (turn_is_remembered (Ex2.kernel_with_memory "ok") Ex2.working_memory
              Ex2.constant_embedder "hello" None None AgentManager.interpreter_options
              {| text := Some "ok" |} "and then?" None None
              eq_refl eq_refl
              (fun s => ex_intro _ Ex.v10 (ex_intro _ [] (conj eq_refl eq_refl)))
              eq_refl eq_refl eq_refl eq_refl ltac:(vm_compute; discriminate))
    as (lines & H1 & H2 & _).
  exists lines. split; [exact H1|exact H2].
Defined.

(** X16: A turn keeps the invariant of the memory: whether it returns or raises,
    and whatever the embedder does, the database of the memory afterwards has
    only seen stores, at most two more than before, and the dimensions are
    as they were. *)
Theorem turn_keeps_memory_consistent (k : t) (m : Memory.t) (txt : string)
        (sp : option string) (ctx : option (list ChatMessage)) (o : GenOptions) :
  memory k = Some m ->
  consistent m ->
  exists m',
    memory (snd (process_input k txt sp ctx o)) = Some m'
    /\ consistent m'
    /\ Memory.dim m' = Memory.dim m
    /\ (length (records (Memory.store m)) <= length (records (Memory.store m'))
        <= length (records (Memory.store m)) + 2)%nat.
Proof.
  intros Hm Hc.
  assert (Hstep : forall m0 s,
             consistent m0 ->
             consistent (snd (Memory.store_text m0 s None))
             /\ Memory.dim (snd (Memory.store_text m0 s None)) = Memory.dim m0
             /\ (length (records (Memory.store m0))
                 <= length (records (Memory.store (snd (Memory.store_text m0 s None))))
                 <= length (records (Memory.store m0)) + 1)%nat).
  { intros m0 s H0. split; [now apply MemoryProps.store_text_consistent|].
    split; [apply (MemoryProps.memory_step_dim m0 (StoreText s None))|].
    unfold Memory.store_text. destruct (Memory.embeddings m0); [|cbn; lia].
    destruct (Py.bind _ _) as [v|]; [|cbn; lia].
    unfold Memory.store_memory. destruct (negb _); [cbn; lia|].
    unfold add. destruct (negb (len v =? dim (Memory.store m0)));
      cbn [negb snd Memory.store records]; [lia|].
    apply StoreProps.dict_set_length_bounds. }
  unfold process_input.
  destruct (generate _ _ _) as [r|err]; cbn [snd];
    [|exists m; split; [exact Hm|split; [exact Hc|split; [reflexivity|lia]]]].
  unfold store_interaction. rewrite Hm.
  destruct (Memory.embeddings m);
    [|exists m; split; [exact Hm|split; [exact Hc|split; [reflexivity|lia]]]].
  destruct (Hstep m txt Hc) as (C1 & D1 & N1).
  destruct (Memory.store_text m txt None) as [[rid|err] m1]; cbn [snd] in *.
  - destruct (Py.nonempty (output_of r)).
    + destruct (Hstep m1 (output_of r) C1) as (C2 & D2 & N2).
      eexists. split; [reflexivity|]. split; [exact C2|]. split; [congruence|lia].
    + exists m1. split; [reflexivity|]. split; [exact C1|]. split; [exact D1|lia].
  - exists m1. split; [reflexivity|]. split; [exact C1|]. split; [exact D1|lia].
Qed.

Lemma turn_keeps_memory_consistent_witness :
  exists m',
    memory (snd (process_input (Ex2.kernel_with_memory "ok") "hello" None None
                   AgentManager.interpreter_options)) = Some m'
    /\ consistent m'.
Proof.
  destruct (turn_keeps_memory_consistent (Ex2.kernel_with_memory "ok")
              Ex2.working_memory "hello" None None AgentManager.interpreter_options
              eq_refl (conj eq_refl eq_refl))
    as (m' & H1 & H2 & _).
  exists m'. split; [exact H1|exact H2].
Defined.

End TurnProps.

(** ** The model manager *)

Module ModelProps.
Import Kernel LLMModels.

Section WithEnvironment.
Variable OPENAI_API_KEY : option string.
Variable OPENAI_BASE_URL : option string.
Variable chat_completions : string -> string -> string -> LLMProvider.

Local Abbreviation _build_provider :=
  (_build_provider OPENAI_API_KEY OPENAI_BASE_URL chat_completions).
Local Abbreviation load_model :=
  (load_model OPENAI_API_KEY OPENAI_BASE_URL chat_completions).

Lemma build_provider_errors provider model c e :
  _build_provider provider model c = Py.Raise e ->
  e = unsupported provider \/ e = missing_key.
Proof.
  unfold LLMModels._build_provider, OpenAIChatProvider.
  destruct (_ || _).
  - destruct (negb _); [intros [= <-]; now right|discriminate].
  - intros [= <-]. now left.
Qed.

(** X17: A [load_model] that raises leaves the manager as it was, and raises
    [ValueError] for one of two reasons: the provider is not one of the
    three spellings of the supported one, or there is no API key, neither
    given nor in the environment. *)
Theorem failed_load_changes_nothing (llm : LLMManager) (name provider : string)
        (c : Config) (e : Py.exc) :
  fst (load_model llm name provider c) = Py.Raise e ->
  snd (load_model llm name provider c) = llm
  /\ Py.exc_cls e = Py.ValueError
  /\ (e = unsupported provider \/ e = missing_key).
Proof.
  unfold LLMModels.load_model.
  destruct (_build_provider provider _ c) as [instance|e'] eqn:B; cbn [fst snd];
    [discriminate|].
  intros [= ->]. split; [reflexivity|].
  destruct (build_provider_errors _ _ _ _ B) as [->| ->]; auto.
Qed.

Lemma generate_active llm a p msgs o :
  active_model llm = Some a -> Py.nonempty a = true -> models llm !! a = Some p ->
  generate llm msgs o = p msgs o.
Proof. intros Ha Hn Hp. unfold generate. now rewrite Ha, Hn, Hp. Qed.

(** X18: A [load_model] whose provider is built returns [True] and files the
    provider under the name given.  The new model answers at once when no
    model was active, and in any case after [set_active_model] of its name,
    as the kernel's constructor does; a model that was active under another
    name stays the one that answers.  The name must not be empty: the
    manager takes an empty active name for none. *)
Theorem loaded_model_answers (llm : LLMManager) (name provider : string)
        (c : Config) (instance : LLMProvider) :
  _build_provider provider (match cfg_model c with Some m => m | None => name end) c
  = Py.Return instance ->
  Py.nonempty name = true ->
  fst (load_model llm name provider c) = Py.Return true
  /\ (active_model llm = None ->
      forall msgs o, generate (snd (load_model llm name provider c)) msgs o = instance msgs o)
  /\ fst (set_active_model (snd (load_model llm name provider c)) name) = true
  /\ (forall msgs o,
         generate (snd (set_active_model (snd (load_model llm name provider c)) name)) msgs o
         = instance msgs o)
  /\ (forall a, active_model llm = Some a -> a <> name ->
                forall msgs o,
                  generate (snd (load_model llm name provider c)) msgs o
                  = generate llm msgs o).
Proof.
  intros B Hn. unfold LLMModels.load_model. rewrite B. cbn [fst snd].
  unfold set_active_model. cbn [models]. rewrite lookup_insert_eq. cbn [fst snd].
  split; [reflexivity|]. split; [|split; [reflexivity|split]].
  - intros Hnone msgs o. apply (generate_active _ name); cbn [active_model models];
      [now rewrite Hnone|exact Hn|apply lookup_insert_eq].
  - intros msgs o. apply (generate_active _ name); cbn [active_model models];
      [reflexivity|exact Hn|apply lookup_insert_eq].
  - intros a Ha Hne msgs o. unfold generate. cbn [active_model models].
    rewrite Ha. now rewrite lookup_insert_ne by congruence.
Qed.

(** X19: An empty model name is accepted by [load_model] and made active, and
    then [generate] raises as if no model were configured. *)
Theorem empty_name_never_answers (provider : string) (c : Config)
        (instance : LLMProvider) :
  _build_provider provider (match cfg_model c with Some m => m | None => "" end) c
  = Py.Return instance ->
  fst (load_model init "" provider c) = Py.Return true
  /\ active_model (snd (load_model init "" provider c)) = Some ""
  /\ forall msgs o,
       generate (snd (set_active_model (snd (load_model init "" provider c)) "")) msgs o
       = Py.Raise no_active_model.
Proof.
  intros B. unfold LLMModels.load_model. rewrite B. cbn [fst snd active_model init].
  split; [reflexivity|]. split; [reflexivity|].
  intros msgs o. unfold set_active_model. cbn [models]. rewrite lookup_insert_eq.
  reflexivity.
Qed.

End WithEnvironment.

Lemma failed_load_changes_nothing_witness :
  snd (load_model None None Ex2.echo_service init "default" "llama" (Ex2.with_key "k"))
  = init.
Proof.
  exact (proj1 (failed_load_changes_nothing None None Ex2.echo_service init
                  "default" "llama" (Ex2.with_key "k") _ eq_refl)).
Defined.

Lemma loaded_model_answers_witness :
  fst (load_model None None Ex2.echo_service init "default" "OpenAI" (Ex2.with_key "k"))
  = Py.Return true
  /\ forall msgs o,
       generate (snd (load_model None None Ex2.echo_service init "default" "OpenAI"
                        (Ex2.with_key "k"))) msgs o
       = Py.Return {| text := Some "default" |}.
Proof.
  destruct (loaded_model_answers None None Ex2.echo_service init "default" "OpenAI"
              (Ex2.with_key "k") (Ex.provider_says "default") eq_refl eq_refl)
    as (H1 & H2 & _).
  split; [exact H1|exact (H2 eq_refl)].
Defined.

Lemma empty_name_never_answers_witness :
  active_model (snd (load_model None None Ex2.echo_service init "" "openai"
                       (Ex2.with_key "k"))) = Some "".
Proof.
  exact (proj1 (proj2 (empty_name_never_answers None None Ex2.echo_service "openai"
                         (Ex2.with_key "k") (Ex.provider_says "") eq_refl))).
Defined.

(** X20: [unload_model] answers [True] exactly when the name is loaded, and
    afterwards the name is not loaded and cannot be made active.  Unloading
    the active model leaves no model active, so that [generate] raises;
    unloading any other leaves the answers of [generate] as they were. *)
Theorem unload_model_forgets (llm : LLMManager) (name : string) :
  (fst (unload_model llm name) = true <-> exists p, models llm !! name = Some p)
  /\ models (snd (unload_model llm name)) !! name = None
  /\ set_active_model (snd (unload_model llm name)) name
     = (false, snd (unload_model llm name))
  /\ (active_model llm = Some name ->
      forall msgs o, generate (snd (unload_model llm name)) msgs o = Py.Raise no_active_model)
  /\ (forall a, active_model llm = Some a -> a <> name ->
                forall msgs o,
                  generate (snd (unload_model llm name)) msgs o = generate llm msgs o).
Proof.
  unfold unload_model.
  destruct (models llm !! name) as [p|] eqn:L; cbn [fst snd].
  - assert (Hgone : delete name (models llm) !! name = None) by apply lookup_delete_eq.
    split; [split; eauto|]. split; [exact Hgone|].
    split; [unfold set_active_model; cbn [models]; now rewrite Hgone|].
    split.
    + intros Ha msgs o. unfold generate. cbn [active_model].
      now rewrite Ha, String.eqb_refl.
    + intros a Ha Hne msgs o. unfold generate. cbn [active_model models].
      rewrite Ha. apply String.eqb_neq in Hne. rewrite Hne.
      apply String.eqb_neq in Hne. now rewrite lookup_delete_ne by congruence.
  - split; [split; [discriminate|intros (p & Hp); discriminate]|].
    split; [exact L|].
    split; [unfold set_active_model; now rewrite L|].
    split; [|reflexivity].
    intros Ha msgs o. unfold generate, LLMProvider in *. rewrite Ha. cbv beta iota.
    rewrite L.
    now destruct (negb (Py.nonempty name)).
Qed.

End ModelProps.

(** ** The tasks *)

Module TaskProps.
Import TaskManager VectorDBProps.

Section WithAny.
Context {Any : Type}.

(** A task as [create_task] makes it. *)
Local Abbreviation fresh :=
  (fun task : Task Any =>
     status task = PENDING /\ result task = None /\ error task = None).

Lemma task_id_inj a b : task_id a = task_id b -> a = b.
Proof. unfold task_id. cbn. intros H. injection H as H. now apply str_of_nat_inj. Qed.

Lemma create_all_from (tm : t Any) (l : list (request Any)) :
  Py.dict_keys (tasks tm) = map task_id (seq 1 (length (tasks tm))) ->
  Py.dict_values (tasks tm) = task_queue tm ->
  fst (create_all tm l) = map task_id (seq (S (length (tasks tm))) (length l))
  /\ Py.dict_keys (tasks (snd (create_all tm l)))
     = (Py.dict_keys (tasks tm) ++ fst (create_all tm l))%list
  /\ Py.dict_values (tasks (snd (create_all tm l))) = task_queue (snd (create_all tm l))
  /\ exists made,
       task_queue (snd (create_all tm l)) = (task_queue tm ++ made)%list
       /\ map request_of made = l
       /\ map id made = fst (create_all tm l)
       /\ Forall fresh made.
Proof.
  revert tm. induction l as [|[[n d] p] l IH]; intros tm Hk Hv; cbn [create_all].
  - cbn. rewrite !app_nil_r. split; [reflexivity|]. split; [reflexivity|].
    split; [exact Hv|]. exists []. rewrite app_nil_r. repeat split. constructor.
  - unfold create_task.
    set (tid := ("task_" ++ Py.str_of_nat (length (tasks tm) + 1))%string).
    set (task := {| id := tid; name := n; description := d; parameters := p;
                    status := PENDING; result := None; error := None |}).
    set (tm1 := {| tasks := Py.dict_set tid task (tasks tm);
                   task_queue := (task_queue tm ++ [task])%list |}).
    assert (Htid : tid = task_id (S (length (tasks tm)))).
    { unfold tid, task_id. do 2 f_equal. lia. }
    assert (Hnone : Py.dict_get tid (tasks tm) = None).
    { apply dict_get_none_keys. rewrite Hk, Htid. intros Hin.
      apply in_map_iff in Hin. destruct Hin as (i & Hi & Hin).
      apply task_id_inj in Hi. apply in_seq in Hin. lia. }
    assert (Ht1 : tasks tm1 = (tasks tm ++ [(tid, task)])%list)
      by (cbn [tasks tm1]; now apply dict_set_fresh).
    assert (Hlen1 : length (tasks tm1) = S (length (tasks tm)))
      by (rewrite Ht1, length_app; cbn; lia).
    assert (Hk1 : Py.dict_keys (tasks tm1) = map task_id (seq 1 (length (tasks tm1)))).
    { rewrite Hlen1, Ht1. unfold Py.dict_keys in *. rewrite map_app, Hk.
      replace (S (length (tasks tm))) with (length (tasks tm) + 1)%nat by lia.
      rewrite seq_app, map_app. cbn. rewrite Htid. do 3 f_equal. }
    assert (Hv1 : Py.dict_values (tasks tm1) = task_queue tm1).
    { rewrite Ht1. unfold Py.dict_values in *. rewrite map_app, Hv. reflexivity. }
    destruct (IH tm1 Hk1 Hv1) as (I1 & I2 & I3 & made & I4 & I5 & I6 & I7).
    destruct (create_all tm1 l) as [ids tm2]. cbn [fst snd] in *.
    split; [|split; [|split]].
    + cbn [length seq map]. rewrite I1, Hlen1, <- Htid. reflexivity.
    + rewrite I2, Ht1. unfold Py.dict_keys. rewrite map_app, <- app_assoc. reflexivity.
    + exact I3.
    + exists (task :: made). split; [|split; [|split]].
      * rewrite I4. cbn [task_queue tm1]. now rewrite <- app_assoc.
      * cbn [map]. now rewrite I5.
      * cbn [map]. now rewrite I6.
      * constructor; [repeat split|exact I7].
Qed.

(** X21: Creations alone, from a new manager: the [n]-th creation returns the id
    [task_n], no creation replaces a task, the [dict] and the queue hold the
    same tasks in the order they were made, each one with the name, the
    description and the parameters given, pending, without result or error. *)
Theorem creations_number_their_tasks (l : list (request Any)) :
  fst (create_all init l) = map task_id (seq 1 (length l))
  /\ Py.dict_keys (tasks (snd (create_all init l))) = fst (create_all init l)
  /\ Py.dict_values (tasks (snd (create_all init l))) = task_queue (snd (create_all init l))
  /\ map id (task_queue (snd (create_all init l))) = fst (create_all init l)
  /\ map request_of (task_queue (snd (create_all init l))) = l
  /\ Forall fresh (task_queue (snd (create_all init l))).
Proof.
  destruct (create_all_from init l eq_refl eq_refl)
    as (H1 & H2 & H3 & made & H4 & H5 & H6 & H7).
  cbn [init tasks task_queue length app Py.dict_keys map] in *.
  rewrite H4 in H3 |- *. auto 10.
Qed.

Lemma dict_get_in {V} k (d : Py.dict V) v :
  Py.dict_get k d = Some v -> In v (Py.dict_values d).
Proof.
  unfold Py.dict_values.
  induction d as [|[k' v'] d IH]; cbn; [discriminate|].
  destruct (String.eqb k' k); [intros [= ->]; now left|right; auto].
Qed.

(** X22: A manager that has only created tasks reports every one of them as
    pending and any other id as unknown, and has a result for none: no
    method of the class completes a task. *)
Theorem no_task_has_a_result (l : list (request Any)) (tid : string) :
  get_task_result (snd (create_all init l)) tid = None
  /\ get_task_status (snd (create_all init l)) tid
     = if existsb (String.eqb tid) (fst (create_all init l))
       then Some PENDING else None.
Proof.
  destruct (create_all_from init l eq_refl eq_refl)
    as (_ & H2 & H3 & made & H4 & _ & _ & H7).
  cbn [init tasks task_queue length app Py.dict_keys map] in *.
  fold (Py.dict_keys (tasks (snd (create_all init l)))) in H2.
  unfold get_task_result, get_task_status.
  destruct (Py.dict_get tid (tasks (snd (create_all init l)))) as [task|] eqn:G.
  - apply dict_get_in in G as Hin. rewrite H3, H4 in Hin.
    rewrite List.Forall_forall in H7. destruct (H7 task Hin) as (Hs & Hr & _).
    rewrite Hs. split; [reflexivity|].
    assert (E : existsb (String.eqb tid) (fst (create_all init l)) = true).
    { apply existsb_exists. exists tid. split; [|apply String.eqb_refl].
      rewrite <- H2. apply StoreProps.dict_mem_keys. unfold Py.dict_mem. now rewrite G. }
    now rewrite E.
  - split; [reflexivity|].
    destruct (existsb _ _) eqn:E; [|reflexivity].
    apply existsb_exists in E. destruct E as (x & Hx & Heq).
    apply String.eqb_eq in Heq. subst x. rewrite <- H2 in Hx.
    apply StoreProps.dict_mem_keys in Hx. unfold Py.dict_mem in Hx.
    rewrite G in Hx. discriminate.
Qed.

End WithAny.
End TaskProps.

(** ** The twelve-hour clock of the scheduler *)

Module ClockProps.
Import Datetime SchedulingAgent.

Lemma make_returns y mo d h mi s us :
  (exists dt, make y mo d h mi s us = Py.Return dt)
  <-> valid {| year := y; month := mo; day := d;
               hour := h; minute := mi; second := s; microsecond := us |} = true.
Proof.
  unfold make. destruct (valid _); split; eauto; try discriminate.
  intros (dt & H). discriminate.
Qed.

Lemma valid_new_hour now h :
  valid now = true ->
  valid {| year := year now; month := month now; day := day now;
           hour := h; minute := 0; second := 0; microsecond := 0 |}
  = (0 <=? h) && (h <? 24).
Proof.
  unfold valid. cbn [year month day hour minute second microsecond].
  intros H. repeat (apply andb_prop in H; destruct H as [H ?]).
  repeat match goal with E : _ = true |- _ => rewrite E; clear E end.
  cbn. now rewrite !andb_true_r.
Qed.

(** X23: [_apply_ampm] on the hours of a twelve-hour clock, whatever the case of
    the suffix: twelve in the morning is hour 0, twelve in the afternoon is
    hour 12, and the result is an hour of the day.  What [now.replace] makes
    of the result: a suffix [am] gets a time for every hour up to 23, any
    other suffix only for the hours up to 12; beyond, [replace] raises. *)
Theorem apply_ampm_on_the_clock (now : datetime) (h : Z) (ap : string) :
  valid now = true ->
  0 <= h ->
  (1 <= h <= 12 ->
   _apply_ampm h ap = h mod 12 + (if String.eqb (Py.lower ap) "am" then 0 else 12)
   /\ 0 <= _apply_ampm h ap < 24)
  /\ ((exists dt, replace_hm00 now (_apply_ampm h ap) 0 = Py.Return dt)
      <-> if String.eqb (Py.lower ap) "am" then h <= 23 else h <= 12)
  /\ (forall dt, replace_hm00 now (_apply_ampm h ap) 0 = Py.Return dt ->
                 hour dt = _apply_ampm h ap /\ minute dt = 0
                 /\ second dt = 0 /\ microsecond dt = 0
                 /\ year dt = year now /\ month dt = month now /\ day dt = day now).
Proof.
  intros Hv Hh. split; [|split].
  - intros Hr. unfold _apply_ampm.
    destruct (String.eqb (Py.lower ap) "am"); destruct (Z.eqb_spec h 12) as [->|Hne];
      try (split; [reflexivity|lia]);
      rewrite Z.mod_small by lia; lia.
  - unfold replace_hm00. rewrite make_returns, (valid_new_hour _ _ Hv).
    unfold _apply_ampm.
    destruct (String.eqb (Py.lower ap) "am"); destruct (Z.eqb_spec h 12) as [->|Hne];
      rewrite andb_true_iff, Z.leb_le, Z.ltb_lt; lia.
  - intros dt. unfold replace_hm00, make.
    match goal with |- context [if ?b then _ else _] => destruct b end; [|discriminate].
    intros [= <-]. cbn. auto 10.
Qed.

Lemma apply_ampm_on_the_clock_witness :
  _apply_ampm 12 "AM" = 0
  /\ exists dt, replace_hm00 Claims.at_2025_10_01_14 (_apply_ampm 8 "pm") 0 = Py.Return dt.
Proof.
  split.
  - exact (proj1 (proj1 (apply_ampm_on_the_clock Claims.at_2025_10_01_14 12 "AM"
                           eq_refl ltac:(lia)) ltac:(lia))).
  - apply (proj1 (proj2 (apply_ampm_on_the_clock Claims.at_2025_10_01_14 8 "pm"
                           eq_refl ltac:(lia)))).
    vm_compute. discriminate.
Defined.

End ClockProps.

(** ** Model text without an action, and what [execute] makes of a plan *)

Module PlainText.
Import Json AgentManager.

Local Open Scope string_scope.

Lemma elements_arr fuel :
  forall s acc v r, elements fuel s acc = Some (v, r) -> exists l, v = JArr l.
Proof.
  induction fuel as [|fuel IH]; intros s acc v r; cbn [elements]; [discriminate|].
  destruct (scan_once fuel s) as [[v0 r0]|]; [|discriminate].
  destruct (skip_ws r0) as [|c r1]; [discriminate|].
  destruct (Ascii.eqb c "]"); [intros [= <- _]; eauto|].
  destruct (Ascii.eqb c ","); [apply IH|discriminate].
Qed.

Lemma scan_number_num s v r :
  scan_number s = Some (v, r) ->
  match v with JInt _ | JFloat _ _ _ => True | _ => False end.
Proof.
  unfold scan_number.
  repeat match goal with
         | |- context [let '(_, _) := ?x in _] => destruct x
         | |- context [match ?x with Some _ => _ | None => _ end] => destruct x
         | |- context [if Py.exceeds_limit ?i then _ else _] =>
             destruct (Py.exceeds_limit i)
         end;
    try discriminate; intros [= <- _]; exact I.
Qed.

(** Only a text that starts with an opening brace decodes to an object. *)
Lemma scan_once_obj fuel s d r :
  scan_once fuel s = Some (JObj d, r) -> exists s', s = String "{" s'.
Proof.
  destruct fuel as [|fuel]; cbn [scan_once]; [discriminate|].
  destruct s as [|c s0]; [discriminate|].
  destruct (Ascii.eqb c Py.dquote).
  { destruct (scanstring _ _) as [[t r1]|]; discriminate. }
  destruct (Ascii.eqb_spec c "{") as [->|_]; [eauto|].
  destruct (Ascii.eqb c "[").
  { destruct (skip_ws s0) as [|c1 r1]; [discriminate|].
    destruct (Ascii.eqb c1 "]"); [discriminate|].
    intros H. apply elements_arr in H. destruct H; discriminate. }
  destruct (String.prefix "null" _); [discriminate|].
  destruct (String.prefix "true" _); [discriminate|].
  destruct (String.prefix "false" _); [discriminate|].
  destruct (scan_number _) as [[v0 r0]|] eqn:N.
  { intros [= -> ->]. apply scan_number_num in N. destruct N. }
  destruct (String.prefix "NaN" _); [discriminate|].
  destruct (String.prefix "Infinity" _); [discriminate|].
  destruct (String.prefix "-Infinity" _); discriminate.
Qed.

Lemma find_absent_cons c c' s :
  Py.find c (String c' s) = -1 -> c' <> c /\ Py.find c s = -1.
Proof.
  cbn [Py.find]. pose proof (ParseProps.find_lower_bound c s) as Hlb.
  destruct (Ascii.eqb_spec c' c); [discriminate|].
  destruct (Py.find c s <? 0)%Z eqn:E.
  - apply Z.ltb_lt in E. intros _. split; [assumption|lia].
  - apply Z.ltb_ge in E. lia.
Qed.

Lemma find_absent_intro c c' s :
  c' <> c -> Py.find c s = -1 -> Py.find c (String c' s) = -1.
Proof.
  intros Hne H. cbn [Py.find]. apply Ascii.eqb_neq in Hne. now rewrite Hne, H.
Qed.

Lemma absent_skip_ws c s : Py.find c s = -1 -> Py.find c (skip_ws s) = -1.
Proof.
  induction s as [|a s IH]; cbn [skip_ws]; [auto|].
  intros H. destruct (is_ws a); [|exact H].
  apply IH. now apply find_absent_cons in H.
Qed.

Lemma absent_lstrip c s : Py.find c s = -1 -> Py.find c (Py.lstrip s) = -1.
Proof.
  induction s as [|a s IH]; cbn [Py.lstrip]; [auto|].
  intros H. destruct (Py.is_space a); [|exact H].
  apply IH. now apply find_absent_cons in H.
Qed.

Lemma absent_rstrip c s : Py.find c s = -1 -> Py.find c (Py.rstrip s) = -1.
Proof.
  induction s as [|a s IH]; cbn [Py.rstrip]; [auto|].
  intros H. apply find_absent_cons in H. destruct H as [Hne H].
  specialize (IH H). destruct (Py.rstrip s) as [|x r].
  - destruct (Py.is_space a); [reflexivity|]. now apply find_absent_intro.
  - now apply find_absent_intro.
Qed.

Lemma try_parse_needs_brace s d : try_parse s = Some d -> Py.find "{" s <> -1.
Proof.
  unfold try_parse, loads.
  destruct (scan_once _ (skip_ws s)) as [[v r]|] eqn:E; [|discriminate].
  destruct (skip_ws r); [|discriminate].
  destruct v; try discriminate. intros _ Habs.
  apply scan_once_obj in E. destruct E as (s' & E).
  apply (absent_skip_ws "{") in Habs. rewrite E in Habs.
  cbn in Habs. discriminate.
Qed.

Lemma safe_parse_plain text :
  Py.find "{" text = -1 -> _safe_parse_action text = None.
Proof.
  intros H. unfold _safe_parse_action, Py.strip.
  assert (Hs : Py.find "{" (Py.rstrip (Py.lstrip text)) = -1)
    by now apply absent_rstrip, absent_lstrip.
  destruct (try_parse _) as [d|] eqn:E.
  - exfalso. exact (try_parse_needs_brace _ _ E Hs).
  - now rewrite Hs.
Qed.

End PlainText.

Module ExecuteProps.
Import Json AgentManager Claims Plan.

Local Open Scope string_scope.

Section WithRepr.
Variable repr : Json.value -> Py.result string.

Local Abbreviation asks am user_input :=
  (Kernel.process_input (kernel am) user_input (Some INTERPRETER_SYSTEM_PROMPT) None
     interpreter_options).

(** X24: A model text from which no action is decoded is returned as it is, the
    kernel being the kernel after the turn and the registry untouched; such
    is every text without an opening brace. *)
Theorem plain_text_is_returned (am : t) (user_input llm_text : string) (k' : Kernel.t) :
  asks am user_input = (Py.Return llm_text, k') ->
  (_safe_parse_action llm_text = None ->
   execute repr am user_input
   = (Py.Return llm_text, {| kernel := k'; tools := tools am |}))
  /\ (Py.find "{" llm_text = -1 ->
      execute repr am user_input
      = (Py.Return llm_text, {| kernel := k'; tools := tools am |})).
Proof.
  intros Hk.
  assert (H : _safe_parse_action llm_text = None ->
              execute repr am user_input
              = (Py.Return llm_text, {| kernel := k'; tools := tools am |})).
  { intros Hp. unfold execute. now rewrite Hk, Hp. }
  split; [exact H|]. intros Hb. apply H. now apply PlainText.safe_parse_plain.
Qed.

(** X25: A call that fits and returns: [execute] ends as [str] of what the tool
    returned does, and the registry is as it was.  A string is returned as
    it is; an [int] is returned in decimal digits when it has at most 4300
    of them, and makes [execute] raise [ValueError] when it has more: the
    conversion of line 87 stands outside the [try]. *)
Theorem tool_result_is_returned (am : t) (user_input llm_text : string)
        (k' : Kernel.t) (action : Py.dict Json.value) (name : string)
        (fn : Tool) (kw : Py.dict Json.value) (v : Json.value) :
  asks am user_input = (Py.Return llm_text, k') ->
  _safe_parse_action llm_text = Some action ->
  Py.dict_get "action" action = Some (JStr name) ->
  name <> "respond" ->
  tools am !! name = Some fn ->
  action_args action = JObj kw ->
  ~ shape_mismatch fn (JObj kw) ->
  body fn kw = Py.Return v ->
  execute repr am user_input = (str repr v, {| kernel := k'; tools := tools am |})
  /\ (forall s, v = JStr s -> fst (execute repr am user_input) = Py.Return s)
  /\ (forall z,
         v = JInt z ->
         fst (execute repr am user_input)
         = if (Py.int_max_str_digits <? Py.int_digits z)%Z
           then Py.Raise Py.digit_limit_error
           else Py.Return (Py.str_of_Z z)).
Proof.
  intros Hk Hp Hn Hne Ht Ha Hfit Hb.
  pose proof (DispatchProps.parsed_has_action _ _ Hp) as Hm.
  assert (H : execute repr am user_input
              = (str repr v, {| kernel := k'; tools := tools am |})).
  { unfold execute. rewrite Hk, Hp.
    destruct action as [|p action]; [discriminate|].
    unfold dispatch. rewrite Hn, Ha. cbn [tools].
    apply String.eqb_neq in Hne. rewrite Hne, Ht.
    now rewrite (DispatchProps.call_fits _ _ Hfit), Hb. }
  split; [exact H|]. rewrite H. cbn [fst].
  split; [intros s ->; reflexivity|intros z ->; reflexivity].
Qed.

Lemma dispatch_by_lookup am1 am2 action n :
  Py.dict_get "action" action = Some (JStr n) ->
  tools am1 !! n = tools am2 !! n ->
  dispatch repr am1 action = dispatch repr am2 action.
Proof. intros Hn Ht. unfold dispatch. now rewrite Hn, Ht. Qed.

(** X26: The registry decides the call.  For a decoded action that names a tool:
    after [unregister_tool] of the name [execute] answers that the tool is
    unknown; after [register_tool] of the name it is the tool just
    registered that is called, whatever was registered before; and
    registering or unregistering any other name changes nothing. *)
Theorem registry_decides_the_call (am : t) (user_input llm_text : string)
        (k' : Kernel.t) (action : Py.dict Json.value) (name : string) :
  asks am user_input = (Py.Return llm_text, k') ->
  _safe_parse_action llm_text = Some action ->
  Py.dict_get "action" action = Some (JStr name) ->
  name <> "respond" ->
  fst (execute repr (unregister_tool am name) user_input)
  = Py.Return ("Unknown tool: " ++ name)
  /\ (forall fn kw v,
         action_args action = JObj kw ->
         ~ shape_mismatch fn (JObj kw) ->
         body fn kw = Py.Return v ->
         fst (execute repr (register_tool am name fn) user_input)
         = str repr v)
  /\ (forall other fn,
         other <> name ->
         fst (execute repr (register_tool am other fn) user_input)
         = fst (execute repr am user_input)
         /\ fst (execute repr (unregister_tool am other) user_input)
            = fst (execute repr am user_input)).
Proof.
  intros Hk Hp Hn Hne.
  pose proof (DispatchProps.parsed_has_action _ _ Hp) as Hm.
  assert (Hex : forall am', kernel am' = kernel am ->
                fst (execute repr am' user_input)
                = dispatch repr {| kernel := k'; tools := tools am' |} action).
  { intros am' Hkk. apply (DispatchProps.execute_dispatch repr am' _ llm_text);
      [now rewrite Hkk|exact Hp|exact Hm]. }
  split; [|split].
  - rewrite Hex by reflexivity. unfold dispatch. rewrite Hn. cbn [tools unregister_tool].
    apply String.eqb_neq in Hne. now rewrite Hne, lookup_delete_eq.
  - intros fn kw v Ha Hfit Hb. rewrite Hex by reflexivity.
    unfold dispatch. rewrite Hn, Ha. cbn [tools register_tool].
    apply String.eqb_neq in Hne. rewrite Hne, lookup_insert_eq.
    now rewrite (DispatchProps.call_fits _ _ Hfit), Hb.
  - intros other fn Ho. rewrite !Hex by reflexivity. split.
    + apply (dispatch_by_lookup _ _ _ name Hn). cbn [tools register_tool].
      now apply lookup_insert_ne.
    + apply (dispatch_by_lookup _ _ _ name Hn). cbn [tools unregister_tool].
      now apply lookup_delete_ne.
Qed.



Lemma execute_state am user_input :
  snd (execute repr am user_input)
  = {| kernel := snd (asks am user_input); tools := tools am |}.
Proof.
  unfold execute. destruct (asks am user_input) as [[llm_text|e] k']; [|reflexivity].
  destruct (_safe_parse_action llm_text) as [[|p action]|]; reflexivity.
Qed.

(** X28: What [execute] leaves in the memory is the turn of the kernel, not the
    call: in a kernel whose memory has a working embedder and a database that
    has only seen stores, [execute] appends the user's input and then the
    text of the model as it came, the plan, and never what the tool returned;
    the registry is untouched. *)
Theorem execute_remembers_the_plan (am : t) (m : Memory.t)
        (embed : Memory.EmbeddingsProvider) (user_input : string)
        (r : Kernel.GenerateResult) (v1 : VectorDB.ndarray)
        (rest1 : list VectorDB.ndarray) :
  Kernel.memory (kernel am) = Some m ->
  Memory.embeddings m = Some embed ->
  History.consistent m ->
  Kernel.generate (Kernel.llm (kernel am))
    (Kernel.build_messages (kernel am) user_input (Some INTERPRETER_SYSTEM_PROMPT) None)
    interpreter_options = Py.Return r ->
  embed [user_input] = Py.Return (v1 :: rest1) ->
  VectorDB.len v1 = Memory.dim m ->
  (Py.nonempty (Kernel.output_of r) = true ->
   exists v2 rest2,
     embed [Kernel.output_of r] = Py.Return (v2 :: rest2)
     /\ VectorDB.len v2 = Memory.dim m) ->
  let n := length (VectorDB.records (Memory.store m)) in
  exists m' v2,
    snd (execute repr am user_input)
    = {| kernel := Kernel.with_memory (kernel am) m'; tools := tools am |}
    /\ VectorDB.records (Memory.store m')
       = (VectorDB.records (Memory.store m)
          ++ (vec_id (n + 1), Turn.text_record (vec_id (n + 1)) v1 user_input)
          :: (if Py.nonempty (Kernel.output_of r)
              then [(vec_id (n + 2),
                     Turn.text_record (vec_id (n + 2)) v2 (Kernel.output_of r))]
              else []))%list.
Proof.
  intros Hm He [Hdense Hd] Hg Hv1 Hl1 Hout n.
  destruct (TurnProps.turn_stores (kernel am) m embed user_input (Kernel.output_of r)
              v1 rest1 Hm He Hd Hdense Hv1 Hl1 Hout)
    as (m' & v2 & Hs & Hr & _).
  exists m', v2. split; [|exact Hr].
  rewrite execute_state. unfold Kernel.process_input. now rewrite Hg, Hs.
Qed.

End WithRepr.

Lemma execute_remembers_the_plan_witness :
  exists m' v2,
    snd (execute Ex2.no_repr
           {| kernel := Ex2.kernel_with_memory Ex2.fitting_text;
              tools := {[ "needs_a" := Ex.needs_a ]} |} "call it")
    = {| kernel := Kernel.with_memory (Ex2.kernel_with_memory Ex2.fitting_text) m';
         tools := {[ "needs_a" := Ex.needs_a ]} |}
    /\ VectorDB.records (Memory.store m')
       = [("vec_1", Turn.text_record "vec_1" Ex.v10 "call it");
          ("vec_2", Turn.text_record "vec_2" v2 Ex2.fitting_text)].
Proof.
  exact (execute_remembers_the_plan Ex2.no_repr
           {| kernel := Ex2.kernel_with_memory Ex2.fitting_text;
              tools := {[ "needs_a" := Ex.needs_a ]} |}
           Ex2.working_memory Ex2.constant_embedder "call it"
           {| Kernel.text := Some Ex2.fitting_text |} Ex.v10 []
           eq_refl eq_refl (conj eq_refl eq_refl) eq_refl eq_refl eq_refl
           (fun _ => ex_intro _ Ex.v10 (ex_intro _ [] (conj eq_refl eq_refl)))).
Defined.

Lemma plain_text_is_returned_witness :
  execute Ex2.no_repr (Ex.manager_says "It is sunny.") "weather?"
  = (Py.Return "It is sunny.",
     {| kernel := Ex.kernel_says "It is sunny.";
        tools := tools (Ex.manager_says "It is sunny.") |}).
Proof.
  exact (proj2 (plain_text_is_returned Ex2.no_repr
                  (Ex.manager_says "It is sunny.") "weather?" "It is sunny."
                  (Ex.kernel_says "It is sunny.") eq_refl) eq_refl).
Defined.

Lemma tool_result_is_returned_witness :
  fst (execute Ex2.no_repr (Ex.manager_says Ex2.fitting_text) "call it")
  = Py.Return "x"
  /\ fst (execute Ex2.no_repr (Ex2.manager_with "power" Ex2.power Ex2.power_text)
            "ten to the 4300")
     = Py.Raise Py.digit_limit_error.
Proof.
  split.
  - refine (proj1 (proj2
              (tool_result_is_returned Ex2.no_repr
                 (Ex.manager_says Ex2.fitting_text) "call it" Ex2.fitting_text
                 (Ex.kernel_says Ex2.fitting_text)
                 [("action", JStr "needs_a"); ("args", JObj [("a", JStr "x")])]
                 "needs_a" Ex.needs_a [("a", JStr "x")] (JStr "x")
                 eq_refl ltac:(vm_compute; reflexivity) eq_refl
                 ltac:(discriminate) ltac:(vm_compute; reflexivity) eq_refl _ eq_refl))
              "x" eq_refl).
    cbn. intros [(k & Hk & Hacc)|(p & Hp & Hmem)].
    + destruct Hk as [<-|[]]. discriminate.
    + destruct Hp as [<-|[]]. discriminate.
  - assert (Hparse : _safe_parse_action Ex2.power_text
                     = Some [("action", JStr "power"); ("args", JObj [])])
      by (vm_compute; reflexivity).
    assert (Htool : tools (Ex2.manager_with "power" Ex2.power Ex2.power_text) !! "power"
                    = Some Ex2.power)
      by (vm_compute; reflexivity).
    assert (Hfit : ~ shape_mismatch Ex2.power (JObj []))
      by (cbn; intros [(k & [] & _)|(p & [] & _)]).
    assert (Hbig : (Py.int_max_str_digits <? Py.int_digits (10 ^ 4300))%Z = true)
      by (vm_compute; reflexivity).
    destruct (tool_result_is_returned Ex2.no_repr
                (Ex2.manager_with "power" Ex2.power Ex2.power_text)
                "ten to the 4300" Ex2.power_text (Ex.kernel_says Ex2.power_text)
                [("action", JStr "power"); ("args", JObj [])]
                "power" Ex2.power [] (JInt (10 ^ 4300))
                eq_refl Hparse eq_refl ltac:(discriminate) Htool eq_refl Hfit eq_refl)
      as (_ & _ & H).
    rewrite (H (10 ^ 4300)%Z eq_refl), Hbig. reflexivity.
Defined.

Lemma registry_decides_the_call_witness :
  fst (execute Ex2.no_repr
         (unregister_tool (Ex.manager_says Ex2.fitting_text) "needs_a") "call it")
  = Py.Return "Unknown tool: needs_a".
Proof.
  exact (proj1 (registry_decides_the_call Ex2.no_repr
                  (Ex.manager_says Ex2.fitting_text) "call it" Ex2.fitting_text
                  (Ex.kernel_says Ex2.fitting_text)
                  [("action", JStr "needs_a"); ("args", JObj [("a", JStr "x")])]
                  "needs_a"
                  eq_refl ltac:(vm_compute; reflexivity) eq_refl ltac:(discriminate))).
Defined.

End ExecuteProps.
